(** * finbot: transaction settlement, verified against its Python source

    A shallow embedding of the settlement core of the bot:

    - [utils/exceptions.py]   the exception classes, as one inductive type;
    - [db/models.py]          the enums, the transaction state machine and the
                              dataclasses [User], [Transaction], [Payment];
    - [utils/retry.py]        [CircuitBreaker] and [retry_async];
    - [services/ichancy_service.py]  the response classification of [_request];
    - [db/repository.py]      the repositories, over tables kept as row lists;
    - [services/wallet_service.py]   [initiate_deposit], [complete_deposit]
                              and [initiate_withdrawal].

    Conventions.  Python code that mutates the database, calls the remote
    wallet or raises is written in a state-and-exception monad [Py] over a
    [World]; an exception keeps the writes made before it, as each repository
    call commits on its own.  Amounts are Python floats in the source: the
    workflows only add, subtract and compare them, so they are kept abstract
    behind the class [Money].  [datetime.utcnow()] readings, [uuid4()] draws and
    the outcomes of remote calls are inputs of the functions that use them. *)

From Stdlib Require Import ZArith QArith List String Bool Lia Permutation Sorted.
Import ListNotations.
Open Scope string_scope.
Open Scope list_scope.
Open Scope Z_scope.

Set Implicit Arguments.
Set Warnings "-register-all".

(* ================================================================== *)
(** * Numbers *)

(** The arithmetic the ledger code performs on amounts and balances
    ([+], [-], [<] on Python floats / SQLite REAL columns).  [is_nan] is
    [math.isnan]: the float that is not a number, which sqlite3 binds as
    NULL. *)
Class Money (M : Type) := {
  madd : M -> M -> M;
  msub : M -> M -> M;
  mlt : M -> M -> bool;
  mneg : M -> M;
  mzero : M;
  is_nan : M -> bool
}.

#[export] Instance Money_Z : Money Z := {
  madd := Z.add;
  msub := Z.sub;
  mlt := Z.ltb;
  mneg := Z.opp;
  mzero := 0;
  is_nan := fun _ => false
}.

(** The arithmetic [retry_async] performs on delays
    ([current_delay *= backoff]): one multiplication, on Python floats in the
    source.  Nothing is assumed of it. *)
Class Scalar (R : Type) := {
  smul : R -> R -> R
}.

#[export] Instance Scalar_Z : Scalar Z := {
  smul := Z.mul
}.

(** Exact arithmetic: a multiplication that is associative and has a unit
    (the integers, the rationals; not the floats).  There, and only there,
    multiplying [i] times by [b] is multiplying by the power [b ^ i]. *)
Class ExactScalar (R : Type) `{Scalar R} := {
  sone : R;
  smul_assoc : forall a b c : R, smul (smul a b) c = smul a (smul b c);
  smul_1_r : forall a : R, smul a sone = a
}.

Arguments ExactScalar R {_}.

#[export] Instance ExactScalar_Z : ExactScalar Z := {
  sone := 1;
  smul_assoc := fun a b c => eq_sym (Z.mul_assoc a b c);
  smul_1_r := Z.mul_1_r
}.

Fixpoint spow {R} `{ExactScalar R} (b : R) (i : nat) : R :=
  match i with
  | O => sone
  | S j => smul b (spow b j)
  end.

(* ================================================================== *)
(** * Python values *)

(** What [response.json()] returns, and the values of the dynamically typed
    fields that carry it ([IchancyResponse.data], [.error], [.raw_response]).
    [JNull] is Python's [None]; a [JObj] is a [dict], read by first match. *)
Inductive json : Type :=
| JNull
| JBool (b : bool)
| JNum (q : Q)
| JStr (s : string)
| JArr (items : list json)
| JObj (fields : list (string * json)).

(** Python truthiness ([bool(v)]). *)
Definition truthy (v : json) : bool :=
  match v with
  | JNull => false
  | JBool b => b
  | JNum q => negb (Qnum q =? 0)
  | JStr s => negb (s =? "")%string
  | JArr items => match items with [] => false | _ => true end
  | JObj fields => match fields with [] => false | _ => true end
  end.

(** Truthiness of an [Optional[str]]. *)
Definition truthy_str (o : option string) : bool :=
  match o with
  | Some s => negb (s =? "")%string
  | None => false
  end.

Fixpoint assoc_get (fields : list (string * json)) (k : string) : option json :=
  match fields with
  | [] => None
  | (k', v) :: rest => if (k' =? k)%string then Some v else assoc_get rest k
  end.

(** [d.get(k)] *)
Definition dict_get (fields : list (string * json)) (k : string) : json :=
  match assoc_get fields k with Some v => v | None => JNull end.

(** [d.get(k, default)] *)
Definition dict_get_default (fields : list (string * json)) (k : string) (d : json) : json :=
  match assoc_get fields k with Some v => v | None => d end.

(** [v == s] for a string literal [s]. *)
Definition eq_str (v : json) (s : string) : bool :=
  match v with
  | JStr t => (t =? s)%string
  | _ => false
  end.

(** [a or b] *)
Definition py_or (a b : json) : json := if truthy a then a else b.

(* ================================================================== *)
(** * utils/exceptions.py *)

(** The exception classes the modelled code raises or names, each with the
    arguments of its constructor.  [BuiltinError] stands for exceptions of
    Python and of sqlite3 ([AttributeError], [TypeError],
    [sqlite3.IntegrityError]), with the class name first. *)
Inductive exn (M : Type) : Type :=
| NetworkException (message : string)
| APITimeoutException (service : string)
| APIConnectionException (service reason : string)
| InsufficientBalanceException (user_id : Z) (required available : M)
| DuplicateTransactionException (idempotency_key original_transaction_id : string)
| TransactionStateException (transaction_id current_state attempted_state : string)
| UserNotFoundException (identifier : Z)
| UserBlockedException (user_id : Z) (reason : option string)
| BuiltinError (class_name message : string).

Arguments NetworkException {M}.
Arguments APITimeoutException {M}.
Arguments APIConnectionException {M}.
Arguments InsufficientBalanceException {M}.
Arguments DuplicateTransactionException {M}.
Arguments TransactionStateException {M}.
Arguments UserNotFoundException {M}.
Arguments UserBlockedException {M}.
Arguments BuiltinError {M}.

(** [isinstance(e, NetworkException)]: the class and its two subclasses. *)
Definition is_network_exception {M} (e : exn M) : bool :=
  match e with
  | NetworkException _ | APITimeoutException _ | APIConnectionException _ _ => true
  | _ => false
  end.

(** How a call ends: it returns a value or raises. *)
Inductive outcome (M A : Type) : Type :=
| Ret (a : A)
| Raise (e : exn M).

Arguments Ret {M A}.
Arguments Raise {M A}.

(** What Python's [str()] gives for the values the code formats into
    messages: a JSON value that is not a string, and an exception. *)
Class PyStr (M : Type) := {
  json_repr : json -> string;
  exn_str : exn M -> string
}.

(** [f"{v}"] for a field holding a JSON value. *)
Definition py_str {M} `{PyStr M} (v : json) : string :=
  match v with
  | JStr s => s
  | JNull => "None"
  | _ => json_repr v
  end.

(* ================================================================== *)
(** * db/models.py *)

Inductive TransactionType := DEPOSIT | WITHDRAWAL | BONUS | REFUND | ADJUSTMENT.

Inductive TransactionState :=
| PENDING | PROCESSING | COMPLETED | FAILED | PARTIALLY_FAILED | CANCELLED | REVERSED.

Inductive PaymentProvider := SYRIATEL_CASH | SHAM_CASH | MANUAL.

(** The members of [PaymentState] carry a prefix here: PENDING and FAILED
    name states of a transaction. *)
Inductive PaymentState := PAY_PENDING | PAY_VERIFIED | PAY_FAILED | PAY_EXPIRED.

Inductive UserState := ACTIVE | BLOCKED | PENDING_VERIFICATION.

Definition TransactionState_eqb (a b : TransactionState) : bool :=
  match a, b with
  | PENDING, PENDING | PROCESSING, PROCESSING | COMPLETED, COMPLETED
  | FAILED, FAILED | PARTIALLY_FAILED, PARTIALLY_FAILED
  | CANCELLED, CANCELLED | REVERSED, REVERSED => true
  | _, _ => false
  end.

Definition PaymentState_eqb (a b : PaymentState) : bool :=
  match a, b with
  | PAY_PENDING, PAY_PENDING | PAY_VERIFIED, PAY_VERIFIED
  | PAY_FAILED, PAY_FAILED | PAY_EXPIRED, PAY_EXPIRED => true
  | _, _ => false
  end.

Definition UserState_eqb (a b : UserState) : bool :=
  match a, b with
  | ACTIVE, ACTIVE | BLOCKED, BLOCKED
  | PENDING_VERIFICATION, PENDING_VERIFICATION => true
  | _, _ => false
  end.

(** [TransactionState.value] *)
Definition TransactionState_value (s : TransactionState) : string :=
  match s with
  | PENDING => "pending"
  | PROCESSING => "processing"
  | COMPLETED => "completed"
  | FAILED => "failed"
  | PARTIALLY_FAILED => "partially_failed"
  | CANCELLED => "cancelled"
  | REVERSED => "reversed"
  end.

(** [TransactionState.valid_transitions()], the dict read at one key. *)
Definition valid_transitions (s : TransactionState) : list TransactionState :=
  match s with
  | PENDING => [PROCESSING; CANCELLED]
  | PROCESSING => [COMPLETED; FAILED; PARTIALLY_FAILED]
  | COMPLETED => [REVERSED]
  | FAILED => [PENDING]
  | PARTIALLY_FAILED => []
  | CANCELLED => []
  | REVERSED => []
  end.

(** [TransactionState.can_transition_to] *)
Definition can_transition_to (s new_state : TransactionState) : bool :=
  existsb (TransactionState_eqb new_state) (valid_transitions s).

(** The dataclasses.  Timestamps are [datetime] values, kept as integers
    (microseconds); [None] is [None]. *)
Module User.
Record t (M : Type) := mk {
  id : Z;
  telegram_username : option string;
  ichancy_username : option string;
  ichancy_password : option string;
  ichancy_registered : bool;
  state : UserState;
  local_balance : M;
  total_deposited : M;
  total_withdrawn : M;
  created_at : Z;
  updated_at : Z;
  blocked_reason : option string
}.
End User.

Module Transaction.
Record t (M : Type) := mk {
  id : string;
  user_id : Z;
  type : TransactionType;
  state : TransactionState;
  amount : M;
  currency : string;
  idempotency_key : option string;
  payment_reference : option string;
  ichancy_reference : option string;
  processing_started_at : option Z;
  completed_at : option Z;
  error_message : option string;
  retry_count : Z;
  created_at : Z;
  updated_at : Z;
  balance_before : option M;
  balance_after : option M
}.
End Transaction.

Module Payment.
Record t (M : Type) := mk {
  id : string;
  user_id : Z;
  transaction_id : option string;
  provider : PaymentProvider;
  state : PaymentState;
  amount : M;
  provider_reference : option string;
  phone_number : option string;
  verified_at : option Z;
  verification_attempts : Z;
  created_at : Z;
  expires_at : option Z
}.
End Payment.

Definition PaymentProvider_value (p : PaymentProvider) : string :=
  match p with
  | SYRIATEL_CASH => "syriatel_cash"
  | SHAM_CASH => "sham_cash"
  | MANUAL => "manual"
  end.

(* ================================================================== *)
(** * utils/retry.py *)

Inductive CircuitState := CLOSED | OPEN | HALF_OPEN.

Definition CircuitState_value (s : CircuitState) : string :=
  match s with
  | CLOSED => "closed"
  | OPEN => "open"
  | HALF_OPEN => "half_open"
  end.

(** The dataclass [CircuitBreaker].  A breaker is one mutable object shared
    by every caller of a dependency: each method takes the object and gives
    back the object after the call.  Clock readings ([datetime.utcnow()])
    and [recovery_timeout] are integers in one unit of time. *)
Module CircuitBreaker.

Record t := mk {
  name : string;
  failure_threshold : Z;
  recovery_timeout : Z;
  half_open_max_calls : Z;
  _state : CircuitState;
  _failure_count : Z;
  _last_failure_time : option Z;
  _half_open_calls : Z
}.

(** [CircuitBreaker(name=..., failure_threshold=..., ...)]: the fields with
    [init=False] start at their defaults. *)
Definition init (name : string) (failure_threshold recovery_timeout half_open_max_calls : Z) : t :=
  mk name failure_threshold recovery_timeout half_open_max_calls CLOSED 0 None 0.

(** The property [state], read when the clock shows [now]: the breaker
    after the read, and the state returned. *)
Definition state (now : Z) (b : t) : t * CircuitState :=
  match _state b with
  | OPEN =>
      match _last_failure_time b with
      | Some last =>
          if now - last >=? recovery_timeout b
          then (mk (name b) (failure_threshold b) (recovery_timeout b) (half_open_max_calls b)
                   HALF_OPEN (_failure_count b) (_last_failure_time b) 0,
                HALF_OPEN)
          else (b, OPEN)
      | None => (b, OPEN)
      end
  | s => (b, s)
  end.

Definition record_success (b : t) : t :=
  match _state b with
  | HALF_OPEN =>
      let calls := _half_open_calls b + 1 in
      if calls >=? half_open_max_calls b
      then mk (name b) (failure_threshold b) (recovery_timeout b) (half_open_max_calls b)
              CLOSED 0 (_last_failure_time b) calls
      else mk (name b) (failure_threshold b) (recovery_timeout b) (half_open_max_calls b)
              HALF_OPEN (_failure_count b) (_last_failure_time b) calls
  | CLOSED =>
      mk (name b) (failure_threshold b) (recovery_timeout b) (half_open_max_calls b)
         CLOSED 0 (_last_failure_time b) (_half_open_calls b)
  | OPEN => b
  end.

Definition record_failure (now : Z) (b : t) : t :=
  let count := _failure_count b + 1 in
  let new_state :=
    match _state b with
    | HALF_OPEN => OPEN
    | CLOSED => if count >=? failure_threshold b then OPEN else CLOSED
    | OPEN => OPEN
    end in
  mk (name b) (failure_threshold b) (recovery_timeout b) (half_open_max_calls b)
     new_state count (Some now) (_half_open_calls b).

Definition can_execute (now : Z) (b : t) : t * bool :=
  let (b', s) := state now b in
  match s with
  | CLOSED => (b', true)
  | HALF_OPEN => (b', true)
  | OPEN => (b', false)
  end.

End CircuitBreaker.

(** [retry_async].  [max_retries], [delay] and [backoff] are the values after
    the defaults of [config] have been filled in. *)
Section RetryAsync.
Context {M R A : Type} `{Scalar R}.

(** What one iteration reads from outside: the clock inside [can_execute],
    the clock inside the [state] read that builds the rejection's details,
    how the awaited [func] ends, and the clock inside [record_failure]. *)
Record Attempt := {
  at_can_execute : Z;
  at_state : Z;
  func_result : outcome M A;
  at_record_failure : Z
}.

(** What a run does besides updating the breaker, in order. *)
Inductive Effect :=
| CALL_FUNC (attempt : nat)
| ON_RETRY (attempt : nat) (e : exn M)
| SLEEP (d : R).

Record RetryArgs := {
  max_retries : Z;
  delay : R;
  backoff : R;
  exceptions : exn M -> bool;
  circuit_breaker : option CircuitBreaker.t;
  on_retry : bool
}.

(** [raise last_exception] after the loop; with no iteration at all
    [last_exception] is still [None]. *)
Definition raise_last (last_exception : option (exn M)) : outcome M A :=
  match last_exception with
  | Some e => Raise e
  | None => Raise (BuiltinError "TypeError" "exceptions must derive from BaseException")
  end.

(** The breaker's answer at the top of an iteration:
    [circuit_breaker and not circuit_breaker.can_execute()] is false when no
    breaker is attached. *)
Definition breaker_check (now : Z) (cb : option CircuitBreaker.t)
  : option CircuitBreaker.t * bool :=
  match cb with
  | Some b => let (b', ok) := CircuitBreaker.can_execute now b in (Some b', ok)
  | None => (None, true)
  end.

(** How one iteration of the loop ends: the run is over ([return] or
    [raise]), or the loop goes on with a breaker, a delay and a last
    exception.  Both carry what the iteration did. *)
Inductive Step :=
| STOP (o : outcome M A) (cb : option CircuitBreaker.t) (effects : list Effect)
| NEXT (cb : option CircuitBreaker.t) (current_delay : R) (last_exception : exn M)
       (effects : list Effect).

(** The body of [for attempt in range(max_retries + 1)]. *)
Definition retry_iteration (env : nat -> Attempt) (args : RetryArgs)
    (attempt : nat) (cb : option CircuitBreaker.t) (current_delay : R) : Step :=
  let a := env attempt in
  match breaker_check (at_can_execute a) cb with
  | (Some b, false) =>
      STOP (Raise (NetworkException
                     ("Service " ++ CircuitBreaker.name b
                        ++ " unavailable (circuit breaker open)")))
           (Some (fst (CircuitBreaker.state (at_state a) b))) []
  | (cb1, _) =>
      match func_result a with
      | Ret result =>
          STOP (Ret result) (option_map CircuitBreaker.record_success cb1) [CALL_FUNC attempt]
      | Raise e =>
          if exceptions args e then
            let cb2 := option_map (CircuitBreaker.record_failure (at_record_failure a)) cb1 in
            if Z.of_nat attempt <? max_retries args then
              NEXT cb2 (smul current_delay (backoff args)) e
                   (CALL_FUNC attempt
                    :: (if on_retry args then [ON_RETRY (S attempt) e] else [])
                    ++ [SLEEP current_delay])
            else NEXT cb2 current_delay e [CALL_FUNC attempt]
          else STOP (Raise e) cb1 [CALL_FUNC attempt]
      end
  end.

(** The loop from iteration [attempt] on, with [iterations] of them left,
    and the [raise last_exception] that follows it. *)
Fixpoint retry_loop (env : nat -> Attempt) (args : RetryArgs)
    (iterations attempt : nat) (cb : option CircuitBreaker.t)
    (current_delay : R) (last_exception : option (exn M))
  : outcome M A * option CircuitBreaker.t * list Effect :=
  match iterations with
  | O => (raise_last last_exception, cb, [])
  | S rest =>
      match retry_iteration env args attempt cb current_delay with
      | STOP o cb' effects => (o, cb', effects)
      | NEXT cb' current_delay' e effects =>
          let '(o, cb'', later) :=
            retry_loop env args rest (S attempt) cb' current_delay' (Some e) in
          (o, cb'', effects ++ later)
      end
  end.

Definition retry_async (env : nat -> Attempt) (args : RetryArgs)
  : outcome M A * option CircuitBreaker.t * list Effect :=
  retry_loop env args (Z.to_nat (max_retries args + 1)) 0
             (circuit_breaker args) (delay args) None.

(** Attempt [i] ends in an exception of the retried kinds. *)
Definition fails_retryably (env : nat -> Attempt) (args : RetryArgs) (i : nat) : Prop :=
  exists e, func_result (env i) = Raise e /\ exceptions args e = true.

(** The delays slept, and the number of times [func] was awaited. *)
Fixpoint sleeps (effects : list Effect) : list R :=
  match effects with
  | [] => []
  | SLEEP d :: rest => d :: sleeps rest
  | _ :: rest => sleeps rest
  end.

Fixpoint invocations (effects : list Effect) : nat :=
  match effects with
  | [] => O
  | CALL_FUNC _ :: rest => S (invocations rest)
  | _ :: rest => invocations rest
  end.

End RetryAsync.

Arguments Attempt : clear implicits.
Arguments Effect : clear implicits.
Arguments RetryArgs : clear implicits.
Arguments Step : clear implicits.

(** Runs of calls on one breaker: failures recorded at the given clock
    readings, a number of successes, and [can_execute] asked at the given
    readings with nothing recorded in between, counting the callers let
    through. *)
Definition record_failures (times : list Z) (b : CircuitBreaker.t) : CircuitBreaker.t :=
  fold_left (fun b now => CircuitBreaker.record_failure now b) times b.

Fixpoint record_successes (n : nat) (b : CircuitBreaker.t) : CircuitBreaker.t :=
  match n with
  | O => b
  | S k => record_successes k (CircuitBreaker.record_success b)
  end.

Fixpoint let_through (times : list Z) (b : CircuitBreaker.t) : nat * CircuitBreaker.t :=
  match times with
  | [] => (O, b)
  | now :: rest =>
      let (b1, ok) := CircuitBreaker.can_execute now b in
      let (n, b2) := let_through rest b1 in
      ((if ok then S n else n), b2)
  end.

(** Seconds in the unit of the clock (microseconds). *)
Definition seconds (n : Z) : Z := n * 1000000.

(** [_circuit_breakers], the registry of the process: a dict from names to
    breakers.  A breaker is stored once and shared: what a run does to the
    breaker it was handed is written back under the breaker's name. *)
Definition Registry : Type := list (string * CircuitBreaker.t).

Fixpoint registry_get (name : string) (registry : Registry) : option CircuitBreaker.t :=
  match registry with
  | [] => None
  | (k, b) :: rest => if (k =? name)%string then Some b else registry_get name rest
  end.

Fixpoint registry_set (name : string) (b : CircuitBreaker.t) (registry : Registry) : Registry :=
  match registry with
  | [] => [(name, b)]
  | (k, b') :: rest =>
      if (k =? name)%string then (k, b) :: rest else (k, b') :: registry_set name b rest
  end.

(** The keyword arguments [get_circuit_breaker] passes on to the
    constructor, each given or left to its default. *)
Record BreakerKwargs := {
  kw_failure_threshold : option Z;
  kw_recovery_timeout : option Z;
  kw_half_open_max_calls : option Z
}.

Definition no_kwargs : BreakerKwargs :=
  {| kw_failure_threshold := None; kw_recovery_timeout := None; kw_half_open_max_calls := None |}.

Definition or_default (o : option Z) (d : Z) : Z :=
  match o with
  | Some v => v
  | None => d
  end.

(** [get_circuit_breaker(name, **kwargs)] *)
Definition get_circuit_breaker (name : string) (kwargs : BreakerKwargs) (registry : Registry)
  : CircuitBreaker.t * Registry :=
  match registry_get name registry with
  | Some b => (b, registry)
  | None =>
      let b := CircuitBreaker.init name
                 (or_default (kw_failure_threshold kwargs) 5)
                 (or_default (kw_recovery_timeout kwargs) (seconds 30))
                 (or_default (kw_half_open_max_calls kwargs) 3) in
      (b, registry_set name b registry)
  end.

(** The retry settings of [config]. *)
Record Config (R : Type) := {
  MAX_RETRIES : Z;
  RETRY_DELAY : R;
  RETRY_BACKOFF : R
}.

(** The arguments of the decorator [with_retry]; [None] is a value not
    given, which [retry_async] takes from [config]. *)
Record Decorator (M R : Type) := {
  given_max_retries : option Z;
  given_delay : option R;
  given_backoff : option R;
  given_exceptions : exn M -> bool;
  circuit_breaker_name : option string
}.

(** The wrapper [with_retry] puts around a function, called once: it
    fetches the breaker by name and runs [retry_async]. *)
Definition with_retry {M R A : Type} `{Scalar R} (config : Config R) (decorator : Decorator M R)
    (env : nat -> Attempt M A) (registry : Registry)
  : outcome M A * Registry * list (Effect M R) :=
  let name :=
    if truthy_str (circuit_breaker_name decorator) then circuit_breaker_name decorator
    else None in
  let fetched :=
    match name with
    | Some name =>
        let (b, registry1) := get_circuit_breaker name no_kwargs registry in
        (Some b, registry1)
    | None => (None, registry)
    end in
  let args :=
    {| max_retries := or_default (given_max_retries decorator) (MAX_RETRIES config);
       delay := match given_delay decorator with Some d => d | None => RETRY_DELAY config end;
       backoff := match given_backoff decorator with
                  | Some b => b
                  | None => RETRY_BACKOFF config
                  end;
       exceptions := given_exceptions decorator;
       circuit_breaker := fst fetched;
       on_retry := false |} in
  let '(o, cb, effects) := retry_async env args in
  (o,
   match name, cb with
   | Some name, Some b => registry_set name b (snd fetched)
   | _, _ => snd fetched
   end,
   effects).

(* ================================================================== *)
(** * services/ichancy_service.py *)

Module IchancyResponse.
Record t := mk {
  success : bool;
  data : json;
  error : json;
  raw_response : json
}.
End IchancyResponse.

(** What the HTTP round trip of [_request] ends in: a response, with its
    status, its text and what [response.json()] makes of the text ([None]
    when it raises [ValueError]), or one of the exceptions of [requests]. *)
Inductive Transport :=
| HTTP_RESPONSE (status_code : Z) (text : string) (parsed : option json)
| REQUESTS_TIMEOUT
| REQUESTS_CONNECTION_ERROR (message : string)
| OTHER_EXCEPTION (message : string).

(** The test for an error reported inside a JSON object:
    [data.get("hasError") == "yes" or data.get("error") or
     data.get("status") == "error"]. *)
Definition has_error_flag (fields : list (string * json)) : bool :=
  eq_str (dict_get fields "hasError") "yes"
  || truthy (dict_get fields "error")
  || eq_str (dict_get fields "status") "error".

(** [IchancyService._request], from the end of the round trip on.
    [int_str] is [str()] on the status code. *)
Definition _request {M : Type} (int_str : Z -> string) (t : Transport)
  : outcome M IchancyResponse.t :=
  match t with
  | HTTP_RESPONSE status_code text parsed =>
      if status_code >=? 400 then
        Ret (IchancyResponse.mk false JNull
               (JStr ("HTTP " ++ int_str status_code ++ ": " ++ text)) (JStr text))
      else
        match parsed with
        | Some data =>
            match data with
            | JObj fields =>
                if has_error_flag fields then
                  let error_msg :=
                    py_or (dict_get fields "msg")
                          (py_or (dict_get fields "error")
                                 (dict_get_default fields "message" (JStr "Unknown error"))) in
                  Ret (IchancyResponse.mk false data error_msg data)
                else Ret (IchancyResponse.mk true data JNull data)
            | _ => Ret (IchancyResponse.mk true data JNull data)
            end
        | None =>
            Ret (IchancyResponse.mk true (JObj [("raw", JStr text)]) JNull (JStr text))
        end
  | REQUESTS_TIMEOUT => Raise (APITimeoutException "ichancy")
  | REQUESTS_CONNECTION_ERROR message => Raise (APIConnectionException "ichancy" message)
  | OTHER_EXCEPTION message => Raise (NetworkException ("Ichancy API error: " ++ message))
  end.

(** One HTTP round trip of a decorated method, with the clock readings the
    executor takes around it. *)
Record Trip := {
  trip_transport : Transport;
  trip_at_can_execute : Z;
  trip_at_state : Z;
  trip_at_record_failure : Z
}.

(** The breaker the module creates when it is imported:
    [get_circuit_breaker("ichancy", failure_threshold=5, recovery_timeout=60.0)]. *)
Definition ichancy_registry : Registry :=
  snd (get_circuit_breaker "ichancy"
         {| kw_failure_threshold := Some 5;
            kw_recovery_timeout := Some (seconds 60);
            kw_half_open_max_calls := None |} []).

(** A method of [IchancyService] under its decorator
    [@with_retry(max_retries=n, exceptions=(NetworkException, ...),
    circuit_breaker_name="ichancy")]: each attempt is one [_request].  The
    tuples of the source list [NetworkException] and subclasses of it, so
    the test is [isinstance(e, NetworkException)] for all of them. *)
Definition ichancy_method {M R : Type} `{Scalar R} (n : Z) (config : Config R)
    (int_str : Z -> string) (trips : nat -> Trip) (registry : Registry)
  : outcome M IchancyResponse.t * Registry * list (Effect M R) :=
  with_retry config
    {| given_max_retries := Some n;
       given_delay := None;
       given_backoff := None;
       given_exceptions := is_network_exception;
       circuit_breaker_name := Some "ichancy" |}
    (fun attempt =>
       {| at_can_execute := trip_at_can_execute (trips attempt);
          at_state := trip_at_state (trips attempt);
          func_result := _request int_str (trip_transport (trips attempt));
          at_record_failure := trip_at_record_failure (trips attempt) |})
    registry.

(** [check_status], [deposit], [withdrawal], [get_player_balance] and
    [check_agent_balance] retry three times, [create_player] and
    [change_password] twice. *)
Module IchancyMethods.
Section Defs.
Context {M R : Type} `{Scalar R}.
Definition check_status := @ichancy_method M R _ 3.
Definition create_player := @ichancy_method M R _ 2.
Definition deposit := @ichancy_method M R _ 3.
Definition withdrawal := @ichancy_method M R _ 3.
Definition get_player_balance := @ichancy_method M R _ 3.
Definition check_agent_balance := @ichancy_method M R _ 3.
Definition change_password := @ichancy_method M R _ 2.
End Defs.
End IchancyMethods.

(** The remote wallet as the workflows meet it: what each awaited method of
    [ichancy_service] (the decorated method, retries and breaker included)
    ends in, a response or an exception. *)
Module IchancyService.
Record t (M : Type) := mk {
  deposit : string -> M -> outcome M IchancyResponse.t;
  withdrawal : string -> M -> outcome M IchancyResponse.t;
  get_player_balance : string -> outcome M IchancyResponse.t
}.
End IchancyService.

(* ================================================================== *)
(** * The world the workflows run in *)

(** A call made on [ichancy_service]. *)
Inductive IchancyCall (M : Type) :=
| CALL_DEPOSIT (player_name : string) (amount : M)
| CALL_WITHDRAWAL (player_name : string) (amount : M)
| CALL_GET_PLAYER_BALANCE (player_name : string).

Arguments CALL_GET_PLAYER_BALANCE {M}.

(** An entry of the audit log ([logger.audit_*]), without its timestamp. *)
Inductive AuditEntry (M : Type) :=
| TRANSACTION_START (transaction_id type : string) (user_id : Z) (amount : M) (provider : string)
| TRANSACTION_STATE_CHANGE (transaction_id from_state to_state : string)
| BALANCE_CHANGE (user_id : Z) (change_type : string) (amount balance_before balance_after : M)
                 (transaction_id : string)
| TRANSACTION_COMPLETE (transaction_id : string) (success : bool) (final_state : string) (amount : M)
| PAYMENT_RECEIVED (user_id : Z) (provider : string) (amount : M) (reference : string).

Arguments TRANSACTION_STATE_CHANGE {M}.

(** The three tables, rows in insertion order; the calls made on the remote
    wallet so far; the audit log. *)
Record World (M : Type) := mkWorld {
  users : list (User.t M);
  transactions : list (Transaction.t M);
  payments : list (Payment.t M);
  ichancy_calls : list (IchancyCall M);
  audit_log : list (AuditEntry M)
}.

(** Python code with effects: from a world to how the call ends and the
    world it leaves.  An exception keeps the world reached when it was
    raised. *)
Definition Py (M A : Type) : Type := World M -> outcome M A * World M.

Section PyMonad.
Context {M : Type}.

Definition ret {A} (a : A) : Py M A := fun w => (Ret a, w).

Definition raise {A} (e : exn M) : Py M A := fun w => (Raise e, w).

Definition bind {A B} (c : Py M A) (k : A -> Py M B) : Py M B :=
  fun w =>
    match c w with
    | (Ret a, w') => k a w'
    | (Raise e, w') => (Raise e, w')
    end.

(** [try: body / except Exception as e: handler] *)
Definition try_except {A} (body : Py M A) (handler : exn M -> Py M A) : Py M A :=
  fun w =>
    match body w with
    | (Ret a, w') => (Ret a, w')
    | (Raise e, w') => handler e w'
    end.

Definition gets {A} (f : World M -> A) : Py M A := fun w => (Ret (f w), w).

Definition modify (f : World M -> World M) : Py M unit := fun w => (Ret tt, f w).

Definition set_users (rows : list (User.t M)) (w : World M) : World M :=
  mkWorld rows (transactions w) (payments w) (ichancy_calls w) (audit_log w).

Definition set_transactions (rows : list (Transaction.t M)) (w : World M) : World M :=
  mkWorld (users w) rows (payments w) (ichancy_calls w) (audit_log w).

Definition set_payments (rows : list (Payment.t M)) (w : World M) : World M :=
  mkWorld (users w) (transactions w) rows (ichancy_calls w) (audit_log w).

(** One [logger.audit_*] call. *)
Definition audit (entry : AuditEntry M) : Py M unit :=
  modify (fun w => mkWorld (users w) (transactions w) (payments w) (ichancy_calls w)
                           (audit_log w ++ [entry])).

(** [await ichancy_service.method(...)]: the call is recorded, and ends as
    the remote side decides. *)
Definition await_ichancy (call : IchancyCall M) (result : outcome M IchancyResponse.t)
  : Py M IchancyResponse.t :=
  fun w => (result, mkWorld (users w) (transactions w) (payments w)
                            (ichancy_calls w ++ [call]) (audit_log w)).

(** [UPDATE table SET ... WHERE key = ?]: every row the condition selects
    is rewritten. *)
Definition update_where {Row} (selected : Row -> bool) (set : Row -> Row) (rows : list Row)
  : list Row :=
  map (fun row => if selected row then set row else row) rows.

End PyMonad.

Declare Scope py_scope.
Delimit Scope py_scope with py.
Notation "x <- c ;; k" := (bind c (fun x => k))
  (at level 61, c at next level, right associativity) : py_scope.
Notation "c ;; k" := (bind c (fun _ => k))
  (at level 61, right associativity) : py_scope.
Open Scope py_scope.

(** The error sqlite3 raises when an INSERT breaks a PRIMARY KEY or UNIQUE
    constraint. *)
Definition IntegrityError {M} (message : string) : exn M :=
  BuiltinError "IntegrityError" message.

(** [ORDER BY column] and [ORDER BY column DESC] over rows given in
    insertion order.  SQLite leaves the order of rows with equal values
    open; here they keep their insertion order. *)
Section OrderBy.
Context {Row : Type} (column : Row -> Z).

Fixpoint place_ascending (r : Row) (sorted : list Row) : list Row :=
  match sorted with
  | [] => [r]
  | r' :: rest =>
      if column r <? column r' then r :: sorted else r' :: place_ascending r rest
  end.


Definition order_by (rows : list Row) : list Row :=
  fold_left (fun sorted r => place_ascending r sorted) rows [].


End OrderBy.


(** [a != b] on two [Optional[str]]. *)
Definition optional_str_differs (a b : option string) : bool :=
  match a, b with
  | Some x, Some y => negb (x =? y)%string
  | None, None => false
  | _, _ => true
  end.

(* ================================================================== *)
(** * db/repository.py *)

(** The integers SQLite stores and sqlite3 binds: 64 bits, signed.  Bound
    to a parameter, a Python integer outside this range raises OverflowError
    before the statement runs. *)
Definition sqlite_integer (n : Z) : Prop := - 2 ^ 63 <= n < 2 ^ 63.

Module UserRepository.
Section Defs.
Context {M : Type} `{Money M}.

Definition has_id (user_id : Z) (u : User.t M) : bool := User.id u =? user_id.

(** [user_id] is bound to the query as an integer parameter.  The
    repositories are modelled for ids that are [sqlite_integer]s, which the
    ids of stored rows and the ids Telegram issues are. *)
Definition get_by_id (user_id : Z) : Py M (option (User.t M)) :=
  gets (fun w => find (has_id user_id) (users w)).

(** The row after the UPDATE of [update_balance]. *)
Definition balance_row (now : Z) (new_balance deposit_delta withdraw_delta : M)
    (u : User.t M) : User.t M :=
  User.mk (User.id u) (User.telegram_username u) (User.ichancy_username u)
          (User.ichancy_password u) (User.ichancy_registered u) (User.state u)
          new_balance
          (madd (User.total_deposited u) deposit_delta)
          (madd (User.total_withdrawn u) withdraw_delta)
          (User.created_at u) now (User.blocked_reason u).

(** One [db.transaction()] holding one UPDATE statement. *)
Definition update_balance (now : Z) (user_id : Z) (new_balance deposit_delta withdraw_delta : M)
  : Py M bool :=
  modify (fun w =>
            set_users (update_where (has_id user_id)
                                    (balance_row now new_balance deposit_delta withdraw_delta)
                                    (users w)) w) ;;
  ret true.

Definition has_ichancy_username (username : string) (u : User.t M) : bool :=
  match User.ichancy_username u with
  | Some n => (n =? username)%string
  | None => false
  end.


(** The row the INSERT of [create] writes: its column list leaves
    [blocked_reason] out, and the column has no default. *)
Definition inserted_row (u : User.t M) : User.t M :=
  User.mk (User.id u) (User.telegram_username u) (User.ichancy_username u)
          (User.ichancy_password u) (User.ichancy_registered u) (User.state u)
          (User.local_balance u) (User.total_deposited u) (User.total_withdrawn u)
          (User.created_at u) (User.updated_at u) None.

(** [create]: [id] is the PRIMARY KEY and [ichancy_username] is UNIQUE
    (NULLs apart). *)
Definition create (user : User.t M) : Py M (User.t M) :=
  fun w =>
    if existsb (has_id (User.id user)) (users w)
    then (Raise (IntegrityError "UNIQUE constraint failed: users.id"), w)
    else if match User.ichancy_username user with
            | Some n => existsb (has_ichancy_username n) (users w)
            | None => false
            end
    then (Raise (IntegrityError "UNIQUE constraint failed: users.ichancy_username"), w)
    else (Ret user, set_users (users w ++ [inserted_row user]) w).

(** [user.updated_at = datetime.utcnow()] *)
Definition touch (now : Z) (u : User.t M) : User.t M :=
  User.mk (User.id u) (User.telegram_username u) (User.ichancy_username u)
          (User.ichancy_password u) (User.ichancy_registered u) (User.state u)
          (User.local_balance u) (User.total_deposited u) (User.total_withdrawn u)
          (User.created_at u) now (User.blocked_reason u).

(** The row after the UPDATE of [update]: ten columns are taken from the
    object, [id] and [created_at] stay. *)
Definition updated_row (user : User.t M) (row : User.t M) : User.t M :=
  User.mk (User.id row) (User.telegram_username user) (User.ichancy_username user)
          (User.ichancy_password user) (User.ichancy_registered user) (User.state user)
          (User.local_balance user) (User.total_deposited user) (User.total_withdrawn user)
          (User.created_at row) (User.updated_at user) (User.blocked_reason user).

(** Another row already holds the [ichancy_username] the object carries. *)
Definition username_taken (user : User.t M) (rows : list (User.t M)) : bool :=
  match User.ichancy_username user with
  | Some n =>
      existsb (fun row => has_ichancy_username n row && negb (has_id (User.id user) row)) rows
  | None => false
  end.

Definition update (now : Z) (user : User.t M) : Py M (User.t M) :=
  let user := touch now user in
  fun w =>
    if existsb (has_id (User.id user)) (users w) && username_taken user (users w)
    then (Raise (IntegrityError "UNIQUE constraint failed: users.ichancy_username"), w)
    else (Ret user,
          set_users (update_where (has_id (User.id user)) (updated_row user) (users w)) w).

End Defs.
End UserRepository.

Module TransactionRepository.
Section Defs.
Context {M : Type}.

Definition has_id (transaction_id : string) (t : Transaction.t M) : bool :=
  (Transaction.id t =? transaction_id)%string.

Definition has_key (key : string) (t : Transaction.t M) : bool :=
  match Transaction.idempotency_key t with
  | Some k => (k =? key)%string
  | None => false
  end.

Definition get_by_id (transaction_id : string) : Py M (option (Transaction.t M)) :=
  gets (fun w => find (has_id transaction_id) (transactions w)).

Definition get_by_idempotency_key (key : string) : Py M (option (Transaction.t M)) :=
  gets (fun w => find (has_key key) (transactions w)).

(** The row the INSERT of [create] writes: its column list leaves out
    [processing_started_at], [completed_at], [error_message] and
    [retry_count], which take the defaults of the schema (NULL, NULL, NULL
    and 0). *)
Definition inserted_row (t : Transaction.t M) : Transaction.t M :=
  Transaction.mk (Transaction.id t) (Transaction.user_id t) (Transaction.type t)
    (Transaction.state t) (Transaction.amount t) (Transaction.currency t)
    (Transaction.idempotency_key t) (Transaction.payment_reference t)
    (Transaction.ichancy_reference t) None None None 0
    (Transaction.created_at t) (Transaction.updated_at t)
    (Transaction.balance_before t) (Transaction.balance_after t).

(** The INSERT of [create]: [id] is the PRIMARY KEY and [idempotency_key]
    is UNIQUE (NULLs apart).  The column [amount] is declared NOT NULL, and
    sqlite3 binds the float NaN as NULL: the INSERT is modelled for amounts
    that are numbers ([is_nan] false), and what is proved of a successful
    [create] is stated for such amounts. *)
Definition insert (txn : Transaction.t M) : Py M unit :=
  fun w =>
    if existsb (has_id (Transaction.id txn)) (transactions w)
    then (Raise (IntegrityError "UNIQUE constraint failed: transactions.id"), w)
    else if match Transaction.idempotency_key txn with
            | Some key => existsb (has_key key) (transactions w)
            | None => false
            end
    then (Raise (IntegrityError "UNIQUE constraint failed: transactions.idempotency_key"), w)
    else (Ret tt, set_transactions (transactions w ++ [inserted_row txn]) w).

Definition create (txn : Transaction.t M) : Py M (Transaction.t M) :=
  existing <- (if truthy_str (Transaction.idempotency_key txn)
               then match Transaction.idempotency_key txn with
                    | Some key => get_by_idempotency_key key
                    | None => ret None
                    end
               else ret None) ;;
  match existing with
  | Some first =>
      raise (DuplicateTransactionException
               (match Transaction.idempotency_key txn with Some key => key | None => "" end)
               (Transaction.id first))
  | None =>
      insert txn ;;
      ret txn
  end.

(** The row after the UPDATE of [update_state]. *)
Definition state_row (now : Z) (new_state : TransactionState) (error_message : option string)
    (t : Transaction.t M) : Transaction.t M :=
  Transaction.mk (Transaction.id t) (Transaction.user_id t) (Transaction.type t)
    new_state
    (Transaction.amount t) (Transaction.currency t) (Transaction.idempotency_key t)
    (Transaction.payment_reference t) (Transaction.ichancy_reference t)
    (match new_state with
     | PROCESSING => Some now
     | _ => Transaction.processing_started_at t
     end)
    (match new_state with
     | COMPLETED | FAILED => Some now
     | _ => Transaction.completed_at t
     end)
    error_message
    (Transaction.retry_count t) (Transaction.created_at t)
    now
    (Transaction.balance_before t) (Transaction.balance_after t).

Definition update_state (now : Z) (transaction_id : string) (new_state : TransactionState)
    (error_message : option string) : Py M bool :=
  txn <- get_by_id transaction_id ;;
  match txn with
  | None => ret false
  | Some txn =>
      if negb (can_transition_to (Transaction.state txn) new_state) then ret false
      else
        modify (fun w =>
                  set_transactions
                    (update_where (has_id transaction_id)
                                  (state_row now new_state error_message) (transactions w)) w) ;;
        audit (TRANSACTION_STATE_CHANGE transaction_id
                 (TransactionState_value (Transaction.state txn))
                 (TransactionState_value new_state)) ;;
        ret true
  end.

(** [txn.updated_at = datetime.utcnow()] *)
Definition touch (now : Z) (t : Transaction.t M) : Transaction.t M :=
  Transaction.mk (Transaction.id t) (Transaction.user_id t) (Transaction.type t)
    (Transaction.state t) (Transaction.amount t) (Transaction.currency t)
    (Transaction.idempotency_key t) (Transaction.payment_reference t)
    (Transaction.ichancy_reference t) (Transaction.processing_started_at t)
    (Transaction.completed_at t) (Transaction.error_message t) (Transaction.retry_count t)
    (Transaction.created_at t) now (Transaction.balance_before t) (Transaction.balance_after t).

(** The row after the UPDATE of [update]: eleven columns are taken from
    the object [txn], the others keep what the row has. *)
Definition full_row (txn : Transaction.t M) (row : Transaction.t M) : Transaction.t M :=
  Transaction.mk (Transaction.id row) (Transaction.user_id row) (Transaction.type row)
    (Transaction.state txn) (Transaction.amount txn) (Transaction.currency row)
    (Transaction.idempotency_key row) (Transaction.payment_reference txn)
    (Transaction.ichancy_reference txn) (Transaction.processing_started_at txn)
    (Transaction.completed_at txn) (Transaction.error_message txn) (Transaction.retry_count txn)
    (Transaction.created_at row) (Transaction.updated_at txn)
    (Transaction.balance_before txn) (Transaction.balance_after txn).

Definition update (now : Z) (txn : Transaction.t M) : Py M (Transaction.t M) :=
  let txn := touch now txn in
  modify (fun w =>
            set_transactions
              (update_where (has_id (Transaction.id txn)) (full_row txn) (transactions w)) w) ;;
  ret txn.

(** [WHERE state IN ('pending', 'processing')], on the stored value. *)
Definition in_pending_states (t : Transaction.t M) : bool :=
  let value := TransactionState_value (Transaction.state t) in
  (value =? "pending")%string || (value =? "processing")%string.



Definition get_pending_transactions : Py M (list (Transaction.t M)) :=
  gets (fun w =>
          order_by (@Transaction.created_at M) (filter in_pending_states (transactions w))).

End Defs.
End TransactionRepository.

Module PaymentRepository.
Section Defs.
Context {M : Type}.

Definition has_id (payment_id : string) (p : Payment.t M) : bool :=
  (Payment.id p =? payment_id)%string.

(** The row the INSERT of [create] writes: its column list leaves out
    [verified_at] and [verification_attempts], which take the defaults of the
    schema (NULL and 0). *)
Definition inserted_row (p : Payment.t M) : Payment.t M :=
  Payment.mk (Payment.id p) (Payment.user_id p) (Payment.transaction_id p)
             (Payment.provider p) (Payment.state p) (Payment.amount p)
             (Payment.provider_reference p) (Payment.phone_number p) None 0
             (Payment.created_at p) (Payment.expires_at p).

(** [create]: [id] is the PRIMARY KEY.  As for transactions, [amount] is
    declared NOT NULL and the INSERT is modelled for amounts that are
    numbers. *)
Definition create (payment : Payment.t M) : Py M (Payment.t M) :=
  fun w =>
    if existsb (has_id (Payment.id payment)) (payments w)
    then (Raise (IntegrityError "UNIQUE constraint failed: payments.id"), w)
    else (Ret payment, set_payments (payments w ++ [inserted_row payment]) w).

Definition get_by_id (payment_id : string) : Py M (option (Payment.t M)) :=
  gets (fun w => find (has_id payment_id) (payments w)).

(** [WHERE provider = ? AND provider_reference = ?], on the stored values. *)
Definition has_reference (provider : PaymentProvider) (reference : string) (p : Payment.t M)
  : bool :=
  (PaymentProvider_value (Payment.provider p) =? PaymentProvider_value provider)%string
  && match Payment.provider_reference p with
     | Some r => (r =? reference)%string
     | None => false
     end.

Definition get_by_reference (provider : PaymentProvider) (reference : string)
  : Py M (option (Payment.t M)) :=
  gets (fun w => find (has_reference provider reference) (payments w)).

(** The row after the UPDATE of [update_state]. *)
Definition state_row (now : Z) (new_state : PaymentState) (p : Payment.t M) : Payment.t M :=
  Payment.mk (Payment.id p) (Payment.user_id p) (Payment.transaction_id p) (Payment.provider p)
             new_state (Payment.amount p) (Payment.provider_reference p)
             (Payment.phone_number p)
             (match new_state with
              | PAY_VERIFIED => Some now
              | _ => Payment.verified_at p
              end)
             (Payment.verification_attempts p) (Payment.created_at p) (Payment.expires_at p).

Definition update_state (now : Z) (payment_id : string) (new_state : PaymentState) : Py M bool :=
  modify (fun w =>
            set_payments (update_where (has_id payment_id) (state_row now new_state)
                                       (payments w)) w) ;;
  ret true.

(** The row after [verification_attempts = verification_attempts + 1]. *)
Definition attempt_row (p : Payment.t M) : Payment.t M :=
  Payment.mk (Payment.id p) (Payment.user_id p) (Payment.transaction_id p) (Payment.provider p)
             (Payment.state p) (Payment.amount p) (Payment.provider_reference p)
             (Payment.phone_number p) (Payment.verified_at p)
             (Payment.verification_attempts p + 1) (Payment.created_at p)
             (Payment.expires_at p).

Definition increment_verification_attempts (payment_id : string) : Py M Z :=
  modify (fun w =>
            set_payments (update_where (has_id payment_id) attempt_row (payments w)) w) ;;
  row <- gets (fun w => find (has_id payment_id) (payments w)) ;;
  ret (match row with
       | Some p => Payment.verification_attempts p
       | None => 0
       end).

End Defs.
End PaymentRepository.

(* ================================================================== *)
(** * services/wallet_service.py *)

Module DepositResult.
Record t (M : Type) := mk {
  success : bool;
  transaction_id : option string;
  message : string;
  new_balance : option M;
  ichancy_balance : json;
  error : option string
}.
End DepositResult.

Module WithdrawalResult.
Record t (M : Type) := mk {
  success : bool;
  transaction_id : option string;
  message : string;
  new_balance : option M;
  error : option string
}.
End WithdrawalResult.

(** What a workflow draws from [uuid.uuid4()]: the id of the [Transaction]
    it builds, the id of the [Payment] it builds, and the text the f-string
    of a generated idempotency key puts after its prefix. *)
Record Draws := {
  transaction_uuid : string;
  payment_uuid : string;
  key_tail : string
}.

(** [PaymentVerificationResult]; its members carry a prefix here, as
    PENDING and FAILED name states of a transaction. *)
Inductive PaymentVerificationResult :=
| VERIFICATION_SUCCESS
| VERIFICATION_PENDING
| VERIFICATION_FAILED
| VERIFICATION_EXPIRED
| VERIFICATION_INVALID_AMOUNT.

(** The dict [get_balance] returns. *)
Module BalanceSummary.
Record t (M : Type) := mk {
  local_balance : M;
  ichancy_balance : json;
  total_deposited : M;
  total_withdrawn : M
}.
End BalanceSummary.

(** [timedelta(minutes=m)], in the unit of the clock (microseconds). *)
Definition timedelta_minutes (m : Z) : Z := m * 60000000.

Module WalletService.
Section Defs.
Context {M : Type} `{Money M} `{PyStr M}.

(** [self.payment_expiry_minutes] *)
Definition payment_expiry_minutes : Z := 30.

(** A [str] that is set and not empty, as [if user.ichancy_username] and
    [if not idempotency_key] test it. *)
Definition nonempty (o : option string) : option string :=
  if truthy_str o then o else None.

(** [if not idempotency_key: idempotency_key = f"<prefix>{...}"] *)
Definition effective_key (prefix : string) (draws : Draws) (idempotency_key : option string)
  : string :=
  match nonempty idempotency_key with
  | Some key => key
  | None => (prefix ++ key_tail draws)%string
  end.

(** The workflows read the clock at several places; [clk n] is the reading
    at the n-th place of the function, in the order of its text. *)
Definition initiate_deposit (clk : nat -> Z) (draws : Draws)
    (user_id : Z) (amount : M) (provider : PaymentProvider) (idempotency_key : option string)
  : Py M (Transaction.t M * Payment.t M) :=
  user <- UserRepository.get_by_id user_id ;;
  match user with
  | None => raise (UserNotFoundException user_id)
  | Some user =>
      if UserState_eqb (User.state user) BLOCKED
      then raise (UserBlockedException user_id (User.blocked_reason user))
      else
        let idempotency_key := effective_key "dep_" draws idempotency_key in
        let transaction :=
          Transaction.mk (transaction_uuid draws) user_id DEPOSIT PENDING amount "SYP"
            (Some idempotency_key) None None None None None 0 (clk 0%nat) (clk 1%nat)
            (Some (User.local_balance user)) None in
        transaction <- TransactionRepository.create transaction ;;
        audit (TRANSACTION_START (Transaction.id transaction) "deposit" user_id amount
                 (PaymentProvider_value provider)) ;;
        let payment :=
          Payment.mk (payment_uuid draws) user_id (Some (Transaction.id transaction))
            provider PAY_PENDING amount None None None 0 (clk 3%nat)
            (Some (clk 2%nat + timedelta_minutes payment_expiry_minutes)) in
        payment <- PaymentRepository.create payment ;;
        ret (transaction, payment)
  end.

(** The row after the UPDATE of [_mark_payment_verified]. *)
Definition verified_row (now : Z) (provider_reference : string) (phone_number : option string)
    (p : Payment.t M) : Payment.t M :=
  Payment.mk (Payment.id p) (Payment.user_id p) (Payment.transaction_id p) (Payment.provider p)
             PAY_VERIFIED (Payment.amount p) (Some provider_reference) phone_number
             (Some now) (Payment.verification_attempts p) (Payment.created_at p)
             (Payment.expires_at p).

Definition _mark_payment_verified (now : Z) (payment : Payment.t M)
    (provider_reference : string) (phone_number : option string) : Py M unit :=
  modify (fun w =>
            set_payments
              (update_where (PaymentRepository.has_id (Payment.id payment))
                            (verified_row now provider_reference phone_number) (payments w)) w) ;;
  audit (PAYMENT_RECEIVED (Payment.user_id payment)
           (PaymentProvider_value (Payment.provider payment)) (Payment.amount payment)
           provider_reference).

Definition pays_for (transaction_id : string) (p : Payment.t M) : bool :=
  match Payment.transaction_id p with
  | Some t => (t =? transaction_id)%string
  | None => false
  end.

(** [SELECT * FROM payments WHERE transaction_id = ?], first row. *)
Definition _get_transaction_payment (transaction_id : string) : Py M (option (Payment.t M)) :=
  gets (fun w => find (pays_for transaction_id) (payments w)).

(** Steps 2 and 3 of [complete_deposit]: credit the local balance, then
    write the completed transaction from the object read at the start. *)
Definition credit_and_complete (clk : nat -> Z) (transaction_id : string)
    (txn : Transaction.t M) (user : User.t M) (ichancy_balance : json)
  : Py M (DepositResult.t M) :=
  let new_balance := madd (User.local_balance user) (Transaction.amount txn) in
  UserRepository.update_balance (clk 2%nat) (User.id user) new_balance
                                (Transaction.amount txn) mzero ;;
  audit (BALANCE_CHANGE (User.id user) "deposit" (Transaction.amount txn)
           (User.local_balance user) new_balance transaction_id) ;;
  let txn :=
    Transaction.mk (Transaction.id txn) (Transaction.user_id txn) (Transaction.type txn)
      COMPLETED (Transaction.amount txn) (Transaction.currency txn)
      (Transaction.idempotency_key txn) (Transaction.payment_reference txn)
      (Transaction.ichancy_reference txn) (Transaction.processing_started_at txn)
      (Some (clk 3%nat)) (Transaction.error_message txn) (Transaction.retry_count txn)
      (Transaction.created_at txn) (Transaction.updated_at txn)
      (Transaction.balance_before txn) (Some new_balance) in
  TransactionRepository.update (clk 4%nat) txn ;;
  audit (TRANSACTION_COMPLETE transaction_id true "completed" (Transaction.amount txn)) ;;
  ret (DepositResult.mk true (Some transaction_id) "Deposit completed successfully"
         (Some new_balance) ichancy_balance None).

(** The [try] block of [complete_deposit]. *)
Definition complete_deposit_steps (ichancy_service : IchancyService.t M) (clk : nat -> Z)
    (transaction_id : string) (deposit_to_ichancy : bool)
    (txn : Transaction.t M) (user : User.t M) : Py M (DepositResult.t M) :=
  match (if deposit_to_ichancy then nonempty (User.ichancy_username user) else None) with
  | Some ichancy_username =>
      ichancy_result <-
        await_ichancy (CALL_DEPOSIT ichancy_username (Transaction.amount txn))
          (IchancyService.deposit ichancy_service ichancy_username (Transaction.amount txn)) ;;
      if negb (IchancyResponse.success ichancy_result) then
        let failure :=
          ("Ichancy deposit failed: " ++ py_str (IchancyResponse.error ichancy_result))%string in
        TransactionRepository.update_state (clk 1%nat) transaction_id PARTIALLY_FAILED
                                           (Some failure) ;;
        ret (DepositResult.mk false (Some transaction_id) "" None JNull (Some failure))
      else
        balance_result <-
          await_ichancy (CALL_GET_PLAYER_BALANCE ichancy_username)
            (IchancyService.get_player_balance ichancy_service ichancy_username) ;;
        if IchancyResponse.success balance_result && truthy (IchancyResponse.data balance_result)
        then
          match IchancyResponse.data balance_result with
          | JObj fields =>
              credit_and_complete clk transaction_id txn user (dict_get fields "balance")
          | _ => raise (BuiltinError "AttributeError" "object has no attribute 'get'")
          end
        else credit_and_complete clk transaction_id txn user JNull
  | None => credit_and_complete clk transaction_id txn user JNull
  end.

Definition complete_deposit (ichancy_service : IchancyService.t M) (clk : nat -> Z)
    (transaction_id : string) (deposit_to_ichancy : bool) : Py M (DepositResult.t M) :=
  txn <- TransactionRepository.get_by_id transaction_id ;;
  match txn with
  | None => ret (DepositResult.mk false None "" None JNull (Some "Transaction not found"))
  | Some txn =>
      if negb (TransactionState_eqb (Transaction.state txn) PENDING) then
        ret (DepositResult.mk false (Some transaction_id) "" None JNull
               (Some ("Transaction in invalid state: "
                        ++ TransactionState_value (Transaction.state txn))%string))
      else
        payment <- _get_transaction_payment transaction_id ;;
        if match payment with
           | Some p => negb (PaymentState_eqb (Payment.state p) PAY_VERIFIED)
           | None => true
           end
        then ret (DepositResult.mk false (Some transaction_id) "" None JNull
                    (Some "Payment not verified"))
        else
          user <- UserRepository.get_by_id (Transaction.user_id txn) ;;
          match user with
          | None => ret (DepositResult.mk false None "" None JNull (Some "User not found"))
          | Some user =>
              TransactionRepository.update_state (clk 0%nat) transaction_id PROCESSING None ;;
              try_except
                (complete_deposit_steps ichancy_service clk transaction_id deposit_to_ichancy
                                        txn user)
                (fun e =>
                   TransactionRepository.update_state (clk 5%nat) transaction_id FAILED
                                                      (Some (exn_str e)) ;;
                   ret (DepositResult.mk false (Some transaction_id) "" None JNull
                          (Some (exn_str e))))
          end
  end.

(** Steps 2 to 4 of [initiate_withdrawal]: debit the local balance, queue
    the payout, then write the completed transaction from the object built
    at the start. *)
Definition debit_and_complete (clk : nat -> Z) (draws : Draws)
    (user_id : Z) (amount : M) (provider : PaymentProvider) (phone_number : string)
    (transaction : Transaction.t M) (user : User.t M) : Py M (WithdrawalResult.t M) :=
  let new_balance := msub (User.local_balance user) amount in
  UserRepository.update_balance (clk 4%nat) (User.id user) new_balance mzero amount ;;
  audit (BALANCE_CHANGE (User.id user) "withdrawal" (mneg amount)
           (User.local_balance user) new_balance (Transaction.id transaction)) ;;
  let payment :=
    Payment.mk (payment_uuid draws) user_id (Some (Transaction.id transaction)) provider
               PAY_PENDING amount None (Some phone_number) None 0 (clk 5%nat) None in
  PaymentRepository.create payment ;;
  let transaction :=
    Transaction.mk (Transaction.id transaction) (Transaction.user_id transaction)
      (Transaction.type transaction) COMPLETED (Transaction.amount transaction)
      (Transaction.currency transaction) (Transaction.idempotency_key transaction)
      (Transaction.payment_reference transaction)
      (Transaction.ichancy_reference transaction)
      (Transaction.processing_started_at transaction) (Some (clk 6%nat))
      (Transaction.error_message transaction) (Transaction.retry_count transaction)
      (Transaction.created_at transaction) (Transaction.updated_at transaction)
      (Transaction.balance_before transaction) (Some new_balance) in
  TransactionRepository.update (clk 7%nat) transaction ;;
  audit (TRANSACTION_COMPLETE (Transaction.id transaction) true "completed" amount) ;;
  ret (WithdrawalResult.mk true (Some (Transaction.id transaction))
         "Withdrawal queued for processing" (Some new_balance) None).

(** The [try] block of [initiate_withdrawal]. *)
Definition initiate_withdrawal_steps (ichancy_service : IchancyService.t M) (clk : nat -> Z)
    (draws : Draws) (user_id : Z) (amount : M) (provider : PaymentProvider)
    (phone_number : string) (withdraw_from_ichancy : bool)
    (transaction : Transaction.t M) (user : User.t M) : Py M (WithdrawalResult.t M) :=
  TransactionRepository.update_state (clk 2%nat) (Transaction.id transaction) PROCESSING None ;;
  match (if withdraw_from_ichancy then nonempty (User.ichancy_username user) else None) with
  | Some ichancy_username =>
      ichancy_result <-
        await_ichancy (CALL_WITHDRAWAL ichancy_username amount)
          (IchancyService.withdrawal ichancy_service ichancy_username amount) ;;
      if negb (IchancyResponse.success ichancy_result) then
        let failure :=
          ("Ichancy withdrawal failed: "
             ++ py_str (IchancyResponse.error ichancy_result))%string in
        TransactionRepository.update_state (clk 3%nat) (Transaction.id transaction) FAILED
                                           (Some failure) ;;
        ret (WithdrawalResult.mk false (Some (Transaction.id transaction)) "" None
               (Some failure))
      else debit_and_complete clk draws user_id amount provider phone_number transaction user
  | None => debit_and_complete clk draws user_id amount provider phone_number transaction user
  end.

Definition initiate_withdrawal (ichancy_service : IchancyService.t M) (clk : nat -> Z)
    (draws : Draws) (user_id : Z) (amount : M) (provider : PaymentProvider)
    (phone_number : string) (withdraw_from_ichancy : bool) (idempotency_key : option string)
  : Py M (WithdrawalResult.t M) :=
  user <- UserRepository.get_by_id user_id ;;
  match user with
  | None => raise (UserNotFoundException user_id)
  | Some user =>
      if UserState_eqb (User.state user) BLOCKED
      then raise (UserBlockedException user_id (User.blocked_reason user))
      else if mlt (User.local_balance user) amount
      then raise (InsufficientBalanceException user_id amount (User.local_balance user))
      else
        let idempotency_key := effective_key "wdr_" draws idempotency_key in
        let transaction :=
          Transaction.mk (transaction_uuid draws) user_id WITHDRAWAL PENDING amount "SYP"
            (Some idempotency_key) None None None None None 0 (clk 0%nat) (clk 1%nat)
            (Some (User.local_balance user)) None in
        transaction <- TransactionRepository.create transaction ;;
        audit (TRANSACTION_START (Transaction.id transaction) "withdrawal" user_id amount
                 (PaymentProvider_value provider)) ;;
        try_except
          (initiate_withdrawal_steps ichancy_service clk draws user_id amount provider
                                     phone_number withdraw_from_ichancy transaction user)
          (fun e =>
             TransactionRepository.update_state (clk 8%nat) (Transaction.id transaction) FAILED
                                                (Some (exn_str e)) ;;
             ret (WithdrawalResult.mk false (Some (Transaction.id transaction)) "" None
                    (Some (exn_str e))))
  end.

(** [verify_payment].  [test_mode] is [config.is_payment_test_mode()]. *)
Definition verify_payment (test_mode : bool) (clk : nat -> Z) (payment_id : string)
    (provider_reference : string) (phone_number : option string)
  : Py M PaymentVerificationResult :=
  payment <- PaymentRepository.get_by_id payment_id ;;
  match payment with
  | None => ret VERIFICATION_FAILED
  | Some payment =>
      if match Payment.expires_at payment with
         | Some expires_at => clk 0%nat >? expires_at
         | None => false
         end
      then
        PaymentRepository.update_state (clk 1%nat) payment_id PAY_EXPIRED ;;
        ret VERIFICATION_EXPIRED
      else
        attempts <- PaymentRepository.increment_verification_attempts payment_id ;;
        if attempts >? 5 then
          PaymentRepository.update_state (clk 2%nat) payment_id PAY_FAILED ;;
          ret VERIFICATION_FAILED
        else if test_mode && (provider_reference =? "0x01")%string then
          _mark_payment_verified (clk 3%nat) payment provider_reference phone_number ;;
          ret VERIFICATION_SUCCESS
        else
          _mark_payment_verified (clk 4%nat) payment provider_reference phone_number ;;
          ret VERIFICATION_SUCCESS
  end.

(** [result.data.get("balance")] behind the test
    [result.success and result.data]: [None] when the test fails, an
    [AttributeError] when the data is not a dict. *)
Definition balance_of (result : IchancyResponse.t) : Py M json :=
  if IchancyResponse.success result && truthy (IchancyResponse.data result) then
    match IchancyResponse.data result with
    | JObj fields => ret (dict_get fields "balance")
    | _ => raise (BuiltinError "AttributeError" "object has no attribute 'get'")
    end
  else ret JNull.

Definition get_balance (ichancy_service : IchancyService.t M) (user_id : Z)
  : Py M (BalanceSummary.t M) :=
  user <- UserRepository.get_by_id user_id ;;
  match user with
  | None => raise (UserNotFoundException user_id)
  | Some user =>
      ichancy_balance <-
        match nonempty (User.ichancy_username user) with
        | Some ichancy_username =>
            ichancy_result <-
              await_ichancy (CALL_GET_PLAYER_BALANCE ichancy_username)
                (IchancyService.get_player_balance ichancy_service ichancy_username) ;;
            balance_of ichancy_result
        | None => ret JNull
        end ;;
      ret (BalanceSummary.mk (User.local_balance user) ichancy_balance
                             (User.total_deposited user) (User.total_withdrawn user))
  end.

Definition sync_ichancy_balance (ichancy_service : IchancyService.t M) (user_id : Z)
  : Py M json :=
  user <- UserRepository.get_by_id user_id ;;
  match user with
  | None => ret JNull
  | Some user =>
      match nonempty (User.ichancy_username user) with
      | None => ret JNull
      | Some ichancy_username =>
          result <-
            await_ichancy (CALL_GET_PLAYER_BALANCE ichancy_username)
              (IchancyService.get_player_balance ichancy_service ichancy_username) ;;
          balance_of result
      end
  end.

End Defs.
End WalletService.

(* ================================================================== *)
(** * admin/routes.py *)

(** The coroutine [process] inside [process_payout]. *)
Definition process_payout {M : Type} (now : Z) (payment_id : string) : Py M (bool * string) :=
  payment <- PaymentRepository.get_by_id payment_id ;;
  match payment with
  | None => ret (false, "Payment not found")
  | Some payment =>
      if negb (PaymentState_eqb (Payment.state payment) PAY_PENDING)
      then ret (false, "Payment already processed")
      else
        PaymentRepository.update_state now payment_id PAY_VERIFIED ;;
        ret (true, "Payment marked as completed")
  end.

(* ================================================================== *)
(** * bot/middlewares.py *)

(** [UserMiddleware.__call__].  [effective_user] is the Telegram user of the
    update, with its id and username; [handler] is the rest of the chain,
    which finds the database user under [context.user_data].  The result is
    [None] when the middleware answers itself, without the handler. *)
Module UserMiddleware.
Section Defs.
Context {M : Type} `{Money M} {A : Type}.

Definition call (clk : nat -> Z) (effective_user : option (Z * option string))
    (handler : option (User.t M) -> Py M A) : Py M (option A) :=
  match effective_user with
  | None => result <- handler None ;; ret (Some result)
  | Some (id, username) =>
      db_user <- UserRepository.get_by_id id ;;
      db_user <-
        match db_user with
        | None =>
            UserRepository.create
              (User.mk id username None None false ACTIVE mzero mzero mzero
                       (clk 0%nat) (clk 1%nat) None)
        | Some db_user =>
            if optional_str_differs (User.telegram_username db_user) username then
              UserRepository.update (clk 2%nat)
                (User.mk (User.id db_user) username (User.ichancy_username db_user)
                         (User.ichancy_password db_user) (User.ichancy_registered db_user)
                         (User.state db_user) (User.local_balance db_user)
                         (User.total_deposited db_user) (User.total_withdrawn db_user)
                         (User.created_at db_user) (User.updated_at db_user)
                         (User.blocked_reason db_user))
            else ret db_user
        end ;;
      if UserState_eqb (User.state db_user) BLOCKED then ret None
      else result <- handler (Some db_user) ;; ret (Some result)
  end.

End Defs.
End UserMiddleware.

(** [RateLimitMiddleware]: [_requests] is a dict from user ids to the clock
    readings of the requests let through, kept as a list of entries.  The
    clock and [window_seconds] are integers in one unit. *)
Module RateLimitMiddleware.

Record t := mk {
  max_requests : Z;
  window_seconds : Z;
  _requests : list (Z * list Z)
}.

(** [RateLimitMiddleware(max_requests, window_seconds)] *)
Definition init (max_requests window_seconds : Z) : t := mk max_requests window_seconds [].

Fixpoint requests_of (user_id : Z) (entries : list (Z * list Z)) : option (list Z) :=
  match entries with
  | [] => None
  | (k, v) :: rest => if k =? user_id then Some v else requests_of user_id rest
  end.

(** [d[user_id] = v] *)
Fixpoint store (user_id : Z) (v : list Z) (entries : list (Z * list Z)) : list (Z * list Z) :=
  match entries with
  | [] => [(user_id, v)]
  | (k, v') :: rest =>
      if k =? user_id then (k, v) :: rest else (k, v') :: store user_id v rest
  end.

(** [__call__] up to the handler: whether the handler is called, and the
    limiter after the call. *)
Definition call (effective_user : option Z) (now : Z) (m : t) : bool * t :=
  match effective_user with
  | None => (true, m)
  | Some user_id =>
      let known :=
        match requests_of user_id (_requests m) with
        | Some v => v
        | None => []
        end in
      let recent := filter (fun ts => now - ts <? window_seconds m) known in
      if Z.of_nat (List.length recent) >=? max_requests m
      then (false, mk (max_requests m) (window_seconds m) (store user_id recent (_requests m)))
      else (true, mk (max_requests m) (window_seconds m)
                    (store user_id (recent ++ [now]) (_requests m)))
  end.

(** The requests of one user at the given clock readings, one after the
    other: the readings of those let through, and the limiter at the end. *)
Fixpoint calls (user_id : Z) (times : list Z) (m : t) : list Z * t :=
  match times with
  | [] => ([], m)
  | now :: rest =>
      let (ok, m1) := call (Some user_id) now m in
      let (passed, m2) := calls user_id rest m1 in
      ((if ok then now :: passed else passed), m2)
  end.

End RateLimitMiddleware.

(* ================================================================== *)
(** * The transition table as the specification words it *)

(** Section 4.1 of the specification: PENDING to PROCESSING or CANCELLED;
    PROCESSING to COMPLETED, FAILED or PARTIALLY_FAILED; COMPLETED to
    REVERSED; FAILED to PENDING; nothing out of PARTIALLY_FAILED, CANCELLED
    and REVERSED.  This relation is written from that text, to be compared
    with [can_transition_to], which is written from the code. *)
Inductive spec_legal_transition : TransactionState -> TransactionState -> Prop :=
| pending_to_processing : spec_legal_transition PENDING PROCESSING
| pending_to_cancelled : spec_legal_transition PENDING CANCELLED
| processing_to_completed : spec_legal_transition PROCESSING COMPLETED
| processing_to_failed : spec_legal_transition PROCESSING FAILED
| processing_to_partially_failed : spec_legal_transition PROCESSING PARTIALLY_FAILED
| completed_to_reversed : spec_legal_transition COMPLETED REVERSED
| failed_to_pending : spec_legal_transition FAILED PENDING.

(* ================================================================== *)
(** * Concrete runs *)

(** Amounts as integers, and a rendering of [str()] to run examples with. *)
#[export] Instance PyStr_Z : PyStr Z := {
  json_repr := fun _ => "<json>";
  exn_str := fun e =>
    match e with
    | NetworkException message => message
    | APITimeoutException service => ("Request to " ++ service ++ " timed out")%string
    | APIConnectionException service reason =>
        ("Failed to connect to " ++ service ++ ": " ++ reason)%string
    | BuiltinError _ message => message
    | _ => "error"
    end
}.

Definition ex_clock (n : nat) : Z := 1000 + Z.of_nat n.

Definition ex_user (state : UserState) (local_balance : Z) (ichancy_username : option string)
  : User.t Z :=
  User.mk 1 (Some "layla") ichancy_username None false state local_balance 0 0 0 0 None.

Definition ex_transaction (id : string) (type : TransactionType) (state : TransactionState)
    (amount : Z) (key : string) (balance_before : Z) : Transaction.t Z :=
  Transaction.mk id 1 type state amount "SYP" (Some key) None None None None None 0 0 0
                 (Some balance_before) None.

Definition ex_payment (id transaction_id : string) (state : PaymentState) (amount : Z)
  : Payment.t Z :=
  Payment.mk id 1 (Some transaction_id) SYRIATEL_CASH state amount None None None 0 0 None.

Definition ex_world (u : User.t Z) (txns : list (Transaction.t Z)) (pays : list (Payment.t Z))
  : World Z :=
  mkWorld [u] txns pays [] [].

(** A remote wallet that answers every call with the same response. *)
Definition ex_remote (answer : outcome Z IchancyResponse.t) : IchancyService.t Z :=
  IchancyService.mk (fun _ _ => answer) (fun _ _ => answer) (fun _ => answer).

Definition ex_logical_failure : outcome Z IchancyResponse.t :=
  Ret (IchancyResponse.mk false (JObj [("hasError", JStr "yes"); ("msg", JStr "agent balance too low")])
         (JStr "agent balance too low")
         (JObj [("hasError", JStr "yes"); ("msg", JStr "agent balance too low")])).

Definition ex_draws (t p : string) : Draws :=
  {| transaction_uuid := t; payment_uuid := p; key_tail := "1_5000_ab12cd34" |}.


(** The world after a run, whatever the run ended in. *)
Definition after {M A} (run : Py M A) (w : World M) : World M := snd (run w).

(** Worlds for the concrete runs below: one account, and the rows named. *)
Definition ex_world_duplicate : World Z :=
  ex_world (ex_user ACTIVE 0 None)
           [ex_transaction "t1" DEPOSIT PENDING 5000 "k1" 0]
           [ex_payment "p1" "t1" PAY_PENDING 5000].

Definition ex_world_processing : World Z :=
  ex_world (ex_user ACTIVE 0 None) [ex_transaction "t1" DEPOSIT PROCESSING 5000 "k1" 0] [].

(** The calls the executor makes on a breaker, and a breaker taken through a
    sequence of them. *)
Inductive BreakerCall :=
| ASKED (now : Z)
| SUCCEEDED
| FAILED_AT (now : Z).

Definition breaker_call (b : CircuitBreaker.t) (c : BreakerCall) : CircuitBreaker.t :=
  match c with
  | ASKED now => fst (CircuitBreaker.can_execute now b)
  | SUCCEEDED => CircuitBreaker.record_success b
  | FAILED_AT now => CircuitBreaker.record_failure now b
  end.

Definition breaker_calls (calls : list BreakerCall) (b : CircuitBreaker.t) : CircuitBreaker.t :=
  fold_left breaker_call calls b.

(** The number of failures recorded since the last success, [n] of them
    being on record before [calls]. *)
Definition failures_in_a_row (calls : list BreakerCall) (n : Z) : Z :=
  fold_left (fun n c => match c with
                        | ASKED _ => n
                        | SUCCEEDED => 0
                        | FAILED_AT _ => n + 1
                        end) calls n.

(** The breaker of the Ichancy client ([failure_threshold=5],
    [recovery_timeout=60.0] seconds, three trial successes), new, and as it
    stands when half open after a failure at second 10. *)
Definition ex_breaker : CircuitBreaker.t := CircuitBreaker.init "ichancy" 5 60000000 3.

Definition ex_breaker_half_open : CircuitBreaker.t :=
  CircuitBreaker.mk "ichancy" 5 60000000 3 HALF_OPEN 5 (Some 10000000) 0.

Definition ex_breaker_open : CircuitBreaker.t :=
  CircuitBreaker.mk "ichancy" 5 60000000 3 OPEN 5 (Some 10000000) 0.


(** A wrapped call that times out at every attempt. *)
Definition ex_attempts_timeout (n : nat) : Attempt Z Z :=
  let now := Z.of_nat n * 1000000 in
  {| at_can_execute := now;
     at_state := now + 1;
     func_result := Raise (APITimeoutException "ichancy");
     at_record_failure := now + 2 |}.

(** A wrapped call that always fails with an error that is not retried. *)
Definition ex_attempts_not_retried (n : nat) : Attempt Z Z :=
  {| at_can_execute := 80000000;
     at_state := 80000000;
     func_result := Raise (BuiltinError "ValueError" "bad argument");
     at_record_failure := 80000000 |}.

(** [max_retries=3], delay 1000 ms, backoff 2, the exceptions of the Ichancy
    methods. *)
Definition ex_retry_args (cb : option CircuitBreaker.t) : RetryArgs Z Z :=
  {| max_retries := 3; delay := 1000; backoff := 2;
     exceptions := is_network_exception; circuit_breaker := cb; on_retry := false |}.

(** Scenario 2: a linked account, a pending deposit of 5,000, its payment
    verified. *)
Definition ex_world_linked_pending : World Z :=
  ex_world (ex_user ACTIVE 0 (Some "layla77"))
           [ex_transaction "t1" DEPOSIT PENDING 5000 "k1" 0]
           [ex_payment "p1" "t1" PAY_VERIFIED 5000].

(** Scenario 1: an account with no link and balance 0, a pending deposit of
    10,000, its payment verified. *)
Definition ex_world_unlinked_pending : World Z :=
  ex_world (ex_user ACTIVE 0 None)
           [ex_transaction "t1" DEPOSIT PENDING 10000 "k1" 0]
           [ex_payment "p1" "t1" PAY_VERIFIED 10000].

(** Scenario 4: a linked account holding 50,000. *)
Definition ex_world_funded : World Z :=
  ex_world (ex_user ACTIVE 50000 (Some "layla77")) [] [].

(** Two deposits on one account with balance 0 and no link: both are
    initiated (10,000 under key kA, then 5,000 under key kB), both payments
    are verified, then the first is completed and then the second. *)
Definition ex_two_deposits : World Z :=
  let remote := ex_remote ex_logical_failure in
  let w0 := ex_world (ex_user ACTIVE 0 None) [] [] in
  let w1 := after (WalletService.initiate_deposit ex_clock (ex_draws "tA" "pA") 1 10000
                     SYRIATEL_CASH (Some "kA")) w0 in
  let w2 := after (WalletService.initiate_deposit ex_clock (ex_draws "tB" "pB") 1 5000
                     SYRIATEL_CASH (Some "kB")) w1 in
  let w3 := after (WalletService._mark_payment_verified 2000
                     (ex_payment "pA" "tA" PAY_PENDING 10000) "0x01" None) w2 in
  let w4 := after (WalletService._mark_payment_verified 2001
                     (ex_payment "pB" "tB" PAY_PENDING 5000) "0x01" None) w3 in
  let w5 := after (WalletService.complete_deposit remote ex_clock "tA" true) w4 in
  after (WalletService.complete_deposit remote ex_clock "tB" true) w5.

(** What the ledger shows of a transaction: state, amount and the two
    balance snapshots. *)
Definition ledger_view {M} (tid : string) (w : World M)
  : option (TransactionState * M * option M * option M) :=
  option_map (fun t => (Transaction.state t, Transaction.amount t,
                        Transaction.balance_before t, Transaction.balance_after t))
             (find (TransactionRepository.has_id tid) (transactions w)).


(* ================================================================== *)
(** * Notions the further properties are stated with *)


Definition transaction_ids {M} (rows : list (Transaction.t M)) : list string :=
  map (@Transaction.id M) rows.

(** The idempotency keys that are set. *)
Definition transaction_keys {M} (rows : list (Transaction.t M)) : list string :=
  flat_map (fun t => match Transaction.idempotency_key t with
                     | Some key => [key]
                     | None => []
                     end) rows.

(** No two rows share an id, and no two rows share an idempotency key. *)
Definition unique_transactions {M} (rows : list (Transaction.t M)) : Prop :=
  NoDup (transaction_ids rows) /\ NoDup (transaction_keys rows).

(** One call of [update_state], and a sequence of calls, one after the
    other. *)
Record StateRequest := {
  requested_at : Z;
  requested_id : string;
  requested_state : TransactionState;
  requested_message : option string
}.

Definition update_states {M} (requests : list StateRequest) (w : World M) : World M :=
  fold_left (fun w r =>
               after (TransactionRepository.update_state (requested_at r) (requested_id r)
                        (requested_state r) (requested_message r)) w)
            requests w.

(** A chain of transitions of [valid_transitions], of any length. *)
Inductive legal_path : TransactionState -> TransactionState -> Prop :=
| path_stay (s : TransactionState) : legal_path s s
| path_move (s t u : TransactionState) :
    legal_path s t -> can_transition_to t u = true -> legal_path s u.

(** The columns of a transaction that say whose money it is and how much. *)
Definition money_columns {M} (t : Transaction.t M)
  : string * Z * TransactionType * M * string * option string * option M * option M :=
  (Transaction.id t, Transaction.user_id t, Transaction.type t, Transaction.amount t,
   Transaction.currency t, Transaction.idempotency_key t,
   Transaction.balance_before t, Transaction.balance_after t).

Definition ex_requests : list StateRequest :=
  [Build_StateRequest 60 "t2" PROCESSING None;
   Build_StateRequest 61 "t2" CANCELLED None;
   Build_StateRequest 62 "t5" PENDING None;
   Build_StateRequest 63 "t2" FAILED (Some "remote failure");
   Build_StateRequest 64 "t2" PENDING None;
   Build_StateRequest 65 "t3" COMPLETED None].

(** A transaction row with every column given. *)
Definition ex_row (id : string) (user_id : Z) (state : TransactionState) (amount : Z)
    (key : option string) (created_at : Z) : Transaction.t Z :=
  Transaction.mk id user_id DEPOSIT state amount "SYP" key None None None None None 0
                 created_at created_at (Some 0) None.

Definition ex_world_rows : World Z :=
  ex_world (ex_user ACTIVE 0 None)
           [ex_row "t1" 1 COMPLETED 100 (Some "k1") 30;
            ex_row "t2" 1 PENDING 200 (Some "k2") 20;
            ex_row "t3" 2 PROCESSING 300 None 10;
            ex_row "t4" 1 FAILED 400 (Some "k4") 40;
            ex_row "t5" 1 CANCELLED 500 None 50]
           [].


(** The rows [get_pending_transactions] is to list, told by the state
    itself. *)
Definition is_unfinished {M} (t : Transaction.t M) : bool :=
  match Transaction.state t with
  | PENDING | PROCESSING => true
  | _ => false
  end.


(** No row comes before one with a smaller (greater) value in [column]. *)
Definition ascending {Row} (column : Row -> Z) (a b : Row) : Prop := column a <= column b.


(** A remote wallet that answers the two money calls with a success and the
    balance query as given. *)
Definition ex_success : outcome Z IchancyResponse.t :=
  Ret (IchancyResponse.mk true (JObj [("balance", JNum (5000 # 1))]) JNull
         (JObj [("balance", JNum (5000 # 1))])).

Definition ex_remote_paying (balance_answer : outcome Z IchancyResponse.t)
  : IchancyService.t Z :=
  IchancyService.mk (fun _ _ => ex_success) (fun _ _ => ex_success) (fun _ => balance_answer).


(** What holds of a breaker whatever calls were made on it: it is not open
    or half open without the time of a failure on record; while closed, and
    with a threshold of one or more, its count is below the threshold; while
    half open its trial counter is zero or below [half_open_max_calls]. *)
Definition breaker_consistent (b : CircuitBreaker.t) : Prop :=
  (CircuitBreaker._state b <> CLOSED ->
   exists last, CircuitBreaker._last_failure_time b = Some last)
  /\ (1 <= CircuitBreaker.failure_threshold b ->
      CircuitBreaker._state b = CLOSED ->
      0 <= CircuitBreaker._failure_count b < CircuitBreaker.failure_threshold b)
  /\ (CircuitBreaker._state b = HALF_OPEN ->
      CircuitBreaker._half_open_calls b = 0
      \/ 0 <= CircuitBreaker._half_open_calls b < CircuitBreaker.half_open_max_calls b).

(** The settings of a breaker. *)
Definition breaker_settings (b : CircuitBreaker.t) : string * Z * Z * Z :=
  (CircuitBreaker.name b, CircuitBreaker.failure_threshold b,
   CircuitBreaker.recovery_timeout b, CircuitBreaker.half_open_max_calls b).


(** The seven decorated methods of [IchancyService]. *)
Definition ichancy_methods {M R : Type} `{Scalar R}
  : list (Config R -> (Z -> string) -> (nat -> Trip) -> Registry
          -> outcome M IchancyResponse.t * Registry * list (Effect M R)) :=
  [IchancyMethods.check_status; IchancyMethods.create_player; IchancyMethods.deposit;
   IchancyMethods.withdrawal; IchancyMethods.get_player_balance;
   IchancyMethods.check_agent_balance; IchancyMethods.change_password].

(** The text of the error [retry_async] raises for an open breaker. *)
Definition circuit_open_message (b : CircuitBreaker.t) : string :=
  ("Service " ++ CircuitBreaker.name b ++ " unavailable (circuit breaker open)")%string.


(** [self._requests.get(user_id, [])]: the clock readings on record for a
    user. *)
Definition stored_requests (user_id : Z) (m : RateLimitMiddleware.t) : list Z :=
  match RateLimitMiddleware.requests_of user_id (RateLimitMiddleware._requests m) with
  | Some v => v
  | None => []
  end.

(** Of the readings [earlier], those less than a window before [t]. *)
Definition in_window (window : Z) (t : Z) (earlier : list Z) : list Z :=
  filter (fun ts => t - ts <? window) earlier.

(** Each request of [passed], counted together with the requests before it
    ([earlier], then those of [passed]) that are less than a window old when
    it comes, makes at most [limit]. *)
Fixpoint within_limit (limit window : Z) (earlier passed : list Z) : Prop :=
  match passed with
  | [] => True
  | t :: rest =>
      Z.of_nat (List.length (in_window window t (earlier ++ [t]))) <= limit
      /\ within_limit limit window (earlier ++ [t]) rest
  end.


(** The Ichancy breaker two failures away from its threshold. *)
Definition ex_breaker_strained : CircuitBreaker.t :=
  CircuitBreaker.mk "ichancy" 5 60000000 3 CLOSED 3 None 0.

(** Round trips that all come back with an HTTP 500. *)
Definition ex_trips_http_500 (n : nat) : Trip :=
  {| trip_transport := HTTP_RESPONSE 500 "Internal Server Error" None;
     trip_at_can_execute := Z.of_nat n * 1000000;
     trip_at_state := Z.of_nat n * 1000000 + 1;
     trip_at_record_failure := Z.of_nat n * 1000000 + 2 |}.

Definition ex_config : Config Z :=
  {| MAX_RETRIES := 3; RETRY_DELAY := 1000; RETRY_BACKOFF := 2 |}.

(** A world with one account and nothing else. *)
Definition ex_world_new_account : World Z := ex_world (ex_user ACTIVE 0 None) [] [].


(** A world whose one payment was verified and is past its expiry at the
    readings of [ex_clock]. *)
Definition ex_payment_late : Payment.t Z :=
  Payment.mk "p9" 1 (Some "t9") SYRIATEL_CASH PAY_VERIFIED 100 (Some "ref") None (Some 400)
             1 0 (Some 500).

Definition ex_world_late_payment : World Z :=
  ex_world (ex_user ACTIVE 0 None) [] [ex_payment_late].



(* ================================================================== *)
(** * Notions the run of [retry_async] is stated with *)

Section RetryRuns.
Context {M R A : Type} `{Scalar R}.

(** [current_delay] at the top of attempt [i] when every attempt before it
    was retried: [delay] multiplied [i] times in turn by [backoff], as
    [current_delay *= backoff] computes it. *)
Fixpoint delay_at (delay backoff : R) (i : nat) : R :=
  match i with
  | O => delay
  | S j => smul (delay_at delay backoff j) backoff
  end.






End RetryRuns.


(* ================================================================== *)
(** * Rows and lookups *)

Section Rows.
Context {Row : Type}.

Lemma find_map_same (p : Row -> bool) (g : Row -> Row) (rows : list Row) :
  (forall r, p (g r) = p r) ->
  find p (map g rows) = option_map g (find p rows).
Proof.
  intros Hp. induction rows as [|r rows IH]; simpl.
  - reflexivity.
  - rewrite Hp. destruct (p r); [reflexivity | exact IH].
Qed.

Lemma find_update_where (sel : Row -> bool) (set : Row -> Row) (rows : list Row) :
  (forall r, sel (set r) = sel r) ->
  find sel (update_where sel set rows) = option_map set (find sel rows).
Proof.
  intros Hsel. induction rows as [|r rows IH]; simpl.
  - reflexivity.
  - destruct (sel r) eqn:E.
    + rewrite Hsel, E. reflexivity.
    + rewrite E. exact IH.
Qed.

Lemma existsb_find_none (p : Row -> bool) (rows : list Row) :
  existsb p rows = false <-> find p rows = None.
Proof.
  induction rows as [|r rows IH]; simpl.
  - tauto.
  - destruct (p r); simpl; [split; discriminate | exact IH].
Qed.

Lemma find_some_existsb (p : Row -> bool) (rows : list Row) (r : Row) :
  find p rows = Some r -> existsb p rows = true.
Proof.
  intros Hf. destruct (existsb p rows) eqn:E; [reflexivity|].
  apply existsb_find_none in E. congruence.
Qed.

Lemma find_app_new (p : Row -> bool) (rows : list Row) (r : Row) :
  find p rows = None -> p r = true -> find p (rows ++ [r]) = Some r.
Proof.
  intros Hn Hr. induction rows as [|r' rows IH]; simpl in *.
  - rewrite Hr. reflexivity.
  - destruct (p r'); [discriminate | auto].
Qed.

Lemma find_holds (p : Row -> bool) (rows : list Row) (r : Row) :
  find p rows = Some r -> p r = true.
Proof. intros Hf. apply find_some in Hf. tauto. Qed.

End Rows.

(* ================================================================== *)
(** * Running monadic code *)

Section Runs.
Context {M : Type}.

Lemma bind_returns {A B} (c : Py M A) (k : A -> Py M B) (w w' : World M) (a : A) :
  c w = (Ret a, w') -> bind c k w = k a w'.
Proof. intros Hc. unfold bind. rewrite Hc. reflexivity. Qed.

Lemma bind_raises {A B} (c : Py M A) (k : A -> Py M B) (w w' : World M) (e : exn M) :
  c w = (Raise e, w') -> bind c k w = (Raise e, w').
Proof. intros Hc. unfold bind. rewrite Hc. reflexivity. Qed.

Lemma try_returns {A} (body : Py M A) (handler : exn M -> Py M A) (w w' : World M) (a : A) :
  body w = (Ret a, w') -> try_except body handler w = (Ret a, w').
Proof. intros Hb. unfold try_except. rewrite Hb. reflexivity. Qed.

Lemma try_raises {A} (body : Py M A) (handler : exn M -> Py M A) (w w' : World M) (e : exn M) :
  body w = (Raise e, w') -> try_except body handler w = handler e w'.
Proof. intros Hb. unfold try_except. rewrite Hb. reflexivity. Qed.

End Runs.

(* ================================================================== *)
(** * The transaction state machine *)

(** The table in the code is the table of the specification. *)
Lemma can_transition_to_spec (s new_state : TransactionState) :
  can_transition_to s new_state = true <-> spec_legal_transition s new_state.
Proof.
  split.
  - destruct s, new_state; simpl; intros Hc; try discriminate; constructor.
  - intros Hl. destruct Hl; reflexivity.
Qed.

Lemma can_transition_to_illegal (s new_state : TransactionState) :
  ~ spec_legal_transition s new_state -> can_transition_to s new_state = false.
Proof.
  intros Hn. destruct (can_transition_to s new_state) eqn:E; [|reflexivity].
  apply can_transition_to_spec in E. contradiction.
Qed.

(** No state is reached from PARTIALLY_FAILED, CANCELLED or REVERSED. *)
Lemma terminal_states_have_no_exit (s new_state : TransactionState) :
  s = PARTIALLY_FAILED \/ s = CANCELLED \/ s = REVERSED ->
  can_transition_to s new_state = false.
Proof. intros [-> | [-> | ->]]; destruct new_state; reflexivity. Qed.

Section TransactionRows.
Context {M : Type}.

Lemma transaction_lookup_after_update_state
    (now : Z) (tid : string) (s : TransactionState) (msg : option string)
    (rows : list (Transaction.t M)) :
  find (TransactionRepository.has_id tid)
       (update_where (TransactionRepository.has_id tid)
                     (TransactionRepository.state_row now s msg) rows)
  = option_map (TransactionRepository.state_row now s msg)
               (find (TransactionRepository.has_id tid) rows).
Proof. apply find_update_where. intros r. reflexivity. Qed.

Lemma transaction_lookup_after_update
    (tid : string) (txn : Transaction.t M) (rows : list (Transaction.t M)) :
  find (TransactionRepository.has_id tid)
       (update_where (TransactionRepository.has_id tid)
                     (TransactionRepository.full_row txn) rows)
  = option_map (TransactionRepository.full_row txn)
               (find (TransactionRepository.has_id tid) rows).
Proof. apply find_update_where. intros r. reflexivity. Qed.

(** [update_state] on a legal transition: the row is rewritten, and the
    change is written to the audit log. *)
Lemma update_state_legal
    (w : World M) (now : Z) (tid : string) (s : TransactionState) (msg : option string)
    (txn : Transaction.t M) :
  find (TransactionRepository.has_id tid) (transactions w) = Some txn ->
  can_transition_to (Transaction.state txn) s = true ->
  TransactionRepository.update_state now tid s msg w
  = (Ret true,
     mkWorld (users w)
             (update_where (TransactionRepository.has_id tid)
                           (TransactionRepository.state_row now s msg) (transactions w))
             (payments w) (ichancy_calls w)
             (audit_log w ++ [TRANSACTION_STATE_CHANGE tid
                                (TransactionState_value (Transaction.state txn))
                                (TransactionState_value s)])).
Proof.
  intros Hf Hc.
  unfold TransactionRepository.update_state, TransactionRepository.get_by_id,
    bind, gets, ret, modify, audit.
  rewrite Hf, Hc. reflexivity.
Qed.

Lemma update_state_refused
    (w : World M) (now : Z) (tid : string) (s : TransactionState) (msg : option string)
    (txn : Transaction.t M) :
  find (TransactionRepository.has_id tid) (transactions w) = Some txn ->
  can_transition_to (Transaction.state txn) s = false ->
  TransactionRepository.update_state now tid s msg w = (Ret false, w).
Proof.
  intros Hf Hc.
  unfold TransactionRepository.update_state, TransactionRepository.get_by_id,
    bind, gets, ret.
  rewrite Hf, Hc. reflexivity.
Qed.

(** C2 (as amended): for every transaction and every requested target
    state, a transition that is not in the legal-transition table of the
    specification is rejected by [update_state] before storage is touched:
    the call returns [False] (it raises nothing) and leaves the whole world,
    the transaction included, as it was.  The table is the one of the
    specification, related to the code's by [can_transition_to_spec]. *)
Theorem update_state_rejects_illegal_transition
    (w : World M) (now : Z) (transaction_id : string) (new_state : TransactionState)
    (error_message : option string) (txn : Transaction.t M) :
  find (TransactionRepository.has_id transaction_id) (transactions w) = Some txn ->
  ~ spec_legal_transition (Transaction.state txn) new_state ->
  TransactionRepository.update_state now transaction_id new_state error_message w
  = (Ret false, w).
Proof.
  intros Hf Hn. eapply update_state_refused; eauto using can_transition_to_illegal.
Qed.

End TransactionRows.

(** In particular: a PROCESSING transaction asked to go to CANCELLED stays
    in PROCESSING, and the call returns [False]. *)
Lemma update_state_rejects_illegal_transition_witness :
  find (TransactionRepository.has_id "t1") (transactions ex_world_processing)
  = Some (ex_transaction "t1" DEPOSIT PROCESSING 5000 "k1" 0)
  /\ ~ spec_legal_transition PROCESSING CANCELLED
  /\ TransactionRepository.update_state 7 "t1" CANCELLED None ex_world_processing
     = (Ret false, ex_world_processing).
Proof.
  split; [reflexivity|]. split; [intros Hl; inversion Hl|].
  apply (@update_state_rejects_illegal_transition Z ex_world_processing 7 "t1" CANCELLED None
           (ex_transaction "t1" DEPOSIT PROCESSING 5000 "k1" 0)).
  - reflexivity.
  - intros Hl; inversion Hl.
Defined.

(** C2 as stated fails: the rejected transition PROCESSING to CANCELLED ends
    in a normal return of [False], not in an invalid-state-transition error
    (no exception reaches the caller). *)
Lemma update_state_illegal_returns_false_raises_nothing :
  TransactionRepository.update_state 7 "t1" CANCELLED None ex_world_processing
  = (Ret false, ex_world_processing)
  /\ (forall e : exn Z,
        fst (TransactionRepository.update_state 7 "t1" CANCELLED None ex_world_processing)
        <> Raise e).
Proof. split; [reflexivity | intros e; discriminate]. Qed.

(* ================================================================== *)
(** * The idempotency guard *)

Section Idempotency.
Context {M : Type} `{Money M} `{PyStr M}.

(** [create] with a key that a stored transaction already carries raises,
    and stores nothing. *)
Lemma create_duplicate_key
    (w : World M) (txn first : Transaction.t M) (key : string) :
  Transaction.idempotency_key txn = Some key ->
  (key =? "")%string = false ->
  find (TransactionRepository.has_key key) (transactions w) = Some first ->
  TransactionRepository.create txn w
  = (Raise (DuplicateTransactionException key (Transaction.id first)), w).
Proof.
  intros Hk Hne Hf.
  unfold TransactionRepository.create, TransactionRepository.get_by_idempotency_key,
    bind, gets, raise, truthy_str.
  rewrite Hk, Hne. simpl. rewrite Hf. reflexivity.
Qed.

(** [create] with a fresh key and a fresh id appends the row. *)
Lemma create_fresh
    (w : World M) (txn : Transaction.t M) (key : string) :
  Transaction.idempotency_key txn = Some key ->
  (key =? "")%string = false ->
  find (TransactionRepository.has_key key) (transactions w) = None ->
  find (TransactionRepository.has_id (Transaction.id txn)) (transactions w) = None ->
  TransactionRepository.create txn w
  = (Ret txn,
     set_transactions (transactions w ++ [TransactionRepository.inserted_row txn]) w).
Proof.
  intros Hk Hne Hkey Hid.
  unfold TransactionRepository.create, TransactionRepository.get_by_idempotency_key,
    TransactionRepository.insert, bind, gets, ret, truthy_str.
  rewrite Hk, Hne. simpl. rewrite Hkey.
  apply existsb_find_none in Hid. apply existsb_find_none in Hkey.
  rewrite Hid, Hkey. reflexivity.
Qed.

(** A deposit request whose key is already stored: nothing is created and
    nothing else happens, and the caller gets the exception of [create],
    which names the first transaction by its id. *)
Lemma initiate_deposit_duplicate_key
    (w : World M) (clk : nat -> Z) (draws : Draws) (user_id : Z) (amount : M)
    (provider : PaymentProvider) (key : string) (user : User.t M) (first : Transaction.t M) :
  find (UserRepository.has_id user_id) (users w) = Some user ->
  UserState_eqb (User.state user) BLOCKED = false ->
  (key =? "")%string = false ->
  find (TransactionRepository.has_key key) (transactions w) = Some first ->
  WalletService.initiate_deposit clk draws user_id amount provider (Some key) w
  = (Raise (DuplicateTransactionException key (Transaction.id first)), w).
Proof.
  intros Hu Hb Hne Hf.
  unfold WalletService.initiate_deposit, UserRepository.get_by_id,
    WalletService.effective_key, WalletService.nonempty.
  unfold bind at 1. unfold gets. rewrite Hu, Hb. simpl. rewrite Hne. simpl.
  erewrite bind_raises; [reflexivity|].
  apply create_duplicate_key; auto.
Qed.

End Idempotency.

(** C1, at the failing input: the account has a pending deposit stored under
    the key k1, and a second deposit request supplies k1.  No transaction, no
    payment, no audit entry and no remote call is added, but the caller is
    not handed the first transaction: the call raises
    [DuplicateTransactionException]. *)
Theorem initiate_deposit_duplicate_key_raises :
  WalletService.initiate_deposit ex_clock (ex_draws "t2" "p2") 1 5000 SYRIATEL_CASH (Some "k1")
                                 ex_world_duplicate
  = (Raise (DuplicateTransactionException "k1" "t1"), ex_world_duplicate).
Proof. reflexivity. Qed.

(* ================================================================== *)
(** * Withdrawals the balance does not cover *)

Section InsufficientBalance.
Context {M : Type} `{Money M} `{PyStr M}.

(** C5 (as amended): for every withdrawal request on an account that is not
    blocked and whose amount exceeds the account's current local balance, the
    request is rejected with an insufficient-balance error before any durable
    mutation: the world is left as it was, so no Transaction row is created,
    no PROCESSING state is entered and the remote wallet is not called. *)
Theorem initiate_withdrawal_insufficient_balance
    (ichancy_service : IchancyService.t M) (w : World M) (clk : nat -> Z) (draws : Draws)
    (user_id : Z) (amount : M) (provider : PaymentProvider) (phone_number : string)
    (withdraw_from_ichancy : bool) (idempotency_key : option string) (user : User.t M) :
  find (UserRepository.has_id user_id) (users w) = Some user ->
  User.state user <> BLOCKED ->
  mlt (User.local_balance user) amount = true ->
  WalletService.initiate_withdrawal ichancy_service clk draws user_id amount provider
                                    phone_number withdraw_from_ichancy idempotency_key w
  = (Raise (InsufficientBalanceException user_id amount (User.local_balance user)), w).
Proof.
  intros Hu Hb Hlt.
  unfold WalletService.initiate_withdrawal, UserRepository.get_by_id, bind, gets, raise.
  rewrite Hu.
  destruct (User.state user); try contradiction; simpl; rewrite Hlt; reflexivity.
Qed.

(** Blocked or not, a request above the balance changes nothing. *)
Lemma initiate_withdrawal_above_balance_is_inert
    (ichancy_service : IchancyService.t M) (w : World M) (clk : nat -> Z) (draws : Draws)
    (user_id : Z) (amount : M) (provider : PaymentProvider) (phone_number : string)
    (withdraw_from_ichancy : bool) (idempotency_key : option string) (user : User.t M) :
  find (UserRepository.has_id user_id) (users w) = Some user ->
  mlt (User.local_balance user) amount = true ->
  exists e,
    WalletService.initiate_withdrawal ichancy_service clk draws user_id amount provider
                                      phone_number withdraw_from_ichancy idempotency_key w
    = (Raise e, w).
Proof.
  intros Hu Hlt.
  unfold WalletService.initiate_withdrawal, UserRepository.get_by_id, bind, gets, raise.
  rewrite Hu.
  destruct (UserState_eqb (User.state user) BLOCKED); [eauto|].
  rewrite Hlt. eauto.
Qed.

End InsufficientBalance.

(** C5, on an account with 20,000 asked for 25,000 (scenario 3). *)
Lemma initiate_withdrawal_insufficient_balance_witness :
  WalletService.initiate_withdrawal (ex_remote ex_logical_failure) ex_clock (ex_draws "t1" "p1")
    1 25000 SYRIATEL_CASH "0999" true None
    (ex_world (ex_user ACTIVE 20000 (Some "layla77")) [] [])
  = (Raise (InsufficientBalanceException 1 25000 20000),
     ex_world (ex_user ACTIVE 20000 (Some "layla77")) [] []).
Proof.
  apply (@initiate_withdrawal_insufficient_balance Z _ _ (ex_remote ex_logical_failure)
           (ex_world (ex_user ACTIVE 20000 (Some "layla77")) [] []) ex_clock
           (ex_draws "t1" "p1") 1 25000 SYRIATEL_CASH "0999" true None
           (ex_user ACTIVE 20000 (Some "layla77"))).
  - reflexivity.
  - discriminate.
  - reflexivity.
Defined.

(** C5 as stated fails on a blocked account: the same request is rejected
    with the blocked-account error, which is checked first, not with an
    insufficient-balance error. *)
Lemma initiate_withdrawal_blocked_account_error :
  WalletService.initiate_withdrawal (ex_remote ex_logical_failure) ex_clock (ex_draws "t1" "p1")
    1 25000 SYRIATEL_CASH "0999" true None
    (ex_world (ex_user BLOCKED 20000 (Some "layla77")) [] [])
  = (Raise (UserBlockedException 1 None),
     ex_world (ex_user BLOCKED 20000 (Some "layla77")) [] []).
Proof. reflexivity. Qed.

(* ================================================================== *)
(** * Completing a deposit *)

Section CompleteDeposit.
Context {M : Type} `{Money M} `{PyStr M}.

(** A row found under an id carries that id. *)
Lemma transaction_found_id (rows : list (Transaction.t M)) (tid : string) (txn : Transaction.t M) :
  find (TransactionRepository.has_id tid) rows = Some txn -> Transaction.id txn = tid.
Proof. intros Hf. apply find_holds in Hf. apply String.eqb_eq. exact Hf. Qed.

Lemma user_found_id (rows : list (User.t M)) (uid : Z) (u : User.t M) :
  find (UserRepository.has_id uid) rows = Some u -> User.id u = uid.
Proof. intros Hf. apply find_holds in Hf. apply Z.eqb_eq. exact Hf. Qed.

(** The checks of [complete_deposit] passed: the function moves the row to
    PROCESSING and runs its [try] block in the world that results. *)
Lemma complete_deposit_enters_processing
    (ichancy_service : IchancyService.t M) (clk : nat -> Z) (tid : string)
    (deposit_to_ichancy : bool) (w : World M)
    (txn : Transaction.t M) (payment : Payment.t M) (user : User.t M) :
  find (TransactionRepository.has_id tid) (transactions w) = Some txn ->
  Transaction.state txn = PENDING ->
  find (WalletService.pays_for tid) (payments w) = Some payment ->
  Payment.state payment = PAY_VERIFIED ->
  find (UserRepository.has_id (Transaction.user_id txn)) (users w) = Some user ->
  WalletService.complete_deposit ichancy_service clk tid deposit_to_ichancy w
  = try_except
      (WalletService.complete_deposit_steps ichancy_service clk tid deposit_to_ichancy txn user)
      (fun e =>
         TransactionRepository.update_state (clk 5%nat) tid FAILED (Some (exn_str e)) ;;
         ret (DepositResult.mk false (Some tid) "" None JNull (Some (exn_str e))))
      (mkWorld (users w)
               (update_where (TransactionRepository.has_id tid)
                             (TransactionRepository.state_row (clk 0%nat) PROCESSING None)
                             (transactions w))
               (payments w) (ichancy_calls w)
               (audit_log w ++ [TRANSACTION_STATE_CHANGE tid "pending" "processing"])).
Proof.
  intros Ht Hs Hp Hv Hu.
  unfold WalletService.complete_deposit, TransactionRepository.get_by_id,
    WalletService._get_transaction_payment, UserRepository.get_by_id.
  unfold bind at 1. unfold gets at 1. rewrite Ht, Hs. simpl.
  unfold bind at 1. unfold gets at 1. rewrite Hp, Hv. simpl.
  unfold bind at 1. unfold gets at 1. rewrite Hu.
  erewrite bind_returns; [reflexivity|].
  rewrite (update_state_legal w (clk 0%nat) tid PROCESSING None Ht); rewrite Hs; reflexivity.
Qed.

(** C3: for every deposit completion where the account is linked to the
    remote wallet and the remote credit call returns a logical failure, the
    transaction ends in PARTIALLY_FAILED with the remote failure reason in its
    error detail, the operation returns failure (with the same reason) to the
    caller, and the local balance is not credited: the users table is left as
    it was. *)
Theorem complete_deposit_remote_failure
    (ichancy_service : IchancyService.t M) (clk : nat -> Z) (tid : string) (w : World M)
    (txn : Transaction.t M) (payment : Payment.t M) (user : User.t M)
    (ichancy_username : string) (response : IchancyResponse.t) :
  find (TransactionRepository.has_id tid) (transactions w) = Some txn ->
  Transaction.state txn = PENDING ->
  find (WalletService.pays_for tid) (payments w) = Some payment ->
  Payment.state payment = PAY_VERIFIED ->
  find (UserRepository.has_id (Transaction.user_id txn)) (users w) = Some user ->
  WalletService.nonempty (User.ichancy_username user) = Some ichancy_username ->
  IchancyService.deposit ichancy_service ichancy_username (Transaction.amount txn)
  = Ret response ->
  IchancyResponse.success response = false ->
  exists (w' : World M) (txn' : Transaction.t M),
    WalletService.complete_deposit ichancy_service clk tid true w
    = (Ret (DepositResult.mk false (Some tid) "" None JNull
              (Some ("Ichancy deposit failed: "
                       ++ py_str (IchancyResponse.error response))%string)), w')
    /\ find (TransactionRepository.has_id tid) (transactions w') = Some txn'
    /\ Transaction.state txn' = PARTIALLY_FAILED
    /\ Transaction.error_message txn'
       = Some ("Ichancy deposit failed: " ++ py_str (IchancyResponse.error response))%string
    /\ Transaction.balance_after txn' = Transaction.balance_after txn
    /\ users w' = users w
    /\ payments w' = payments w
    /\ ichancy_calls w'
       = ichancy_calls w ++ [CALL_DEPOSIT ichancy_username (Transaction.amount txn)].
Proof.
  intros Ht Hs Hp Hv Hu Hn Hd Hf.
  erewrite complete_deposit_enters_processing by eassumption.
  eexists. eexists. split.
  - apply try_returns.
    unfold WalletService.complete_deposit_steps. rewrite Hn.
    unfold bind at 1. unfold await_ichancy. rewrite Hd, Hf. simpl.
    erewrite bind_returns; [reflexivity|].
    eapply update_state_legal.
    + simpl. rewrite transaction_lookup_after_update_state, Ht. reflexivity.
    + reflexivity.
  - simpl. rewrite !transaction_lookup_after_update_state, Ht. simpl.
    repeat split; reflexivity.
Qed.

(** What [complete_deposit] computes on an account with no link to the
    remote wallet and a verified payment: the transaction reaches COMPLETED;
    the local balance and the transaction's [balance_after] are both
    [user.local_balance], read at completion, plus the transaction amount;
    [total_deposited] grows by the amount; and the balance and the cumulative
    total are written by the one UPDATE of [update_balance].  The row's
    [balance_before] is neither read nor written. *)
Theorem complete_deposit_unlinked
    (ichancy_service : IchancyService.t M) (clk : nat -> Z) (tid : string)
    (deposit_to_ichancy : bool) (w : World M)
    (txn : Transaction.t M) (payment : Payment.t M) (user : User.t M) :
  find (TransactionRepository.has_id tid) (transactions w) = Some txn ->
  Transaction.state txn = PENDING ->
  find (WalletService.pays_for tid) (payments w) = Some payment ->
  Payment.state payment = PAY_VERIFIED ->
  find (UserRepository.has_id (Transaction.user_id txn)) (users w) = Some user ->
  WalletService.nonempty (User.ichancy_username user) = None ->
  exists (w' : World M) (txn' : Transaction.t M) (user' : User.t M),
    WalletService.complete_deposit ichancy_service clk tid deposit_to_ichancy w
    = (Ret (DepositResult.mk true (Some tid) "Deposit completed successfully"
              (Some (madd (User.local_balance user) (Transaction.amount txn))) JNull None), w')
    /\ find (TransactionRepository.has_id tid) (transactions w') = Some txn'
    /\ Transaction.state txn' = COMPLETED
    /\ Transaction.balance_after txn'
       = Some (madd (User.local_balance user) (Transaction.amount txn))
    /\ Transaction.balance_before txn' = Transaction.balance_before txn
    /\ find (UserRepository.has_id (Transaction.user_id txn)) (users w') = Some user'
    /\ User.local_balance user' = madd (User.local_balance user) (Transaction.amount txn)
    /\ User.total_deposited user' = madd (User.total_deposited user) (Transaction.amount txn)
    /\ users w'
       = update_where (UserRepository.has_id (User.id user))
           (UserRepository.balance_row (clk 2%nat)
              (madd (User.local_balance user) (Transaction.amount txn))
              (Transaction.amount txn) mzero)
           (users w)
    /\ ichancy_calls w' = ichancy_calls w.
Proof.
  intros Ht Hs Hp Hv Hu Hn.
  erewrite complete_deposit_enters_processing by eassumption.
  pose proof (transaction_found_id _ _ Ht) as Hid.
  pose proof (user_found_id _ _ Hu) as Huid.
  eexists. eexists. eexists. split.
  - apply try_returns.
    unfold WalletService.complete_deposit_steps. rewrite Hn.
    assert (Hnone : (if deposit_to_ichancy then @None string else None) = None)
      by (destruct deposit_to_ichancy; reflexivity).
    rewrite Hnone.
    unfold WalletService.credit_and_complete, UserRepository.update_balance,
      TransactionRepository.update, bind, modify, audit, ret.
    cbv beta iota zeta. reflexivity.
  - simpl. rewrite Hid, Huid.
    rewrite transaction_lookup_after_update, transaction_lookup_after_update_state, Ht.
    rewrite find_update_where by reflexivity. rewrite Hu. simpl.
    repeat split; reflexivity.
Qed.

End CompleteDeposit.

(** C3 on scenario 2: a linked account, a deposit of 5,000, and a remote
    wallet that answers the credit with a logical failure. *)
Lemma complete_deposit_remote_failure_witness :
  exists (w' : World Z) (txn' : Transaction.t Z),
    WalletService.complete_deposit (ex_remote ex_logical_failure) ex_clock "t1" true
                                   ex_world_linked_pending
    = (Ret (DepositResult.mk false (Some "t1") "" None JNull
              (Some "Ichancy deposit failed: agent balance too low")), w')
    /\ find (TransactionRepository.has_id "t1") (transactions w') = Some txn'
    /\ Transaction.state txn' = PARTIALLY_FAILED
    /\ Transaction.error_message txn' = Some "Ichancy deposit failed: agent balance too low"
    /\ Transaction.balance_after txn' = None
    /\ users w' = users ex_world_linked_pending
    /\ payments w' = payments ex_world_linked_pending
    /\ ichancy_calls w' = [CALL_DEPOSIT "layla77" 5000].
Proof.
  exact (@complete_deposit_remote_failure Z _ _ (ex_remote ex_logical_failure) ex_clock "t1"
           ex_world_linked_pending (ex_transaction "t1" DEPOSIT PENDING 5000 "k1" 0)
           (ex_payment "p1" "t1" PAY_VERIFIED 5000) (ex_user ACTIVE 0 (Some "layla77"))
           "layla77"
           (IchancyResponse.mk false
              (JObj [("hasError", JStr "yes"); ("msg", JStr "agent balance too low")])
              (JStr "agent balance too low")
              (JObj [("hasError", JStr "yes"); ("msg", JStr "agent balance too low")]))
           eq_refl eq_refl eq_refl eq_refl eq_refl eq_refl eq_refl eq_refl).
Defined.

(** Scenario 1: balance 0, no link, a deposit of 10,000; here the balance
    at completion is the one stored at initiation. *)
Lemma complete_deposit_unlinked_witness :
  exists (w' : World Z) (txn' : Transaction.t Z) (user' : User.t Z),
    WalletService.complete_deposit (ex_remote ex_logical_failure) ex_clock "t1" true
                                   ex_world_unlinked_pending
    = (Ret (DepositResult.mk true (Some "t1") "Deposit completed successfully"
              (Some 10000) JNull None), w')
    /\ find (TransactionRepository.has_id "t1") (transactions w') = Some txn'
    /\ Transaction.state txn' = COMPLETED
    /\ Transaction.balance_after txn' = Some 10000
    /\ Transaction.balance_before txn' = Some 0
    /\ find (UserRepository.has_id 1) (users w') = Some user'
    /\ User.local_balance user' = 10000
    /\ User.total_deposited user' = 10000
    /\ users w'
       = update_where (UserRepository.has_id 1)
           (UserRepository.balance_row (ex_clock 2) 10000 10000 0)
           (users ex_world_unlinked_pending)
    /\ ichancy_calls w' = [].
Proof.
  exact (@complete_deposit_unlinked Z _ _ (ex_remote ex_logical_failure) ex_clock "t1" true
           ex_world_unlinked_pending (ex_transaction "t1" DEPOSIT PENDING 10000 "k1" 0)
           (ex_payment "p1" "t1" PAY_VERIFIED 10000) (ex_user ACTIVE 0 None)
           eq_refl eq_refl eq_refl eq_refl eq_refl eq_refl).
Defined.

(** C6: the code leaves a stale [balance_before] on a completed deposit.
    Two deposits are initiated on a balance of 0 and completed one after the
    other.  The second, of 5,000, is COMPLETED with [balance_before] 0 and
    [balance_after] 15,000 in its row, which is not [balance_before] plus the
    amount, while the audit entry [complete_deposit] writes for the same
    credit gives 10,000 as the balance before.  The local balance, 15,000, is
    the sum of the two deposits; the rows' [balance_after - balance_before]
    add up to 25,000. *)
Theorem second_deposit_balance_after_is_not_before_plus_amount :
  ledger_view "tB" ex_two_deposits = Some (COMPLETED, 5000, Some 0, Some 15000)
  /\ ledger_view "tA" ex_two_deposits = Some (COMPLETED, 10000, Some 0, Some 10000)
  /\ option_map (@User.local_balance Z) (find (UserRepository.has_id 1) (users ex_two_deposits))
     = Some 15000
  /\ madd 0 5000 <> 15000
  /\ In (BALANCE_CHANGE 1 "deposit" 5000 10000 15000 "tB") (audit_log ex_two_deposits)
  /\ madd (msub 10000 0) (msub 15000 0) = 25000.
Proof.
  repeat split; try reflexivity; [discriminate|].
  vm_compute. tauto.
Qed.

(* ================================================================== *)
(** * A withdrawal whose remote debit fails *)

Section WithdrawalFailure.
Context {M : Type} `{Money M} `{PyStr M}.

(** A key that went through [effective_key] is never empty. *)
Lemma effective_key_nonempty (prefix : string) (draws : Draws) (idempotency_key : option string) :
  prefix <> "" ->
  (WalletService.effective_key prefix draws idempotency_key =? "")%string = false.
Proof.
  intros Hp. unfold WalletService.effective_key, WalletService.nonempty, truthy_str.
  destruct idempotency_key as [key|].
  - destruct (key =? "")%string eqn:E; simpl.
    + destruct prefix; [contradiction | reflexivity].
    + exact E.
  - destruct prefix; [contradiction | reflexivity].
Qed.

(** The row a withdrawal creates, found again after [update_state] moved
    it once. *)
Lemma created_row_after_one_move
    (rows : list (Transaction.t M)) (txn : Transaction.t M) (now : Z)
    (s : TransactionState) (msg : option string) :
  find (TransactionRepository.has_id (Transaction.id txn)) rows = None ->
  find (TransactionRepository.has_id (Transaction.id txn))
       (update_where (TransactionRepository.has_id (Transaction.id txn))
                     (TransactionRepository.state_row now s msg) (rows ++ [txn]))
  = Some (TransactionRepository.state_row now s msg txn).
Proof.
  intros Hn. rewrite transaction_lookup_after_update_state.
  rewrite (find_app_new _ _ _ Hn); [reflexivity|].
  apply String.eqb_refl.
Qed.


End WithdrawalFailure.


(* ================================================================== *)
(** * The circuit breaker *)

Lemma geb_true (x y : Z) : y <= x -> (x >=? y) = true.
Proof. intros Hle. apply Z.geb_le. exact Hle. Qed.

Lemma geb_false (x y : Z) : x < y -> (x >=? y) = false.
Proof.
  intros Hlt. destruct (x >=? y) eqn:E; [|reflexivity].
  apply Z.geb_le in E. lia.
Qed.

Lemma record_failures_last (earlier : list Z) (now : Z) (b : CircuitBreaker.t) :
  record_failures (earlier ++ [now]) b
  = CircuitBreaker.record_failure now (record_failures earlier b).
Proof. unfold record_failures. rewrite fold_left_app. reflexivity. Qed.

(** Below the threshold a closed breaker counts the failures and stays
    closed. *)
Lemma record_failures_below_threshold (times : list Z) (b : CircuitBreaker.t) :
  CircuitBreaker._state b = CLOSED ->
  CircuitBreaker._failure_count b + Z.of_nat (List.length times) < CircuitBreaker.failure_threshold b ->
  CircuitBreaker._state (record_failures times b) = CLOSED
  /\ CircuitBreaker._failure_count (record_failures times b)
     = CircuitBreaker._failure_count b + Z.of_nat (List.length times)
  /\ CircuitBreaker.failure_threshold (record_failures times b)
     = CircuitBreaker.failure_threshold b.
Proof.
  revert b. induction times as [|now times IH]; intros b Hs Hlt.
  - simpl. repeat split; auto; lia.
  - cbn [List.length] in *. rewrite Nat2Z.inj_succ in *.
    change (record_failures (now :: times) b)
      with (record_failures times (CircuitBreaker.record_failure now b)).
    assert (Hstep : CircuitBreaker.record_failure now b
                    = CircuitBreaker.mk (CircuitBreaker.name b)
                        (CircuitBreaker.failure_threshold b) (CircuitBreaker.recovery_timeout b)
                        (CircuitBreaker.half_open_max_calls b) CLOSED
                        (CircuitBreaker._failure_count b + 1) (Some now)
                        (CircuitBreaker._half_open_calls b)).
    { unfold CircuitBreaker.record_failure. rewrite Hs.
      cbv zeta. rewrite geb_false by lia. reflexivity. }
    rewrite Hstep.
    match goal with
    | |- context [record_failures times ?b1] => destruct (IH b1) as (H1 & H2 & H3)
    end.
    + reflexivity.
    + cbn [CircuitBreaker._failure_count CircuitBreaker.failure_threshold]. lia.
    + rewrite H1, H2, H3.
      cbn [CircuitBreaker._failure_count CircuitBreaker.failure_threshold].
      repeat split; auto; lia.
Qed.

Lemma record_successes_last (n : nat) (b : CircuitBreaker.t) :
  record_successes (S n) b = CircuitBreaker.record_success (record_successes n b).
Proof.
  revert b. induction n as [|n IH]; intros b.
  - reflexivity.
  - change (record_successes (S (S n)) b)
      with (record_successes (S n) (CircuitBreaker.record_success b)).
    rewrite IH. reflexivity.
Qed.

(** Below [half_open_max_calls] a half-open breaker counts the successes
    and stays half open. *)
Lemma record_successes_below_max (n : nat) (b : CircuitBreaker.t) :
  CircuitBreaker._state b = HALF_OPEN ->
  CircuitBreaker._half_open_calls b + Z.of_nat n < CircuitBreaker.half_open_max_calls b ->
  CircuitBreaker._state (record_successes n b) = HALF_OPEN
  /\ CircuitBreaker._half_open_calls (record_successes n b)
     = CircuitBreaker._half_open_calls b + Z.of_nat n
  /\ CircuitBreaker.half_open_max_calls (record_successes n b)
     = CircuitBreaker.half_open_max_calls b.
Proof.
  revert b. induction n as [|n IH]; intros b Hs Hlt.
  - simpl. repeat split; auto; lia.
  - rewrite Nat2Z.inj_succ in Hlt.
    change (record_successes (S n) b)
      with (record_successes n (CircuitBreaker.record_success b)).
    assert (Hstep : CircuitBreaker.record_success b
                    = CircuitBreaker.mk (CircuitBreaker.name b)
                        (CircuitBreaker.failure_threshold b) (CircuitBreaker.recovery_timeout b)
                        (CircuitBreaker.half_open_max_calls b) HALF_OPEN
                        (CircuitBreaker._failure_count b) (CircuitBreaker._last_failure_time b)
                        (CircuitBreaker._half_open_calls b + 1)).
    { unfold CircuitBreaker.record_success. rewrite Hs.
      cbv zeta. rewrite geb_false by lia. reflexivity. }
    rewrite Hstep.
    match goal with
    | |- context [record_successes n ?b1] => destruct (IH b1) as (H1 & H2 & H3)
    end.
    + reflexivity.
    + cbn [CircuitBreaker._half_open_calls CircuitBreaker.half_open_max_calls]. lia.
    + rewrite H1, H2, H3.
      cbn [CircuitBreaker._half_open_calls CircuitBreaker.half_open_max_calls].
      repeat split; auto; lia.
Qed.

(** An open breaker asked before the recovery timeout has passed refuses,
    and is not changed by the question. *)
Lemma can_execute_open_within_timeout (b : CircuitBreaker.t) (last now : Z) :
  CircuitBreaker._state b = OPEN ->
  CircuitBreaker._last_failure_time b = Some last ->
  now - last < CircuitBreaker.recovery_timeout b ->
  CircuitBreaker.can_execute now b = (b, false).
Proof.
  intros Hs Hl Hlt. unfold CircuitBreaker.can_execute, CircuitBreaker.state.
  rewrite Hs, Hl. rewrite geb_false by exact Hlt. reflexivity.
Qed.

(** While a breaker is closed, [_failure_count] is the number of failures
    in a row: whatever calls were made on a new breaker, if it is closed its
    counter holds the failures recorded since the last success. *)
Lemma breaker_call_keeps_count (b : CircuitBreaker.t) (c : BreakerCall) (n : Z) :
  (CircuitBreaker._state b = CLOSED -> CircuitBreaker._failure_count b = n) ->
  CircuitBreaker._state (breaker_call b c) = CLOSED ->
  CircuitBreaker._failure_count (breaker_call b c) = failures_in_a_row [c] n.
Proof.
  intros Hinv. destruct c as [now| |now]; simpl.
  - unfold CircuitBreaker.can_execute, CircuitBreaker.state.
    destruct (CircuitBreaker._state b) eqn:Hs; simpl.
    + rewrite Hs. auto.
    + destruct (CircuitBreaker._last_failure_time b) as [last|]; simpl.
      * destruct (now - last >=? CircuitBreaker.recovery_timeout b); simpl;
          [discriminate | rewrite Hs; discriminate].
      * rewrite Hs. discriminate.
    + rewrite Hs. discriminate.
  - unfold CircuitBreaker.record_success.
    destruct (CircuitBreaker._state b) eqn:Hs; simpl.
    + reflexivity.
    + rewrite Hs. discriminate.
    + destruct (CircuitBreaker._half_open_calls b + 1 >=? CircuitBreaker.half_open_max_calls b);
        simpl; [reflexivity | discriminate].
  - unfold CircuitBreaker.record_failure.
    destruct (CircuitBreaker._state b) eqn:Hs; simpl; try discriminate.
    intros _. rewrite Hinv by reflexivity. reflexivity.
Qed.

Lemma closed_breaker_counts_failures_in_a_row (calls : list BreakerCall) :
  forall (b : CircuitBreaker.t) (n : Z),
    (CircuitBreaker._state b = CLOSED -> CircuitBreaker._failure_count b = n) ->
    CircuitBreaker._state (breaker_calls calls b) = CLOSED ->
    CircuitBreaker._failure_count (breaker_calls calls b) = failures_in_a_row calls n.
Proof.
  induction calls as [|c calls IH]; intros b n Hinv Hs.
  - simpl in *. auto.
  - change (breaker_calls (c :: calls) b) with (breaker_calls calls (breaker_call b c)) in *.
    change (failures_in_a_row (c :: calls) n)
      with (failures_in_a_row calls (failures_in_a_row [c] n)).
    apply IH; [|exact Hs].
    apply breaker_call_keeps_count. exact Hinv.
Qed.

Lemma new_breaker_counts_failures_in_a_row
    (calls : list BreakerCall) (name : string)
    (failure_threshold recovery_timeout half_open_max_calls : Z) :
  let b := breaker_calls calls
             (CircuitBreaker.init name failure_threshold recovery_timeout half_open_max_calls) in
  CircuitBreaker._state b = CLOSED ->
  CircuitBreaker._failure_count b = failures_in_a_row calls 0.
Proof.
  intros b Hs. apply closed_breaker_counts_failures_in_a_row; [reflexivity | exact Hs].
Qed.

(** C7: for every circuit breaker, (1) while CLOSED, the failure that brings
    the run of consecutive failures to [failure_threshold] flips it to OPEN
    and records the time of that failure, and it was still CLOSED before;
    (2) while OPEN and within [recovery_timeout] of the last failure,
    [can_execute] answers no, and every call through [retry_async] ends at
    once in an exception (the circuit-open error, for any [max_retries] from
    0 up), the wrapped operation never invoked and nothing slept; (3) once [recovery_timeout] has passed since the last
    failure, the next read of the state moves the breaker to HALF_OPEN (with
    its trial counter at zero) and the call may go ahead. *)
Theorem circuit_breaker_opens_rejects_recovers (b : CircuitBreaker.t) :
  (CircuitBreaker._state b = CLOSED ->
   forall (earlier : list Z) (now : Z),
     CircuitBreaker._failure_count b + Z.of_nat (List.length earlier) + 1
     = CircuitBreaker.failure_threshold b ->
     CircuitBreaker._state (record_failures earlier b) = CLOSED
     /\ CircuitBreaker._state (record_failures (earlier ++ [now]) b) = OPEN
     /\ CircuitBreaker._last_failure_time (record_failures (earlier ++ [now]) b) = Some now)
  /\ (CircuitBreaker._state b = OPEN ->
      forall (last now : Z),
        CircuitBreaker._last_failure_time b = Some last ->
        now - last < CircuitBreaker.recovery_timeout b ->
        CircuitBreaker.can_execute now b = (b, false)
        /\ forall (M R A : Type) (scalar : Scalar R)
                  (env : nat -> Attempt M A) (args : RetryArgs M R),
             circuit_breaker args = Some b ->
             at_can_execute (env O) = now ->
             exists (e : exn M) (b' : option CircuitBreaker.t),
               retry_async env args = (Raise e, b', [])
               /\ (0 <= max_retries args ->
                   e = NetworkException
                         ("Service " ++ CircuitBreaker.name b
                            ++ " unavailable (circuit breaker open)")%string))
  /\ (CircuitBreaker._state b = OPEN ->
      forall (last now : Z),
        CircuitBreaker._last_failure_time b = Some last ->
        now - last >= CircuitBreaker.recovery_timeout b ->
        snd (CircuitBreaker.state now b) = HALF_OPEN
        /\ CircuitBreaker._state (fst (CircuitBreaker.state now b)) = HALF_OPEN
        /\ CircuitBreaker._half_open_calls (fst (CircuitBreaker.state now b)) = 0
        /\ snd (CircuitBreaker.can_execute now b) = true).
Proof.
  split; [|split].
  - intros Hs earlier now Hlen.
    destruct (record_failures_below_threshold earlier b Hs) as (H1 & H2 & H3); [lia|].
    split; [exact H1|].
    rewrite record_failures_last. unfold CircuitBreaker.record_failure.
    rewrite H1, H2, H3. simpl. rewrite geb_true by lia. split; reflexivity.
  - intros Hs last now Hl Hlt.
    pose proof (@can_execute_open_within_timeout b last now Hs Hl Hlt) as Hno.
    split; [exact Hno|].
    intros M R A scalar env args Hcb Hnow.
    unfold retry_async. rewrite Hcb.
    destruct (Z.to_nat (max_retries args + 1)) as [|rest] eqn:E.
    + eexists. eexists. split; [reflexivity | lia].
    + cbn [retry_loop]. unfold retry_iteration, breaker_check.
      rewrite Hnow, Hno. eexists. eexists. split; reflexivity.
  - intros Hs last now Hl Hge.
    unfold CircuitBreaker.can_execute, CircuitBreaker.state.
    rewrite Hs, Hl. rewrite geb_true by lia. simpl. repeat split; reflexivity.
Qed.

(** C7 on the breaker of the Ichancy client: five failures open it, a call
    20 seconds after the last one is refused, a read 70 seconds after it
    finds the breaker half open. *)
Lemma circuit_breaker_opens_rejects_recovers_witness :
  (CircuitBreaker._state (record_failures [1; 2; 3; 4] ex_breaker) = CLOSED
   /\ CircuitBreaker._state (record_failures ([1; 2; 3; 4] ++ [10000000]) ex_breaker) = OPEN
   /\ CircuitBreaker._last_failure_time (record_failures ([1; 2; 3; 4] ++ [10000000]) ex_breaker)
      = Some 10000000)
  /\ CircuitBreaker.can_execute 30000000 ex_breaker_open = (ex_breaker_open, false)
  /\ snd (CircuitBreaker.state 80000000 ex_breaker_open) = HALF_OPEN.
Proof.
  destruct (circuit_breaker_opens_rejects_recovers ex_breaker) as (Hopen & _ & _).
  destruct (circuit_breaker_opens_rejects_recovers ex_breaker_open) as (_ & Hreject & Hrecover).
  split; [|split].
  - apply (Hopen eq_refl [1; 2; 3; 4] 10000000). reflexivity.
  - apply (Hreject eq_refl 10000000 30000000); reflexivity.
  - apply (Hrecover eq_refl 10000000 80000000); [reflexivity | discriminate].
Defined.

(** C8 (as amended): for every circuit breaker in HALF_OPEN state, every
    [can_execute] lets the caller through and leaves the breaker as it is (no
    cap on trial calls is enforced); any single failure recorded returns the
    breaker to OPEN and sets the failure time to that failure's; and the
    success that brings the count of successes to [half_open_max_calls] moves
    the breaker to CLOSED and resets the failure counter to zero, the breaker
    staying HALF_OPEN until then. *)
Theorem half_open_breaker (b : CircuitBreaker.t) :
  CircuitBreaker._state b = HALF_OPEN ->
  (forall now : Z, CircuitBreaker.can_execute now b = (b, true))
  /\ (forall now : Z,
        CircuitBreaker._state (CircuitBreaker.record_failure now b) = OPEN
        /\ CircuitBreaker._last_failure_time (CircuitBreaker.record_failure now b) = Some now)
  /\ (forall n : nat,
        CircuitBreaker._half_open_calls b + Z.of_nat n + 1 = CircuitBreaker.half_open_max_calls b ->
        CircuitBreaker._state (record_successes n b) = HALF_OPEN
        /\ CircuitBreaker._state (record_successes (S n) b) = CLOSED
        /\ CircuitBreaker._failure_count (record_successes (S n) b) = 0).
Proof.
  intros Hs. split; [|split].
  - intros now. unfold CircuitBreaker.can_execute, CircuitBreaker.state.
    rewrite Hs. reflexivity.
  - intros now. unfold CircuitBreaker.record_failure. rewrite Hs. split; reflexivity.
  - intros n Hn.
    destruct (record_successes_below_max n b Hs) as (H1 & H2 & H3); [lia|].
    split; [exact H1|].
    rewrite record_successes_last. unfold CircuitBreaker.record_success.
    rewrite H1, H2, H3. cbv zeta. rewrite geb_true by lia. split; reflexivity.
Qed.

(** C8 on the half-open breaker of the Ichancy client. *)
Lemma half_open_breaker_witness :
  (forall now : Z,
      CircuitBreaker.can_execute now ex_breaker_half_open = (ex_breaker_half_open, true))
  /\ (forall now : Z,
        CircuitBreaker._state (CircuitBreaker.record_failure now ex_breaker_half_open) = OPEN
        /\ CircuitBreaker._last_failure_time
             (CircuitBreaker.record_failure now ex_breaker_half_open) = Some now)
  /\ CircuitBreaker._state (record_successes 2 ex_breaker_half_open) = HALF_OPEN
  /\ CircuitBreaker._state (record_successes 3 ex_breaker_half_open) = CLOSED
  /\ CircuitBreaker._failure_count (record_successes 3 ex_breaker_half_open) = 0.
Proof.
  destruct (half_open_breaker ex_breaker_half_open eq_refl) as (Hpass & Hfail & Hclose).
  split; [exact Hpass|]. split; [exact Hfail|].
  apply (Hclose 2%nat). reflexivity.
Defined.

(** C8 as stated fails: the breaker is half open with [half_open_max_calls]
    at 3, and five callers ask [can_execute] before any outcome is recorded;
    all five are let through and the breaker is as it was.  The same holds
    through [retry_async] when the wrapped call ends in an exception outside
    the retried ones: the call was made, nothing is recorded, and the breaker
    comes back half open and unchanged, ready to let the next one through. *)
Lemma half_open_lets_more_than_max_calls_through :
  CircuitBreaker._state ex_breaker_half_open = HALF_OPEN
  /\ CircuitBreaker.half_open_max_calls ex_breaker_half_open = 3
  /\ let_through [80000000; 80000001; 80000002; 80000003; 80000004] ex_breaker_half_open
     = (5%nat, ex_breaker_half_open)
  /\ retry_async ex_attempts_not_retried (ex_retry_args (Some ex_breaker_half_open))
     = (Raise (BuiltinError "ValueError" "bad argument"),
        Some ex_breaker_half_open, [CALL_FUNC 0]).
Proof. repeat split. Qed.

(* ================================================================== *)
(** * The retry executor *)

Section RetryFacts.
Context {M R A : Type} {scalar : Scalar R}.

Implicit Types (env : nat -> Attempt M A) (args : RetryArgs M R).

Lemma sleeps_app (e1 e2 : list (Effect M R)) : sleeps (e1 ++ e2) = sleeps e1 ++ sleeps e2.
Proof.
  induction e1 as [|x e1 IH]; simpl; [reflexivity|].
  destruct x; simpl; rewrite IH; reflexivity.
Qed.

Lemma invocations_app (e1 e2 : list (Effect M R)) :
  invocations (e1 ++ e2) = (invocations e1 + invocations e2)%nat.
Proof.
  induction e1 as [|x e1 IH]; simpl; [reflexivity|].
  destruct x; simpl; rewrite IH; reflexivity.
Qed.

(** What one iteration does: it awaits [func] at most once; when the loop
    goes on it awaited it once, and either slept [current_delay] and
    multiplied it by [backoff], or (on the last attempt) did neither. *)
Lemma retry_iteration_shape env args (attempt : nat) (cb : option CircuitBreaker.t)
    (current_delay : R) :
  match retry_iteration env args attempt cb current_delay with
  | STOP _ _ effects => sleeps effects = [] /\ (invocations effects <= 1)%nat
  | NEXT _ current_delay' e effects =>
      invocations effects = 1%nat
      /\ func_result (env attempt) = Raise e
      /\ ((sleeps effects = [current_delay]
           /\ current_delay' = smul current_delay (backoff args))
          \/ (sleeps effects = [] /\ current_delay' = current_delay))
  end.
Proof.
  unfold retry_iteration.
  destruct (breaker_check (at_can_execute (env attempt)) cb) as [[b|] [|]];
    destruct (func_result (env attempt)) as [result|e];
    try (simpl; split; [reflexivity | lia]);
    destruct (exceptions args e);
    try (simpl; split; [reflexivity | lia]);
    destruct (Z.of_nat attempt <? max_retries args);
    destruct (on_retry args); simpl; auto.
Qed.











End RetryFacts.

(** In exact arithmetic the delay in force at attempt [i] is
    [delay * backoff ^ i]. *)
Lemma delay_at_closed_form {R : Type} `{ExactScalar R} (d b : R) (i : nat) :
  delay_at d b i = smul d (spow b i).
Proof.
  revert d. induction i as [|i IH]; intros d; cbn [delay_at spow].
  - symmetry. apply smul_1_r.
  - assert (Hshift : forall (j : nat) (x : R),
               smul (delay_at x b j) b = delay_at (smul x b) b j).
    { induction j as [|j IHj]; intros x; cbn [delay_at]; [reflexivity|].
      rewrite IHj. reflexivity. }
    rewrite Hshift, IH. apply smul_assoc.
Qed.



(* ================================================================== *)
(** * What the client makes of a response *)

Lemma eq_str_iff (v : json) (s : string) : eq_str v s = true <-> v = JStr s.
Proof.
  destruct v; simpl; split; intros Hv; try discriminate.
  - apply String.eqb_eq in Hv. subst. reflexivity.
  - inversion Hv. apply String.eqb_refl.
Qed.

(** The error test, spelled out. *)
Lemma has_error_flag_iff (fields : list (string * json)) :
  has_error_flag fields = true
  <-> dict_get fields "hasError" = JStr "yes"
      \/ truthy (dict_get fields "error") = true
      \/ dict_get fields "status" = JStr "error".
Proof.
  unfold has_error_flag. rewrite !orb_true_iff, !eq_str_iff. tauto.
Qed.

(** C10: for every response with an HTTP status below 400 whose body does
    not parse as JSON, [_request] returns a success ([success = True]) that
    carries the raw text as its data; and among the responses with a status
    below 400, the failures are exactly the parsed JSON objects that carry an
    error flag: [hasError] equal to "yes", a truthy [error] field, or
    [status] equal to "error". *)
Theorem request_non_json_is_success
    (M : Type) (int_str : Z -> string) (status_code : Z) (text : string) :
  status_code < 400 ->
  @_request M int_str (HTTP_RESPONSE status_code text None)
  = Ret (IchancyResponse.mk true (JObj [("raw", JStr text)]) JNull (JStr text))
  /\ forall parsed : option json,
       exists response : IchancyResponse.t,
         @_request M int_str (HTTP_RESPONSE status_code text parsed) = Ret response
         /\ (IchancyResponse.success response = false
             <-> exists fields : list (string * json),
                   parsed = Some (JObj fields)
                   /\ (dict_get fields "hasError" = JStr "yes"
                       \/ truthy (dict_get fields "error") = true
                       \/ dict_get fields "status" = JStr "error")).
Proof.
  intros Hlt. unfold _request. rewrite geb_false by exact Hlt.
  split; [reflexivity|].
  intros [data|].
  - destruct data as [ | flag | q | s | items | fields];
      try (eexists; split; [reflexivity|]; simpl; split;
           [discriminate | intros (fields & Hp & _); discriminate]).
    destruct (has_error_flag fields) eqn:E.
    + eexists. split; [reflexivity|]. simpl. split; [|reflexivity].
      intros _. exists fields. split; [reflexivity|]. apply has_error_flag_iff. exact E.
    + eexists. split; [reflexivity|]. simpl. split; [discriminate|].
      intros (fields' & Hp & Hflag). inversion Hp; subst fields'.
      apply has_error_flag_iff in Hflag. congruence.
  - eexists. split; [reflexivity|]. simpl. split; [discriminate|].
    intros (fields & Hp & _). discriminate.
Qed.

(** C10 on a gateway's HTML page served with status 200. *)
Lemma request_non_json_is_success_witness :
  @_request Z (fun _ => "200") (HTTP_RESPONSE 200 "<html>Bad Gateway</html>" None)
  = Ret (IchancyResponse.mk true (JObj [("raw", JStr "<html>Bad Gateway</html>")]) JNull
           (JStr "<html>Bad Gateway</html>"))
  /\ forall parsed : option json,
       exists response : IchancyResponse.t,
         @_request Z (fun _ => "200") (HTTP_RESPONSE 200 "<html>Bad Gateway</html>" parsed)
         = Ret response
         /\ (IchancyResponse.success response = false
             <-> exists fields : list (string * json),
                   parsed = Some (JObj fields)
                   /\ (dict_get fields "hasError" = JStr "yes"
                       \/ truthy (dict_get fields "error") = true
                       \/ dict_get fields "status" = JStr "error")).
Proof.
  apply (@request_non_json_is_success Z (fun _ => "200") 200 "<html>Bad Gateway</html>").
  reflexivity.
Defined.


(* ================================================================== *)
(** * Further properties: the transactions table *)

Section MoreRows.
Context {Row : Type}.

Lemma update_where_untouched (sel : Row -> bool) (set : Row -> Row) (rows : list Row) :
  find sel rows = None -> update_where sel set rows = rows.
Proof.
  intros Hn. induction rows as [|r rows IH]; simpl in *; [reflexivity|].
  destruct (sel r); [discriminate|]. rewrite IH by exact Hn. reflexivity.
Qed.

Lemma find_update_where_apart (p sel : Row -> bool) (set : Row -> Row) (rows : list Row) :
  (forall r, p (set r) = p r) ->
  (forall r, p r = true -> sel r = false) ->
  find p (update_where sel set rows) = find p rows.
Proof.
  intros Hp Hapart. induction rows as [|r rows IH]; simpl; [reflexivity|].
  destruct (sel r) eqn:Es.
  - rewrite Hp. destruct (p r) eqn:Ep; [|exact IH].
    rewrite (Hapart r Ep) in Es. discriminate.
  - destruct (p r); [reflexivity | exact IH].
Qed.

Lemma map_update_where {B} (f : Row -> B) (sel : Row -> bool) (set : Row -> Row)
    (rows : list Row) :
  (forall r, f (set r) = f r) -> map f (update_where sel set rows) = map f rows.
Proof.
  intros Hf. unfold update_where. rewrite map_map. apply map_ext.
  intros r. destruct (sel r); [apply Hf | reflexivity].
Qed.

Lemma flat_map_update_where {B} (f : Row -> list B) (sel : Row -> bool) (set : Row -> Row)
    (rows : list Row) :
  (forall r, f (set r) = f r) -> flat_map f (update_where sel set rows) = flat_map f rows.
Proof.
  intros Hf. induction rows as [|r rows IH]; simpl; [reflexivity|].
  rewrite IH. destruct (sel r); [rewrite Hf|]; reflexivity.
Qed.

End MoreRows.

Section TransactionTable.
Context {M : Type} `{Money M}.

Lemma set_transactions_same (w : World M) : set_transactions (transactions w) w = w.
Proof. destruct w. reflexivity. Qed.

Lemma has_key_in_keys (key : string) (rows : list (Transaction.t M)) :
  find (TransactionRepository.has_key key) rows = None <-> ~ In key (transaction_keys rows).
Proof.
  induction rows as [|r rows IH]; simpl.
  - tauto.
  - unfold TransactionRepository.has_key at 1.
    destruct (Transaction.idempotency_key r) as [k|]; simpl.
    + destruct (String.eqb_spec k key) as [->|Hne].
      * split; [discriminate | intros Hn; exfalso; apply Hn; left; reflexivity].
      * rewrite IH. split; [intros Hn [Heq|Hin]; [congruence | contradiction] | tauto].
    + exact IH.
Qed.

Lemma has_id_in_ids (tid : string) (rows : list (Transaction.t M)) :
  find (TransactionRepository.has_id tid) rows = None <-> ~ In tid (transaction_ids rows).
Proof.
  induction rows as [|r rows IH]; simpl.
  - tauto.
  - unfold TransactionRepository.has_id at 1.
    destruct (String.eqb_spec (Transaction.id r) tid) as [->|Hne].
    + split; [discriminate | intros Hn; exfalso; apply Hn; left; reflexivity].
    + rewrite IH. split; [intros Hn [Heq|Hin]; [congruence | contradiction] | tauto].
Qed.

(** How [create] ends, case by case. *)
Lemma create_cases (w : World M) (txn : Transaction.t M) :
  (exists e, TransactionRepository.create txn w = (Raise e, w)
             /\ (find (TransactionRepository.has_id (Transaction.id txn)) (transactions w)
                 <> None
                 \/ exists key, Transaction.idempotency_key txn = Some key
                                /\ find (TransactionRepository.has_key key) (transactions w)
                                   <> None))
  \/ (TransactionRepository.create txn w
      = (Ret txn, set_transactions (transactions w ++ [TransactionRepository.inserted_row txn]) w)
      /\ find (TransactionRepository.has_id (Transaction.id txn)) (transactions w) = None
      /\ forall key, Transaction.idempotency_key txn = Some key ->
                     find (TransactionRepository.has_key key) (transactions w) = None).
Proof.
  assert (Hins :
    (exists e, TransactionRepository.insert txn w = (Raise e, w)
               /\ (find (TransactionRepository.has_id (Transaction.id txn)) (transactions w)
                   <> None
                   \/ exists key, Transaction.idempotency_key txn = Some key
                                  /\ find (TransactionRepository.has_key key) (transactions w)
                                     <> None))
    \/ (TransactionRepository.insert txn w
        = (Ret tt, set_transactions (transactions w ++ [TransactionRepository.inserted_row txn]) w)
        /\ find (TransactionRepository.has_id (Transaction.id txn)) (transactions w) = None
        /\ forall key, Transaction.idempotency_key txn = Some key ->
                       find (TransactionRepository.has_key key) (transactions w) = None)).
  { unfold TransactionRepository.insert.
    destruct (existsb (TransactionRepository.has_id (Transaction.id txn)) (transactions w))
      eqn:Hid.
    - left. eexists. split; [reflexivity|]. left.
      intros Hn. apply existsb_find_none in Hn. congruence.
    - destruct (Transaction.idempotency_key txn) as [key|].
      + destruct (existsb (TransactionRepository.has_key key) (transactions w)) eqn:Hkey.
        * left. eexists. split; [reflexivity|]. right. exists key. split; [reflexivity|].
          intros Hn. apply existsb_find_none in Hn. congruence.
        * right. split; [reflexivity|]. split; [apply existsb_find_none; exact Hid|].
          intros key' Hk'. inversion Hk'; subst key'. apply existsb_find_none. exact Hkey.
      + right. split; [reflexivity|]. split; [apply existsb_find_none; exact Hid|].
        intros key' Hk'. discriminate. }
  assert (Hnone : TransactionRepository.insert txn w
                  = TransactionRepository.insert txn w ->
                  forall existing : Py M (option (Transaction.t M)),
                    existing w = (Ret None, w) ->
                    (x <- existing ;;
                     match x with
                     | Some first =>
                         raise (DuplicateTransactionException
                                  (match Transaction.idempotency_key txn with
                                   | Some key => key
                                   | None => ""
                                   end)
                                  (Transaction.id first))
                     | None => TransactionRepository.insert txn ;; ret txn
                     end) w
                    = match TransactionRepository.insert txn w with
                      | (Ret _, w') => (Ret txn, w')
                      | (Raise e, w') => (Raise e, w')
                      end).
  { intros _ existing He. unfold bind at 1. rewrite He. unfold bind, ret.
    destruct (TransactionRepository.insert txn w) as [[u|e] w']; reflexivity. }
  specialize (Hnone eq_refl).
  unfold TransactionRepository.create.
  destruct (Transaction.idempotency_key txn) as [key|] eqn:Hk.
  - unfold truthy_str. destruct (negb (key =? "")%string).
    + destruct (find (TransactionRepository.has_key key) (transactions w)) as [first|] eqn:Hf.
      * left. eexists. split.
        -- unfold bind at 1, TransactionRepository.get_by_idempotency_key, gets.
           rewrite Hf. reflexivity.
        -- right. exists key. split; [reflexivity | congruence].
      * rewrite Hnone
          by (unfold TransactionRepository.get_by_idempotency_key, gets; rewrite Hf;
              reflexivity).
        destruct Hins as [(e & He & Hwhy) | (Hok & Hrest)].
        -- left. exists e. rewrite He. split; [reflexivity | exact Hwhy].
        -- right. rewrite Hok. split; [reflexivity | exact Hrest].
    + rewrite Hnone by reflexivity.
      destruct Hins as [(e & He & Hwhy) | (Hok & Hrest)].
      * left. exists e. rewrite He. split; [reflexivity | exact Hwhy].
      * right. rewrite Hok. split; [reflexivity | exact Hrest].
  - unfold truthy_str. rewrite Hnone by reflexivity.
    destruct Hins as [(e & He & Hwhy) | (Hok & Hrest)].
    + left. exists e. rewrite He. split; [reflexivity | exact Hwhy].
    + right. rewrite Hok. split; [reflexivity | exact Hrest].
Qed.


Lemma transaction_keys_app (rows1 rows2 : list (Transaction.t M)) :
  transaction_keys (rows1 ++ rows2) = transaction_keys rows1 ++ transaction_keys rows2.
Proof. unfold transaction_keys. apply flat_map_app. Qed.

Lemma NoDup_snoc {B} (l : list B) (x : B) : NoDup l -> ~ In x l -> NoDup (l ++ [x]).
Proof.
  intros Hl Hx. apply NoDup_app; [exact Hl | repeat constructor; simpl; tauto|].
  intros y Hy [<-|[]]. contradiction.
Qed.

(** X2: the three writers of the transactions table, [create],
    [update_state] and [update], keep ids unique and idempotency keys unique:
    from a table where no two rows share an id or a key, each of them, however
    it ends, leaves such a table. *)
Theorem transactions_stay_unique (w : World M) :
  unique_transactions (transactions w) ->
  (forall txn, unique_transactions (transactions (after (TransactionRepository.create txn) w)))
  /\ (forall now tid new_state message,
        unique_transactions
          (transactions (after (TransactionRepository.update_state now tid new_state message) w)))
  /\ (forall now txn,
        unique_transactions (transactions (after (TransactionRepository.update now txn) w))).
Proof.
  intros [Hids Hkeys]. split; [|split].
  - intros txn. unfold after.
    destruct (create_cases w txn) as [(e & He & _) | (Hok & Hid & Hkey)].
    + rewrite He. simpl. split; assumption.
    + rewrite Hok. simpl. split.
      * unfold transaction_ids. rewrite map_app. simpl.
        apply NoDup_snoc; [exact Hids | apply has_id_in_ids; exact Hid].
      * rewrite transaction_keys_app. simpl.
        destruct (Transaction.idempotency_key txn) as [key|] eqn:Hk; simpl.
        -- apply NoDup_snoc; [exact Hkeys | apply has_key_in_keys; auto].
        -- rewrite app_nil_r. exact Hkeys.
  - intros now tid new_state message. unfold after.
    unfold TransactionRepository.update_state, TransactionRepository.get_by_id,
      bind, gets, ret, modify, audit.
    destruct (find (TransactionRepository.has_id tid) (transactions w)) as [txn|];
      [|simpl; split; assumption].
    destruct (negb (can_transition_to (Transaction.state txn) new_state));
      [simpl; split; assumption|].
    simpl. split.
    + unfold transaction_ids. rewrite map_update_where by reflexivity. exact Hids.
    + unfold transaction_keys. rewrite flat_map_update_where by reflexivity. exact Hkeys.
  - intros now txn. unfold after. simpl. split.
    + unfold transaction_ids. rewrite map_update_where by reflexivity. exact Hids.
    + unfold transaction_keys. rewrite flat_map_update_where by reflexivity. exact Hkeys.
Qed.

Lemma legal_path_first (s t u : TransactionState) :
  can_transition_to s t = true -> legal_path t u -> legal_path s u.
Proof.
  intros Hst Htu. induction Htu as [t | t v u' Htv IH Hvu].
  - eapply path_move; [apply path_stay | exact Hst].
  - eapply path_move; [apply IH; exact Hst | exact Hvu].
Qed.

(** What one call of [update_state] does to the world. *)
Lemma update_state_cases (w : World M) (now : Z) (rid : string) (s : TransactionState)
    (msg : option string) :
  TransactionRepository.update_state now rid s msg w = (Ret false, w)
  \/ exists row,
       find (TransactionRepository.has_id rid) (transactions w) = Some row
       /\ can_transition_to (Transaction.state row) s = true
       /\ TransactionRepository.update_state now rid s msg w
          = (Ret true,
             mkWorld (users w)
                     (update_where (TransactionRepository.has_id rid)
                                   (TransactionRepository.state_row now s msg)
                                   (transactions w))
                     (payments w) (ichancy_calls w)
                     (audit_log w ++ [TRANSACTION_STATE_CHANGE rid
                                        (TransactionState_value (Transaction.state row))
                                        (TransactionState_value s)])).
Proof.
  destruct (find (TransactionRepository.has_id rid) (transactions w)) as [row|] eqn:Hf.
  - destruct (can_transition_to (Transaction.state row) s) eqn:Hc.
    + right. exists row. split; [reflexivity|]. split; [exact Hc|].
      apply update_state_legal; assumption.
    + left. eapply update_state_refused; eassumption.
  - left. unfold TransactionRepository.update_state, TransactionRepository.get_by_id,
      bind, gets, ret. rewrite Hf. reflexivity.
Qed.

Lemma has_id_apart (tid rid : string) (r : Transaction.t M) :
  tid <> rid ->
  TransactionRepository.has_id tid r = true -> TransactionRepository.has_id rid r = false.
Proof.
  unfold TransactionRepository.has_id. intros Hne Hr.
  apply String.eqb_eq in Hr. apply String.eqb_neq. congruence.
Qed.

(** The row of [tid] after one call of [update_state] on [rid]. *)
Lemma update_state_row_step (w : World M) (now : Z) (rid : string) (s : TransactionState)
    (msg : option string) (tid : string) (txn : Transaction.t M) :
  find (TransactionRepository.has_id tid) (transactions w) = Some txn ->
  find (TransactionRepository.has_id tid)
       (transactions (after (TransactionRepository.update_state now rid s msg) w)) = Some txn
  \/ (rid = tid
      /\ can_transition_to (Transaction.state txn) s = true
      /\ find (TransactionRepository.has_id tid)
              (transactions (after (TransactionRepository.update_state now rid s msg) w))
         = Some (TransactionRepository.state_row now s msg txn)).
Proof.
  intros Hf. unfold after.
  destruct (update_state_cases w now rid s msg) as [Hsame | (row & Hrow & Hc & Hrun)].
  - left. rewrite Hsame. exact Hf.
  - rewrite Hrun. cbn [snd transactions].
    destruct (String.eqb_spec tid rid) as [->|Hne].
    + right. rewrite Hf in Hrow. inversion Hrow; subst row.
      split; [reflexivity|]. split; [exact Hc|].
      rewrite transaction_lookup_after_update_state, Hf. reflexivity.
    + left. rewrite find_update_where_apart; [exact Hf | reflexivity|].
      intros r. apply has_id_apart. exact Hne.
Qed.

(** X3: whatever sequence of [update_state] calls is made, on whatever
    transactions and with whatever target states, every transaction that was
    in the table is still there, and its state has moved from the old one
    along a chain of transitions of [valid_transitions] (possibly none). *)
Theorem update_states_follow_legal_path (requests : list StateRequest) (w : World M)
    (tid : string) (txn : Transaction.t M) :
  find (TransactionRepository.has_id tid) (transactions w) = Some txn ->
  exists txn',
    find (TransactionRepository.has_id tid) (transactions (update_states requests w))
    = Some txn'
    /\ legal_path (Transaction.state txn) (Transaction.state txn').
Proof.
  revert w txn. induction requests as [|r requests IH]; intros w txn Hf.
  - exists txn. split; [exact Hf | apply path_stay].
  - cbn [update_states fold_left].
    destruct (update_state_row_step w (requested_at r) (requested_id r) (requested_state r)
                (requested_message r) tid Hf) as [Hsame | (_ & Hc & Hnew)].
    + apply (IH _ _ Hsame).
    + destruct (IH _ _ Hnew) as (txn' & Hf' & Hpath).
      exists txn'. split; [exact Hf'|].
      eapply legal_path_first; [exact Hc | exact Hpath].
Qed.

(** X4: a transaction in PARTIALLY_FAILED, CANCELLED or REVERSED is
    never rewritten by [update_state]: after any sequence of calls, its row
    is the row it was, column for column. *)
Theorem update_states_keep_terminal_row (requests : list StateRequest) (w : World M)
    (tid : string) (txn : Transaction.t M) :
  find (TransactionRepository.has_id tid) (transactions w) = Some txn ->
  Transaction.state txn = PARTIALLY_FAILED \/ Transaction.state txn = CANCELLED
  \/ Transaction.state txn = REVERSED ->
  find (TransactionRepository.has_id tid) (transactions (update_states requests w))
  = Some txn.
Proof.
  intros Hf Hterminal. revert w Hf.
  induction requests as [|r requests IH]; intros w Hf; [exact Hf|].
  cbn [update_states fold_left]. apply IH.
  destruct (update_state_row_step w (requested_at r) (requested_id r) (requested_state r)
              (requested_message r) tid Hf) as [Hsame | (_ & Hc & _)]; [exact Hsame|].
  rewrite (terminal_states_have_no_exit (requested_state r) Hterminal) in Hc. discriminate.
Qed.

(** X5: [update_state] never touches money.  Whatever its arguments and
    however it ends, the users and the payments are as they were, no remote
    call is made, and every transaction keeps its id, user, type, amount,
    currency, idempotency key and both balance snapshots; the rows keep their
    order. *)
Theorem update_state_keeps_money (w : World M) (now : Z) (tid : string)
    (new_state : TransactionState) (message : option string) :
  users (after (TransactionRepository.update_state now tid new_state message) w) = users w
  /\ payments (after (TransactionRepository.update_state now tid new_state message) w)
     = payments w
  /\ ichancy_calls (after (TransactionRepository.update_state now tid new_state message) w)
     = ichancy_calls w
  /\ map money_columns
         (transactions (after (TransactionRepository.update_state now tid new_state message) w))
     = map money_columns (transactions w).
Proof.
  unfold after.
  destruct (update_state_cases w now tid new_state message)
    as [Hsame | (row & _ & _ & Hrun)].
  - rewrite Hsame. repeat split; reflexivity.
  - rewrite Hrun. cbn [snd users payments ichancy_calls transactions].
    repeat split; try reflexivity.
    apply map_update_where. intros r. reflexivity.
Qed.


End TransactionTable.


Lemma transactions_stay_unique_witness :
  unique_transactions (transactions ex_world_rows)
  /\ unique_transactions
       (transactions (after (TransactionRepository.update_state 60 "t2" PROCESSING None)
                            ex_world_rows)).
Proof.
  assert (Hunique : unique_transactions (transactions ex_world_rows)).
  { split; cbn; repeat constructor; cbn; intuition discriminate. }
  split; [exact Hunique|].
  destruct (@transactions_stay_unique Z ex_world_rows Hunique) as (_ & Hstate & _).
  apply Hstate.
Defined.

Lemma update_states_follow_legal_path_witness :
  find (TransactionRepository.has_id "t2") (transactions ex_world_rows)
  = Some (ex_row "t2" 1 PENDING 200 (Some "k2") 20)
  /\ exists txn',
       find (TransactionRepository.has_id "t2")
            (transactions (update_states ex_requests ex_world_rows)) = Some txn'
       /\ legal_path PENDING (Transaction.state txn').
Proof.
  split; [reflexivity|].
  apply (@update_states_follow_legal_path Z ex_requests ex_world_rows "t2"
           (ex_row "t2" 1 PENDING 200 (Some "k2") 20)).
  reflexivity.
Defined.

Lemma update_states_keep_terminal_row_witness :
  find (TransactionRepository.has_id "t5") (transactions ex_world_rows)
  = Some (ex_row "t5" 1 CANCELLED 500 None 50)
  /\ find (TransactionRepository.has_id "t5")
          (transactions (update_states ex_requests ex_world_rows))
     = Some (ex_row "t5" 1 CANCELLED 500 None 50).
Proof.
  split; [reflexivity|].
  apply (@update_states_keep_terminal_row Z ex_requests ex_world_rows "t5"
           (ex_row "t5" 1 CANCELLED 500 None 50)).
  - reflexivity.
  - right. left. reflexivity.
Defined.



(* ================================================================== *)
(** * Further properties: the listings *)

Section OrderFacts.
Context {Row : Type} (column : Row -> Z).

Lemma place_ascending_permutation (r : Row) (sorted : list Row) :
  Permutation (place_ascending column r sorted) (r :: sorted).
Proof.
  induction sorted as [|r' rest IH]; simpl; [reflexivity|].
  destruct (column r <? column r'); [reflexivity|].
  rewrite IH. apply perm_swap.
Qed.


Lemma place_ascending_head (a r : Row) (sorted : list Row) :
  ascending column a r -> HdRel (ascending column) a sorted ->
  HdRel (ascending column) a (place_ascending column r sorted).
Proof.
  intros Har Hhd. destruct sorted as [|r' rest]; simpl; [constructor; exact Har|].
  destruct (column r <? column r'); constructor; [exact Har|].
  inversion Hhd; assumption.
Qed.


Lemma place_ascending_sorted (r : Row) (sorted : list Row) :
  Sorted (ascending column) sorted ->
  Sorted (ascending column) (place_ascending column r sorted).
Proof.
  induction sorted as [|r' rest IH]; intros Hs; simpl; [repeat constructor|].
  destruct (Z.ltb_spec (column r) (column r')) as [Hlt|Hge].
  - constructor; [exact Hs|]. constructor. unfold ascending. lia.
  - inversion Hs as [|? ? Hrest Hhd]; subst. constructor; [apply IH; exact Hrest|].
    apply place_ascending_head; [unfold ascending; lia | exact Hhd].
Qed.


Lemma order_by_from (rows sorted : list Row) :
  Sorted (ascending column) sorted ->
  Permutation (fold_left (fun sorted r => place_ascending column r sorted) rows sorted)
              (sorted ++ rows)
  /\ Sorted (ascending column)
            (fold_left (fun sorted r => place_ascending column r sorted) rows sorted).
Proof.
  revert sorted. induction rows as [|r rows IH]; intros sorted Hs; simpl.
  - rewrite app_nil_r. split; [reflexivity | exact Hs].
  - destruct (IH _ (place_ascending_sorted r Hs)) as [Hp Hs']. split; [|exact Hs'].
    rewrite Hp, place_ascending_permutation. simpl. apply Permutation_middle.
Qed.


Lemma ascending_transitive (a b c : Row) :
  ascending column a b -> ascending column b c -> ascending column a c.
Proof. unfold ascending. lia. Qed.


Lemma order_by_sorts (rows : list Row) :
  Permutation (order_by column rows) rows
  /\ StronglySorted (ascending column) (order_by column rows).
Proof.
  destruct (@order_by_from rows [] (Sorted_nil _)) as [Hp Hs]. split; [exact Hp|].
  apply Sorted_StronglySorted; [exact ascending_transitive | exact Hs].
Qed.



End OrderFacts.

Section Listings.
Context {M : Type}.

Lemma in_pending_states_is_unfinished (t : Transaction.t M) :
  TransactionRepository.in_pending_states t = is_unfinished t.
Proof.
  unfold TransactionRepository.in_pending_states, is_unfinished.
  destruct (Transaction.state t); reflexivity.
Qed.

(** X7: [get_pending_transactions] lists exactly the transactions whose
    state is PENDING or PROCESSING, each as often as the table holds it, the
    oldest first (no row comes before one created earlier), and changes
    nothing. *)
Theorem get_pending_transactions_lists_unfinished (w : World M) :
  exists listed,
    TransactionRepository.get_pending_transactions w = (Ret listed, w)
    /\ Permutation listed (filter is_unfinished (transactions w))
    /\ StronglySorted (ascending (@Transaction.created_at M)) listed
    /\ forall t, In t listed <->
                 In t (transactions w)
                 /\ (Transaction.state t = PENDING \/ Transaction.state t = PROCESSING).
Proof.
  eexists. split; [reflexivity|].
  destruct (order_by_sorts (@Transaction.created_at M)
              (filter TransactionRepository.in_pending_states (transactions w)))
    as [Hp Hs].
  assert (Hfilter : filter TransactionRepository.in_pending_states (transactions w)
                    = filter is_unfinished (transactions w))
    by (apply filter_ext; exact in_pending_states_is_unfinished).
  split; [rewrite <- Hfilter; exact Hp|]. split; [exact Hs|].
  intros t. split.
  - intros Hin. apply (Permutation_in _ Hp) in Hin. rewrite Hfilter in Hin.
    apply filter_In in Hin. destruct Hin as [Hin Hu]. split; [exact Hin|].
    unfold is_unfinished in Hu. destruct (Transaction.state t); auto; discriminate.
  - intros [Hin Hstate]. apply (Permutation_in _ (Permutation_sym Hp)).
    rewrite Hfilter. apply filter_In. split; [exact Hin|].
    unfold is_unfinished. destruct Hstate as [-> | ->]; reflexivity.
Qed.


End Listings.


(* ================================================================== *)
(** * Further properties: the users table *)

Section UserTable.
Context {M : Type} `{Money M}.





End UserTable.


(* ================================================================== *)
(** * Further properties: payments *)

Section PaymentFacts.
Context {M : Type} `{Money M} `{PyStr M}.

Lemma payment_lookup_after_update (pid : string) (set : Payment.t M -> Payment.t M)
    (rows : list (Payment.t M)) :
  (forall p, Payment.id (set p) = Payment.id p) ->
  find (PaymentRepository.has_id pid) (update_where (PaymentRepository.has_id pid) set rows)
  = option_map set (find (PaymentRepository.has_id pid) rows).
Proof.
  intros Hid. apply find_update_where. intros p.
  unfold PaymentRepository.has_id. rewrite Hid. reflexivity.
Qed.

(** [increment_verification_attempts] on a stored payment. *)
Lemma increment_verification_attempts_stored (w : World M) (pid : string) (p : Payment.t M) :
  find (PaymentRepository.has_id pid) (payments w) = Some p ->
  PaymentRepository.increment_verification_attempts pid w
  = (Ret (Payment.verification_attempts p + 1),
     set_payments (update_where (PaymentRepository.has_id pid) PaymentRepository.attempt_row
                                (payments w)) w).
Proof.
  intros Hf. unfold PaymentRepository.increment_verification_attempts, bind, modify, gets, ret.
  cbn [payments set_payments].
  rewrite payment_lookup_after_update by reflexivity. rewrite Hf. reflexivity.
Qed.

(** [verify_payment] past its two checks: the payment is marked verified. *)
Lemma verify_payment_marks_verified (test_mode : bool) (clk : nat -> Z) (w : World M)
    (pid reference : string) (phone_number : option string) (p : Payment.t M) :
  find (PaymentRepository.has_id pid) (payments w) = Some p ->
  match Payment.expires_at p with
  | Some expires_at => clk 0%nat <= expires_at
  | None => True
  end ->
  Payment.verification_attempts p + 1 <= 5 ->
  exists now,
    WalletService.verify_payment test_mode clk pid reference phone_number w
    = (Ret VERIFICATION_SUCCESS,
       mkWorld (users w) (transactions w)
               (update_where (PaymentRepository.has_id (Payment.id p))
                  (WalletService.verified_row now reference phone_number)
                  (update_where (PaymentRepository.has_id pid) PaymentRepository.attempt_row
                                (payments w)))
               (ichancy_calls w)
               (audit_log w ++ [PAYMENT_RECEIVED (Payment.user_id p)
                                  (PaymentProvider_value (Payment.provider p))
                                  (Payment.amount p) reference])).
Proof.
  intros Hf Hexp Hatt.
  unfold WalletService.verify_payment, PaymentRepository.get_by_id.
  unfold bind at 1. unfold gets at 1. rewrite Hf.
  assert (Hnot : match Payment.expires_at p with
                 | Some expires_at => clk 0%nat >? expires_at
                 | None => false
                 end = false).
  { destruct (Payment.expires_at p); [|reflexivity]. rewrite Z.gtb_ltb. apply Z.ltb_ge. exact Hexp. }
  rewrite Hnot. unfold bind at 1.
  rewrite (increment_verification_attempts_stored _ _ Hf).
  assert (Hfew : (Payment.verification_attempts p + 1 >? 5) = false)
    by (rewrite Z.gtb_ltb; apply Z.ltb_ge; exact Hatt).
  rewrite Hfew.
  destruct (test_mode && (reference =? "0x01")%string);
    [exists (clk 3%nat) | exists (clk 4%nat)]; reflexivity.
Qed.

(** X11: [verify_payment] accepts any reference.  For a stored payment
    that has not expired and has been tried fewer than five times, the call
    returns SUCCESS whatever the reference given and whether or not test mode
    is on; the payment is then stored as VERIFIED with that reference and
    that phone number, one more attempt is counted, and its amount, user and
    transaction are as before.  No user and no transaction is touched. *)
Theorem verify_payment_accepts_any_reference (test_mode : bool) (clk : nat -> Z)
    (w : World M) (payment_id provider_reference : string) (phone_number : option string)
    (payment : Payment.t M) :
  find (PaymentRepository.has_id payment_id) (payments w) = Some payment ->
  match Payment.expires_at payment with
  | Some expires_at => clk 0%nat <= expires_at
  | None => True
  end ->
  Payment.verification_attempts payment + 1 <= 5 ->
  exists (w' : World M) (stored : Payment.t M),
    WalletService.verify_payment test_mode clk payment_id provider_reference phone_number w
    = (Ret VERIFICATION_SUCCESS, w')
    /\ find (PaymentRepository.has_id payment_id) (payments w') = Some stored
    /\ Payment.state stored = PAY_VERIFIED
    /\ Payment.provider_reference stored = Some provider_reference
    /\ Payment.phone_number stored = phone_number
    /\ Payment.verification_attempts stored = Payment.verification_attempts payment + 1
    /\ Payment.amount stored = Payment.amount payment
    /\ Payment.user_id stored = Payment.user_id payment
    /\ Payment.transaction_id stored = Payment.transaction_id payment
    /\ users w' = users w
    /\ transactions w' = transactions w
    /\ ichancy_calls w' = ichancy_calls w.
Proof.
  intros Hf Hexp Hatt.
  destruct (@verify_payment_marks_verified test_mode clk w payment_id provider_reference
              phone_number payment Hf Hexp Hatt) as (now & Hrun).
  assert (Hid : Payment.id payment = payment_id).
  { apply find_holds in Hf. apply String.eqb_eq in Hf. exact Hf. }
  eexists. eexists. split; [exact Hrun|].
  cbn [payments users transactions ichancy_calls]. rewrite Hid.
  rewrite !payment_lookup_after_update by reflexivity. rewrite Hf.
  repeat split; reflexivity.
Qed.

(** X12: what [verify_payment] refuses, and in what order.  An unknown
    payment gives FAILED and changes nothing.  A payment past its expiry
    gives EXPIRED: it is stored as EXPIRED whatever its state was (VERIFIED
    included), and the attempt is not counted.  A payment not past its expiry
    with five attempts or more gives FAILED: it is stored as FAILED whatever
    its state was, with the attempt counted.  In each case the reference is
    not looked at, and no audit entry is written. *)
Theorem verify_payment_refusals (test_mode : bool) (clk : nat -> Z) (w : World M)
    (payment_id provider_reference : string) (phone_number : option string) :
  (find (PaymentRepository.has_id payment_id) (payments w) = None ->
   WalletService.verify_payment test_mode clk payment_id provider_reference phone_number w
   = (Ret VERIFICATION_FAILED, w))
  /\ (forall payment expires_at,
        find (PaymentRepository.has_id payment_id) (payments w) = Some payment ->
        Payment.expires_at payment = Some expires_at ->
        expires_at < clk 0%nat ->
        WalletService.verify_payment test_mode clk payment_id provider_reference
                                     phone_number w
        = (Ret VERIFICATION_EXPIRED,
           set_payments (update_where (PaymentRepository.has_id payment_id)
                           (PaymentRepository.state_row (clk 1%nat) PAY_EXPIRED)
                           (payments w)) w)
        /\ find (PaymentRepository.has_id payment_id)
                (payments (after (WalletService.verify_payment test_mode clk payment_id
                                    provider_reference phone_number) w))
           = Some (PaymentRepository.state_row (clk 1%nat) PAY_EXPIRED payment))
  /\ (forall payment,
        find (PaymentRepository.has_id payment_id) (payments w) = Some payment ->
        match Payment.expires_at payment with
        | Some expires_at => clk 0%nat <= expires_at
        | None => True
        end ->
        5 <= Payment.verification_attempts payment ->
        WalletService.verify_payment test_mode clk payment_id provider_reference
                                     phone_number w
        = (Ret VERIFICATION_FAILED,
           set_payments (update_where (PaymentRepository.has_id payment_id)
                           (PaymentRepository.state_row (clk 2%nat) PAY_FAILED)
                           (update_where (PaymentRepository.has_id payment_id)
                              PaymentRepository.attempt_row (payments w))) w)
        /\ find (PaymentRepository.has_id payment_id)
                (payments (after (WalletService.verify_payment test_mode clk payment_id
                                    provider_reference phone_number) w))
           = Some (PaymentRepository.state_row (clk 2%nat) PAY_FAILED
                     (PaymentRepository.attempt_row payment))).
Proof.
  split; [|split].
  - intros Hf. unfold WalletService.verify_payment, PaymentRepository.get_by_id, bind, gets.
    rewrite Hf. reflexivity.
  - intros payment expires_at Hf He Hlate.
    assert (Hrun : WalletService.verify_payment test_mode clk payment_id provider_reference
                     phone_number w
                   = (Ret VERIFICATION_EXPIRED,
                      set_payments (update_where (PaymentRepository.has_id payment_id)
                                      (PaymentRepository.state_row (clk 1%nat) PAY_EXPIRED)
                                      (payments w)) w)).
    { unfold WalletService.verify_payment, PaymentRepository.get_by_id.
      unfold bind at 1. unfold gets at 1. rewrite Hf, He.
      assert (Hgt : (clk 0%nat >? expires_at) = true)
        by (rewrite Z.gtb_ltb; apply Z.ltb_lt; exact Hlate).
      rewrite Hgt. reflexivity. }
    split; [exact Hrun|]. unfold after. rewrite Hrun. cbn [snd payments set_payments].
    rewrite payment_lookup_after_update by reflexivity. rewrite Hf. reflexivity.
  - intros payment Hf Hexp Hmany.
    assert (Hrun : WalletService.verify_payment test_mode clk payment_id provider_reference
                     phone_number w
                   = (Ret VERIFICATION_FAILED,
                      set_payments
                        (update_where (PaymentRepository.has_id payment_id)
                           (PaymentRepository.state_row (clk 2%nat) PAY_FAILED)
                           (update_where (PaymentRepository.has_id payment_id)
                              PaymentRepository.attempt_row (payments w))) w)).
    { unfold WalletService.verify_payment, PaymentRepository.get_by_id.
      unfold bind at 1. unfold gets at 1. rewrite Hf.
      assert (Hnot : match Payment.expires_at payment with
                     | Some expires_at => clk 0%nat >? expires_at
                     | None => false
                     end = false).
      { destruct (Payment.expires_at payment); [|reflexivity].
        rewrite Z.gtb_ltb. apply Z.ltb_ge. exact Hexp. }
      rewrite Hnot. unfold bind at 1.
      rewrite (increment_verification_attempts_stored _ _ Hf).
      assert (Hgt : (Payment.verification_attempts payment + 1 >? 5) = true)
        by (rewrite Z.gtb_ltb; apply Z.ltb_lt; lia).
      rewrite Hgt. reflexivity. }
    split; [exact Hrun|]. unfold after. rewrite Hrun. cbn [snd payments set_payments].
    rewrite !payment_lookup_after_update by reflexivity. rewrite Hf. reflexivity.
Qed.

(** X13: [process_payout] marks a payout once.  On a PENDING payment it
    stores VERIFIED with the time of the call and reports success, and it
    touches neither the users nor the transactions; the same call made again,
    at any time, reports that the payment was already processed and changes
    nothing.  On an unknown payment it reports that and changes nothing. *)
Theorem process_payout_once (w : World M) (now later : Z) (payment_id : string) :
  (find (PaymentRepository.has_id payment_id) (payments w) = None ->
   process_payout now payment_id w = (Ret (false, "Payment not found"), w))
  /\ (forall payment,
        find (PaymentRepository.has_id payment_id) (payments w) = Some payment ->
        Payment.state payment <> PAY_PENDING ->
        process_payout now payment_id w = (Ret (false, "Payment already processed"), w))
  /\ (forall payment,
        find (PaymentRepository.has_id payment_id) (payments w) = Some payment ->
        Payment.state payment = PAY_PENDING ->
        exists w',
          process_payout now payment_id w = (Ret (true, "Payment marked as completed"), w')
          /\ find (PaymentRepository.has_id payment_id) (payments w')
             = Some (PaymentRepository.state_row now PAY_VERIFIED payment)
          /\ users w' = users w
          /\ transactions w' = transactions w
          /\ ichancy_calls w' = ichancy_calls w
          /\ audit_log w' = audit_log w
          /\ process_payout later payment_id w'
             = (Ret (false, "Payment already processed"), w')).
Proof.
  split; [|split].
  - intros Hf. unfold process_payout, PaymentRepository.get_by_id, bind, gets.
    rewrite Hf. reflexivity.
  - intros payment Hf Hs. unfold process_payout, PaymentRepository.get_by_id, bind, gets.
    rewrite Hf. destruct (Payment.state payment); try reflexivity. contradiction.
  - intros payment Hf Hs.
    exists (set_payments (update_where (PaymentRepository.has_id payment_id)
                            (PaymentRepository.state_row now PAY_VERIFIED) (payments w)) w).
    split.
    + unfold process_payout, PaymentRepository.get_by_id.
      unfold bind at 1. unfold gets at 1. rewrite Hf, Hs. reflexivity.
    + cbn [payments users transactions ichancy_calls audit_log set_payments].
      assert (Hstored : find (PaymentRepository.has_id payment_id)
                             (update_where (PaymentRepository.has_id payment_id)
                                (PaymentRepository.state_row now PAY_VERIFIED) (payments w))
                        = Some (PaymentRepository.state_row now PAY_VERIFIED payment))
        by (rewrite payment_lookup_after_update by reflexivity; rewrite Hf; reflexivity).
      split; [exact Hstored|]. repeat split.
      unfold process_payout, PaymentRepository.get_by_id, bind, gets.
      cbn [payments set_payments]. rewrite Hstored. reflexivity.
Qed.

End PaymentFacts.

Lemma verify_payment_accepts_any_reference_witness :
  find (PaymentRepository.has_id "p1") (payments ex_world_duplicate)
  = Some (ex_payment "p1" "t1" PAY_PENDING 5000)
  /\ exists (w' : World Z) (stored : Payment.t Z),
       WalletService.verify_payment false ex_clock "p1" "no such transfer" None
                                    ex_world_duplicate
       = (Ret VERIFICATION_SUCCESS, w')
       /\ find (PaymentRepository.has_id "p1") (payments w') = Some stored
       /\ Payment.state stored = PAY_VERIFIED.
Proof.
  split; [reflexivity|].
  destruct (@verify_payment_accepts_any_reference Z false ex_clock ex_world_duplicate
              "p1" "no such transfer" None (ex_payment "p1" "t1" PAY_PENDING 5000)
              eq_refl I ltac:(cbn; lia))
    as (w' & stored & Hrun & Hstored & Hstate & _).
  exists w', stored. repeat split; assumption.
Defined.


(* ================================================================== *)
(** * Further properties: the wallet workflows *)

Section WalletFacts.
Context {M : Type} `{Money M} `{PyStr M}.

Lemma not_blocked (user : User.t M) :
  User.state user <> BLOCKED -> UserState_eqb (User.state user) BLOCKED = false.
Proof. intros Hb. destruct (User.state user); try reflexivity. contradiction. Qed.

(** [initiate_deposit] for an account that may deposit, with ids and key
    that are new. *)
Lemma initiate_deposit_run (clk : nat -> Z) (draws : Draws) (w : World M) (user_id : Z)
    (amount : M) (provider : PaymentProvider) (idempotency_key : option string)
    (user : User.t M) :
  find (UserRepository.has_id user_id) (users w) = Some user ->
  User.state user <> BLOCKED ->
  find (TransactionRepository.has_key
          (WalletService.effective_key "dep_" draws idempotency_key)) (transactions w) = None ->
  find (TransactionRepository.has_id (transaction_uuid draws)) (transactions w) = None ->
  find (PaymentRepository.has_id (payment_uuid draws)) (payments w) = None ->
  exists (txn : Transaction.t M) (payment : Payment.t M),
    txn = Transaction.mk (transaction_uuid draws) user_id DEPOSIT PENDING amount "SYP"
            (Some (WalletService.effective_key "dep_" draws idempotency_key))
            None None None None None 0 (clk 0%nat) (clk 1%nat)
            (Some (User.local_balance user)) None
    /\ payment = Payment.mk (payment_uuid draws) user_id (Some (transaction_uuid draws))
                   provider PAY_PENDING amount None None None 0 (clk 3%nat)
                   (Some (clk 2%nat
                          + timedelta_minutes WalletService.payment_expiry_minutes))
    /\ WalletService.initiate_deposit clk draws user_id amount provider idempotency_key w
       = (Ret (txn, payment),
          mkWorld (users w) (transactions w ++ [txn]) (payments w ++ [payment])
                  (ichancy_calls w)
                  (audit_log w ++ [TRANSACTION_START (transaction_uuid draws) "deposit"
                                     user_id amount (PaymentProvider_value provider)])).
Proof.
  intros Hu Hb Hkey Hid Hpid.
  eexists. eexists. split; [reflexivity|]. split; [reflexivity|].
  unfold WalletService.initiate_deposit, UserRepository.get_by_id.
  unfold bind at 1. unfold gets at 1. rewrite Hu, (not_blocked _ Hb).
  erewrite bind_returns.
  2:{ eapply create_fresh; [reflexivity | | exact Hkey | exact Hid].
      apply effective_key_nonempty. discriminate. }
  unfold bind at 1. unfold audit at 1. unfold modify at 1. cbv beta iota.
  unfold bind, PaymentRepository.create, ret.
  cbn [payments set_transactions users transactions ichancy_calls audit_log Transaction.id
       Payment.id].
  apply existsb_find_none in Hpid. rewrite Hpid. reflexivity.
Qed.

(** X14: [initiate_deposit] only records an intention.  For an amount
    that is a number, an account that exists and is not blocked, and a
    transaction id, payment id and idempotency key that are new, it stores one PENDING deposit that carries
    the balance read as [balance_before] and no [balance_after], and one
    PENDING payment for it that expires thirty minutes after the clock was
    read; both can be read back by id.  No balance is changed and no remote
    call is made. *)
Theorem initiate_deposit_records_intention (clk : nat -> Z) (draws : Draws) (w : World M)
    (user_id : Z) (amount : M) (provider : PaymentProvider)
    (idempotency_key : option string) (user : User.t M) :
  is_nan amount = false ->
  find (UserRepository.has_id user_id) (users w) = Some user ->
  User.state user <> BLOCKED ->
  find (TransactionRepository.has_key
          (WalletService.effective_key "dep_" draws idempotency_key)) (transactions w) = None ->
  find (TransactionRepository.has_id (transaction_uuid draws)) (transactions w) = None ->
  find (PaymentRepository.has_id (payment_uuid draws)) (payments w) = None ->
  exists (txn : Transaction.t M) (payment : Payment.t M) (w' : World M),
    WalletService.initiate_deposit clk draws user_id amount provider idempotency_key w
    = (Ret (txn, payment), w')
    /\ find (TransactionRepository.has_id (transaction_uuid draws)) (transactions w')
       = Some txn
    /\ find (PaymentRepository.has_id (payment_uuid draws)) (payments w') = Some payment
    /\ Transaction.state txn = PENDING
    /\ Transaction.type txn = DEPOSIT
    /\ Transaction.user_id txn = user_id
    /\ Transaction.amount txn = amount
    /\ Transaction.balance_before txn = Some (User.local_balance user)
    /\ Transaction.balance_after txn = None
    /\ Payment.state payment = PAY_PENDING
    /\ Payment.transaction_id payment = Some (transaction_uuid draws)
    /\ Payment.amount payment = amount
    /\ Payment.expires_at payment = Some (clk 2%nat + timedelta_minutes 30)
    /\ transactions w' = transactions w ++ [txn]
    /\ payments w' = payments w ++ [payment]
    /\ users w' = users w
    /\ ichancy_calls w' = ichancy_calls w.
Proof.
  intros _ Hu Hb Hkey Hid Hpid.
  destruct (@initiate_deposit_run clk draws w user_id amount provider idempotency_key user
              Hu Hb Hkey Hid Hpid) as (txn & payment & Ht & Hp & Hrun).
  exists txn, payment. eexists. split; [exact Hrun|].
  cbn [transactions payments users ichancy_calls].
  split; [rewrite (find_app_new _ _ _ Hid);
          [reflexivity | rewrite Ht; apply String.eqb_refl]|].
  split; [rewrite (find_app_new _ _ _ Hpid);
          [reflexivity | rewrite Hp; apply String.eqb_refl]|].
  rewrite Ht, Hp. repeat split; reflexivity.
Qed.

(** X15: both workflows refuse an unknown account and a blocked
    account before anything else.  For a user id that is a 64-bit integer,
    [initiate_deposit] and [initiate_withdrawal] raise UserNotFoundException
    when no user has the id, and UserBlockedException carrying the stored
    reason when the user is BLOCKED, whatever the amount, the balance and the
    key; the world is left as it was: nothing is stored and no remote call is
    made. *)
Theorem workflows_refuse_unknown_and_blocked (ichancy_service : IchancyService.t M)
    (clk : nat -> Z) (draws : Draws) (w : World M) (user_id : Z) (amount : M)
    (provider : PaymentProvider) (phone_number : string) (withdraw_from_ichancy : bool)
    (idempotency_key : option string) :
  sqlite_integer user_id ->
  (find (UserRepository.has_id user_id) (users w) = None ->
   WalletService.initiate_deposit clk draws user_id amount provider idempotency_key w
   = (Raise (UserNotFoundException user_id), w)
   /\ WalletService.initiate_withdrawal ichancy_service clk draws user_id amount provider
        phone_number withdraw_from_ichancy idempotency_key w
      = (Raise (UserNotFoundException user_id), w))
  /\ (forall user,
        find (UserRepository.has_id user_id) (users w) = Some user ->
        User.state user = BLOCKED ->
        WalletService.initiate_deposit clk draws user_id amount provider idempotency_key w
        = (Raise (UserBlockedException user_id (User.blocked_reason user)), w)
        /\ WalletService.initiate_withdrawal ichancy_service clk draws user_id amount provider
             phone_number withdraw_from_ichancy idempotency_key w
           = (Raise (UserBlockedException user_id (User.blocked_reason user)), w)).
Proof.
  intros _. split.
  - intros Hu.
    unfold WalletService.initiate_deposit, WalletService.initiate_withdrawal,
      UserRepository.get_by_id, bind, gets.
    rewrite Hu. split; reflexivity.
  - intros user Hu Hb.
    unfold WalletService.initiate_deposit, WalletService.initiate_withdrawal,
      UserRepository.get_by_id, bind, gets.
    rewrite Hu, Hb. split; reflexivity.
Qed.

(** X16: what [complete_deposit] refuses.  It returns a failure and
    leaves the world as it was (no state change, no credit, no remote call)
    when the transaction is unknown; when its state is not PENDING (so a
    deposit that is PROCESSING, COMPLETED or FAILED is not completed again);
    when no payment is stored for it or the first payment stored for it is
    not VERIFIED; and when its user is unknown. *)
Theorem complete_deposit_refusals (ichancy_service : IchancyService.t M) (clk : nat -> Z)
    (transaction_id : string) (deposit_to_ichancy : bool) (w : World M) :
  (find (TransactionRepository.has_id transaction_id) (transactions w) = None ->
   WalletService.complete_deposit ichancy_service clk transaction_id deposit_to_ichancy w
   = (Ret (DepositResult.mk false None "" None JNull (Some "Transaction not found")), w))
  /\ (forall txn,
        find (TransactionRepository.has_id transaction_id) (transactions w) = Some txn ->
        Transaction.state txn <> PENDING ->
        WalletService.complete_deposit ichancy_service clk transaction_id deposit_to_ichancy w
        = (Ret (DepositResult.mk false (Some transaction_id) "" None JNull
                  (Some ("Transaction in invalid state: "
                           ++ TransactionState_value (Transaction.state txn))%string)), w))
  /\ (forall txn,
        find (TransactionRepository.has_id transaction_id) (transactions w) = Some txn ->
        Transaction.state txn = PENDING ->
        (find (WalletService.pays_for transaction_id) (payments w) = None
         \/ exists payment,
              find (WalletService.pays_for transaction_id) (payments w) = Some payment
              /\ Payment.state payment <> PAY_VERIFIED) ->
        WalletService.complete_deposit ichancy_service clk transaction_id deposit_to_ichancy w
        = (Ret (DepositResult.mk false (Some transaction_id) "" None JNull
                  (Some "Payment not verified")), w))
  /\ (forall txn payment,
        find (TransactionRepository.has_id transaction_id) (transactions w) = Some txn ->
        Transaction.state txn = PENDING ->
        find (WalletService.pays_for transaction_id) (payments w) = Some payment ->
        Payment.state payment = PAY_VERIFIED ->
        find (UserRepository.has_id (Transaction.user_id txn)) (users w) = None ->
        WalletService.complete_deposit ichancy_service clk transaction_id deposit_to_ichancy w
        = (Ret (DepositResult.mk false None "" None JNull (Some "User not found")), w)).
Proof.
  unfold WalletService.complete_deposit, TransactionRepository.get_by_id,
    WalletService._get_transaction_payment, UserRepository.get_by_id.
  split; [|split; [|split]].
  - intros Ht. unfold bind, gets. rewrite Ht. reflexivity.
  - intros txn Ht Hs. unfold bind at 1. unfold gets at 1. rewrite Ht.
    destruct (Transaction.state txn); try reflexivity. contradiction.
  - intros txn Ht Hs Hp. unfold bind at 1. unfold gets at 1. rewrite Ht, Hs.
    cbn [TransactionState_eqb negb]. unfold bind at 1. unfold gets at 1.
    destruct Hp as [Hp | (payment & Hp & Hv)]; rewrite Hp; [reflexivity|].
    destruct (Payment.state payment); try reflexivity. contradiction.
  - intros txn payment Ht Hs Hp Hv Hu. unfold bind at 1. unfold gets at 1. rewrite Ht, Hs.
    cbn [TransactionState_eqb negb]. unfold bind at 1. unfold gets at 1. rewrite Hp, Hv.
    cbn [PaymentState_eqb negb]. unfold bind at 1. unfold gets at 1. rewrite Hu.
    reflexivity.
Qed.

(** Steps 2 and 3 of [complete_deposit], in any world. *)
Lemma credit_and_complete_run (clk : nat -> Z) (tid : string) (txn : Transaction.t M)
    (user : User.t M) (ichancy_balance : json) (w : World M) :
  exists w',
    WalletService.credit_and_complete clk tid txn user ichancy_balance w
    = (Ret (DepositResult.mk true (Some tid) "Deposit completed successfully"
              (Some (madd (User.local_balance user) (Transaction.amount txn)))
              ichancy_balance None), w')
    /\ users w'
       = update_where (UserRepository.has_id (User.id user))
           (UserRepository.balance_row (clk 2%nat)
              (madd (User.local_balance user) (Transaction.amount txn))
              (Transaction.amount txn) mzero)
           (users w)
    /\ payments w' = payments w
    /\ ichancy_calls w' = ichancy_calls w
    /\ (forall row,
          find (TransactionRepository.has_id (Transaction.id txn)) (transactions w) = Some row ->
          exists row',
            find (TransactionRepository.has_id (Transaction.id txn)) (transactions w')
            = Some row'
            /\ Transaction.state row' = COMPLETED
            /\ Transaction.amount row' = Transaction.amount txn
            /\ Transaction.balance_before row' = Transaction.balance_before txn
            /\ Transaction.balance_after row'
               = Some (madd (User.local_balance user) (Transaction.amount txn))
            /\ Transaction.processing_started_at row' = Transaction.processing_started_at txn
            /\ Transaction.completed_at row' = Some (clk 3%nat)
            /\ Transaction.error_message row' = Transaction.error_message txn).
Proof.
  eexists. split.
  - unfold WalletService.credit_and_complete, UserRepository.update_balance,
      TransactionRepository.update, bind, modify, audit, ret.
    cbv beta iota zeta. reflexivity.
  - cbn [users payments ichancy_calls transactions set_users set_transactions
         TransactionRepository.touch Transaction.id].
    repeat split.
    intros row Hrow. rewrite transaction_lookup_after_update, Hrow.
    eexists. split; [reflexivity|]. repeat split.
Qed.

(** X17: a deposit on a linked account whose remote credit succeeds.
    When the payment is verified, the remote deposit returns a success and
    the balance query that follows returns a response whose data is a
    dictionary, [complete_deposit] reports success with the local balance
    plus the amount and with the remote balance read from the key "balance"
    (nothing, when the query reported a failure or the dictionary is empty);
    the local balance is credited and [total_deposited] grows by the amount,
    the transaction is COMPLETED with that balance as [balance_after], and
    the remote wallet was called twice: the deposit, then the balance
    query. *)
Theorem complete_deposit_linked_success
    (ichancy_service : IchancyService.t M) (clk : nat -> Z) (tid : string) (w : World M)
    (txn : Transaction.t M) (payment : Payment.t M) (user : User.t M)
    (ichancy_username : string) (response balance_response : IchancyResponse.t)
    (fields : list (string * json)) :
  find (TransactionRepository.has_id tid) (transactions w) = Some txn ->
  Transaction.state txn = PENDING ->
  find (WalletService.pays_for tid) (payments w) = Some payment ->
  Payment.state payment = PAY_VERIFIED ->
  find (UserRepository.has_id (Transaction.user_id txn)) (users w) = Some user ->
  WalletService.nonempty (User.ichancy_username user) = Some ichancy_username ->
  IchancyService.deposit ichancy_service ichancy_username (Transaction.amount txn)
  = Ret response ->
  IchancyResponse.success response = true ->
  IchancyService.get_player_balance ichancy_service ichancy_username = Ret balance_response ->
  IchancyResponse.data balance_response = JObj fields ->
  exists (w' : World M) (txn' : Transaction.t M) (user' : User.t M),
    WalletService.complete_deposit ichancy_service clk tid true w
    = (Ret (DepositResult.mk true (Some tid) "Deposit completed successfully"
              (Some (madd (User.local_balance user) (Transaction.amount txn)))
              (if IchancyResponse.success balance_response && truthy (JObj fields)
               then dict_get fields "balance" else JNull)
              None), w')
    /\ find (TransactionRepository.has_id tid) (transactions w') = Some txn'
    /\ Transaction.state txn' = COMPLETED
    /\ Transaction.balance_after txn'
       = Some (madd (User.local_balance user) (Transaction.amount txn))
    /\ find (UserRepository.has_id (Transaction.user_id txn)) (users w') = Some user'
    /\ User.local_balance user' = madd (User.local_balance user) (Transaction.amount txn)
    /\ User.total_deposited user' = madd (User.total_deposited user) (Transaction.amount txn)
    /\ payments w' = payments w
    /\ ichancy_calls w'
       = ichancy_calls w ++ [CALL_DEPOSIT ichancy_username (Transaction.amount txn);
                             CALL_GET_PLAYER_BALANCE ichancy_username].
Proof.
  intros Ht Hs Hp Hv Hu Hn Hd Hok Hb Hdata.
  erewrite complete_deposit_enters_processing by eassumption.
  pose proof (transaction_found_id _ _ Ht) as Hid.
  pose proof (user_found_id _ _ Hu) as Huid.
  match goal with
  | |- context [try_except _ _ ?w1] => set (w1' := w1)
  end.
  set (w2 := mkWorld (users w1') (transactions w1') (payments w1')
                     (ichancy_calls w1' ++ [CALL_DEPOSIT ichancy_username (Transaction.amount txn);
                                            CALL_GET_PLAYER_BALANCE ichancy_username])
                     (audit_log w1')).
  destruct (credit_and_complete_run clk tid txn user
              (if IchancyResponse.success balance_response && truthy (JObj fields)
               then dict_get fields "balance" else JNull) w2)
    as (w' & Hrun & Husers & Hpays & Hcalls & Hrow).
  assert (Hsteps :
            WalletService.complete_deposit_steps ichancy_service clk tid true txn user w1'
            = WalletService.credit_and_complete clk tid txn user
                (if IchancyResponse.success balance_response && truthy (JObj fields)
                 then dict_get fields "balance" else JNull) w2).
  { unfold WalletService.complete_deposit_steps. rewrite Hn.
    unfold bind at 1. unfold await_ichancy at 1. rewrite Hd, Hok. cbn [negb].
    unfold bind at 1. unfold await_ichancy at 1. rewrite Hb, Hdata.
    cbn [users transactions payments ichancy_calls audit_log].
    rewrite <- app_assoc. cbn [app]. fold w2.
    destruct (IchancyResponse.success balance_response && truthy (JObj fields)); reflexivity. }
  destruct (Hrow (TransactionRepository.state_row (clk 0%nat) PROCESSING None txn))
    as (txn' & Hfound & Hstate & _ & _ & Hafter & _).
  { subst w2 w1'. cbn [transactions]. rewrite Hid.
    rewrite transaction_lookup_after_update_state, Ht. reflexivity. }
  exists w', txn'. eexists. split; [apply try_returns; rewrite Hsteps; exact Hrun|].
  rewrite <- Hid at 1. split; [exact Hfound|]. split; [exact Hstate|]. split; [exact Hafter|].
  rewrite Husers, Hpays, Hcalls. subst w2 w1'.
  cbn [users payments ichancy_calls]. rewrite Huid.
  rewrite find_update_where by reflexivity. rewrite Hu.
  split; [reflexivity|]. repeat split.
Qed.

(** X18: the remote wallet is credited, then the balance query raises.
    On a linked account, when the remote deposit returned a success and
    [get_player_balance] then raises (its retries used up, or the breaker
    open), [complete_deposit] reports a failure with the text of the
    exception and the transaction ends in FAILED with that text; the local
    balance is not credited (the users table is as it was), although the
    remote deposit was made. *)
Theorem complete_deposit_balance_query_raises
    (ichancy_service : IchancyService.t M) (clk : nat -> Z) (tid : string) (w : World M)
    (txn : Transaction.t M) (payment : Payment.t M) (user : User.t M)
    (ichancy_username : string) (response : IchancyResponse.t) (e : exn M) :
  find (TransactionRepository.has_id tid) (transactions w) = Some txn ->
  Transaction.state txn = PENDING ->
  find (WalletService.pays_for tid) (payments w) = Some payment ->
  Payment.state payment = PAY_VERIFIED ->
  find (UserRepository.has_id (Transaction.user_id txn)) (users w) = Some user ->
  WalletService.nonempty (User.ichancy_username user) = Some ichancy_username ->
  IchancyService.deposit ichancy_service ichancy_username (Transaction.amount txn)
  = Ret response ->
  IchancyResponse.success response = true ->
  IchancyService.get_player_balance ichancy_service ichancy_username = Raise e ->
  exists (w' : World M) (txn' : Transaction.t M),
    WalletService.complete_deposit ichancy_service clk tid true w
    = (Ret (DepositResult.mk false (Some tid) "" None JNull (Some (exn_str e))), w')
    /\ find (TransactionRepository.has_id tid) (transactions w') = Some txn'
    /\ Transaction.state txn' = FAILED
    /\ Transaction.error_message txn' = Some (exn_str e)
    /\ Transaction.balance_after txn' = Transaction.balance_after txn
    /\ users w' = users w
    /\ payments w' = payments w
    /\ ichancy_calls w'
       = ichancy_calls w ++ [CALL_DEPOSIT ichancy_username (Transaction.amount txn);
                             CALL_GET_PLAYER_BALANCE ichancy_username].
Proof.
  intros Ht Hs Hp Hv Hu Hn Hd Hok Hb.
  erewrite complete_deposit_enters_processing by eassumption.
  eexists. eexists. split.
  - erewrite try_raises.
    2:{ unfold WalletService.complete_deposit_steps. rewrite Hn.
        unfold bind at 1. unfold await_ichancy at 1. rewrite Hd, Hok. cbn [negb].
        unfold bind at 1. unfold await_ichancy at 1. rewrite Hb. reflexivity. }
    erewrite bind_returns; [reflexivity|].
    eapply update_state_legal.
    + cbn [transactions]. rewrite transaction_lookup_after_update_state, Ht. reflexivity.
    + reflexivity.
  - cbn [transactions users payments ichancy_calls].
    rewrite !transaction_lookup_after_update_state, Ht. cbn [option_map].
    rewrite <- app_assoc. repeat split; reflexivity.
Qed.

(** X19: a withdrawal that goes through.  For an amount that is a number
    and leaves a balance that is a number, an account that is not
    blocked and holds at least the amount, with ids and key that are new,
    and with the remote debit either not asked for (no link, or
    [withdraw_from_ichancy] off) or answered with a success,
    [initiate_withdrawal] reports success with the balance minus the amount;
    the stored balance is that, [total_withdrawn] grows by the amount; one
    PENDING payout payment with the phone number is stored for the
    transaction; and the transaction is COMPLETED with the old balance as
    [balance_before] and the new one as [balance_after].  Its
    [processing_started_at] is empty again: the final write takes it from the
    object built before the move to PROCESSING. *)
Theorem initiate_withdrawal_success
    (ichancy_service : IchancyService.t M) (clk : nat -> Z) (draws : Draws) (w : World M)
    (user_id : Z) (amount : M) (provider : PaymentProvider) (phone_number : string)
    (withdraw_from_ichancy : bool) (idempotency_key : option string) (user : User.t M) :
  is_nan amount = false ->
  is_nan (msub (User.local_balance user) amount) = false ->
  find (UserRepository.has_id user_id) (users w) = Some user ->
  User.state user <> BLOCKED ->
  mlt (User.local_balance user) amount = false ->
  find (TransactionRepository.has_key
          (WalletService.effective_key "wdr_" draws idempotency_key)) (transactions w) = None ->
  find (TransactionRepository.has_id (transaction_uuid draws)) (transactions w) = None ->
  find (PaymentRepository.has_id (payment_uuid draws)) (payments w) = None ->
  match (if withdraw_from_ichancy then WalletService.nonempty (User.ichancy_username user)
         else None) with
  | Some ichancy_username =>
      exists response,
        IchancyService.withdrawal ichancy_service ichancy_username amount = Ret response
        /\ IchancyResponse.success response = true
  | None => True
  end ->
  exists (w' : World M) (txn' : Transaction.t M) (user' : User.t M) (payment : Payment.t M),
    WalletService.initiate_withdrawal ichancy_service clk draws user_id amount provider
                                      phone_number withdraw_from_ichancy idempotency_key w
    = (Ret (WithdrawalResult.mk true (Some (transaction_uuid draws))
              "Withdrawal queued for processing"
              (Some (msub (User.local_balance user) amount)) None), w')
    /\ find (UserRepository.has_id user_id) (users w') = Some user'
    /\ User.local_balance user' = msub (User.local_balance user) amount
    /\ User.total_withdrawn user' = madd (User.total_withdrawn user) amount
    /\ find (TransactionRepository.has_id (transaction_uuid draws)) (transactions w')
       = Some txn'
    /\ Transaction.state txn' = COMPLETED
    /\ Transaction.type txn' = WITHDRAWAL
    /\ Transaction.amount txn' = amount
    /\ Transaction.balance_before txn' = Some (User.local_balance user)
    /\ Transaction.balance_after txn' = Some (msub (User.local_balance user) amount)
    /\ Transaction.processing_started_at txn' = None
    /\ payments w' = payments w ++ [payment]
    /\ Payment.state payment = PAY_PENDING
    /\ Payment.amount payment = amount
    /\ Payment.phone_number payment = Some phone_number
    /\ Payment.transaction_id payment = Some (transaction_uuid draws)
    /\ ichancy_calls w'
       = ichancy_calls w
         ++ match (if withdraw_from_ichancy
                   then WalletService.nonempty (User.ichancy_username user) else None) with
            | Some ichancy_username => [CALL_WITHDRAWAL ichancy_username amount]
            | None => []
            end.
Proof.
  intros _ _ Hu Hb Hlt Hkey Hid Hpid Hremote.
  pose proof (user_found_id _ _ Hu) as Huid.
  set (key := WalletService.effective_key "wdr_" draws idempotency_key) in *.
  set (txn := Transaction.mk (transaction_uuid draws) user_id WITHDRAWAL PENDING amount "SYP"
                (Some key) None None None None None 0 (clk 0%nat) (clk 1%nat)
                (Some (User.local_balance user)) None).
  assert (Hcreate :
            TransactionRepository.create txn w
            = (Ret txn, set_transactions (transactions w ++ [txn]) w)).
  { apply create_fresh with (key := key); auto.
    apply effective_key_nonempty. discriminate. }
  unfold WalletService.initiate_withdrawal, UserRepository.get_by_id.
  unfold bind at 1. unfold gets at 1. rewrite Hu, (not_blocked _ Hb), Hlt.
  fold key. fold txn.
  erewrite bind_returns by exact Hcreate.
  unfold bind at 1. unfold audit at 1. unfold modify at 1. cbv beta iota.
  unfold WalletService.initiate_withdrawal_steps.
  match goal with
  | |- context [try_except _ _ ?w1] => set (w1' := w1)
  end.
  assert (Hproc :
            TransactionRepository.update_state (clk 2%nat) (Transaction.id txn) PROCESSING None w1'
            = (Ret true,
               mkWorld (users w1')
                 (update_where (TransactionRepository.has_id (Transaction.id txn))
                    (TransactionRepository.state_row (clk 2%nat) PROCESSING None)
                    (transactions w1'))
                 (payments w1') (ichancy_calls w1')
                 (audit_log w1' ++ [TRANSACTION_STATE_CHANGE (Transaction.id txn)
                                      "pending" "processing"]))).
  { apply (update_state_legal w1' (clk 2%nat) (Transaction.id txn) PROCESSING None (txn := txn)).
    - subst w1'. simpl. apply find_app_new; [exact Hid | apply String.eqb_refl].
    - reflexivity. }
  apply existsb_find_none in Hpid.
  assert (Hdebit : forall calls,
            exists w',
              WalletService.debit_and_complete clk draws user_id amount provider phone_number
                txn user
                (mkWorld (users w)
                   (update_where (TransactionRepository.has_id (Transaction.id txn))
                      (TransactionRepository.state_row (clk 2%nat) PROCESSING None)
                      (transactions w ++ [txn]))
                   (payments w) (ichancy_calls w ++ calls)
                   (audit_log w1' ++ [TRANSACTION_STATE_CHANGE (Transaction.id txn)
                                        "pending" "processing"]))
              = (Ret (WithdrawalResult.mk true (Some (transaction_uuid draws))
                        "Withdrawal queued for processing"
                        (Some (msub (User.local_balance user) amount)) None), w')
              /\ users w'
                 = update_where (UserRepository.has_id (User.id user))
                     (UserRepository.balance_row (clk 4%nat)
                        (msub (User.local_balance user) amount) mzero amount) (users w)
              /\ find (TransactionRepository.has_id (transaction_uuid draws)) (transactions w')
                 = Some (TransactionRepository.full_row
                           (TransactionRepository.touch (clk 7%nat)
                              (Transaction.mk (transaction_uuid draws) user_id WITHDRAWAL
                                 COMPLETED amount "SYP" (Some key) None None None
                                 (Some (clk 6%nat)) None 0 (clk 0%nat) (clk 1%nat)
                                 (Some (User.local_balance user))
                                 (Some (msub (User.local_balance user) amount))))
                           (TransactionRepository.state_row (clk 2%nat) PROCESSING None txn))
              /\ payments w'
                 = payments w
                   ++ [Payment.mk (payment_uuid draws) user_id (Some (transaction_uuid draws))
                         provider PAY_PENDING amount None (Some phone_number) None 0
                         (clk 5%nat) None]
              /\ ichancy_calls w' = ichancy_calls w ++ calls).
  { intros calls. eexists. split.
    - unfold WalletService.debit_and_complete, UserRepository.update_balance,
        PaymentRepository.create, TransactionRepository.update, bind, audit, modify, ret.
      cbv beta iota zeta.
      cbn [users transactions payments ichancy_calls audit_log set_users set_payments
           set_transactions Payment.id].
      rewrite Hpid. reflexivity.
    - cbn [users transactions payments ichancy_calls audit_log set_users set_payments
           set_transactions TransactionRepository.touch Transaction.id].
      split; [reflexivity|]. split; [|split; reflexivity].
      rewrite transaction_lookup_after_update.
      rewrite (@created_row_after_one_move M (transactions w) txn (clk 2%nat) PROCESSING None
                 Hid).
      reflexivity. }
  destruct (if withdraw_from_ichancy then WalletService.nonempty (User.ichancy_username user)
            else None) as [ichancy_username|].
  - destruct Hremote as (response & Hcall & Hok).
    destruct (Hdebit [CALL_WITHDRAWAL ichancy_username amount])
      as (w' & Hrun & Husers & Htxn & Hpays & Hcalls).
    exists w'. eexists. eexists. eexists. split.
    + apply try_returns.
      erewrite bind_returns by exact Hproc.
      unfold bind at 1. unfold await_ichancy at 1. rewrite Hcall, Hok.
      cbn [negb]. subst w1'.
      cbn [users transactions payments ichancy_calls audit_log set_transactions].
      exact Hrun.
    + rewrite Husers, Htxn, Hpays, Hcalls, Huid.
      rewrite find_update_where by reflexivity. rewrite Hu.
      cbn [option_map]. repeat split; reflexivity.
  - destruct (Hdebit []) as (w' & Hrun & Husers & Htxn & Hpays & Hcalls).
    rewrite app_nil_r in Hrun, Hcalls.
    exists w'. eexists. eexists. eexists. split.
    + apply try_returns.
      erewrite bind_returns by exact Hproc.
      subst w1'.
      cbn [users transactions payments ichancy_calls audit_log set_transactions].
      exact Hrun.
    + rewrite Husers, Htxn, Hpays, Hcalls, Huid, app_nil_r.
      rewrite find_update_where by reflexivity. rewrite Hu.
      cbn [option_map]. repeat split; reflexivity.
Qed.

(** [complete_deposit] when no remote credit is asked for. *)
Lemma complete_deposit_local_run
    (ichancy_service : IchancyService.t M) (clk : nat -> Z) (tid : string)
    (deposit_to_ichancy : bool) (w : World M)
    (txn : Transaction.t M) (payment : Payment.t M) (user : User.t M) :
  find (TransactionRepository.has_id tid) (transactions w) = Some txn ->
  Transaction.state txn = PENDING ->
  find (WalletService.pays_for tid) (payments w) = Some payment ->
  Payment.state payment = PAY_VERIFIED ->
  find (UserRepository.has_id (Transaction.user_id txn)) (users w) = Some user ->
  (if deposit_to_ichancy then WalletService.nonempty (User.ichancy_username user) else None)
  = None ->
  exists (w' : World M) (txn' : Transaction.t M),
    WalletService.complete_deposit ichancy_service clk tid deposit_to_ichancy w
    = (Ret (DepositResult.mk true (Some tid) "Deposit completed successfully"
              (Some (madd (User.local_balance user) (Transaction.amount txn))) JNull None), w')
    /\ find (UserRepository.has_id (Transaction.user_id txn)) (users w')
       = Some (UserRepository.balance_row (clk 2%nat)
                 (madd (User.local_balance user) (Transaction.amount txn))
                 (Transaction.amount txn) mzero user)
    /\ find (TransactionRepository.has_id tid) (transactions w') = Some txn'
    /\ Transaction.state txn' = COMPLETED
    /\ Transaction.balance_before txn' = Transaction.balance_before txn
    /\ Transaction.balance_after txn'
       = Some (madd (User.local_balance user) (Transaction.amount txn))
    /\ payments w' = payments w
    /\ ichancy_calls w' = ichancy_calls w.
Proof.
  intros Ht Hs Hp Hv Hu Hn.
  erewrite complete_deposit_enters_processing by eassumption.
  pose proof (transaction_found_id _ _ Ht) as Hid.
  pose proof (user_found_id _ _ Hu) as Huid.
  match goal with
  | |- context [try_except _ _ ?w1] => set (w1' := w1)
  end.
  destruct (credit_and_complete_run clk tid txn user JNull w1')
    as (w' & Hrun & Husers & Hpays & Hcalls & Hrow).
  destruct (Hrow (TransactionRepository.state_row (clk 0%nat) PROCESSING None txn))
    as (txn' & Hfound & Hstate & _ & Hbefore & Hafter & _).
  { subst w1'. cbn [transactions]. rewrite Hid.
    rewrite transaction_lookup_after_update_state, Ht. reflexivity. }
  exists w', txn'. split.
  - apply try_returns. unfold WalletService.complete_deposit_steps. rewrite Hn. exact Hrun.
  - rewrite Husers, Hpays, Hcalls. subst w1'. cbn [users payments ichancy_calls].
    rewrite Huid. rewrite find_update_where by reflexivity. rewrite Hu.
    rewrite <- Hid at 1. repeat split; assumption.
Qed.

(** X20: a deposit from start to end.  For an amount that is a number
    and gives a balance that is a number, an account that is not
    blocked, new ids and a new key, and no earlier payment stored for the new
    transaction id: [initiate_deposit], then [verify_payment] on the new
    payment before it expires (with any reference), then [complete_deposit]
    with no remote credit asked for, ends in success; the local balance is
    the balance at the start plus the amount, [total_deposited] has grown by
    the amount, the transaction is COMPLETED with the start balance as
    [balance_before] and the new balance as [balance_after], and no remote
    call was made. *)
Theorem deposit_end_to_end
    (ichancy_service : IchancyService.t M) (clk clk_verify clk_complete : nat -> Z)
    (draws : Draws) (w : World M) (user_id : Z) (amount : M) (provider : PaymentProvider)
    (idempotency_key : option string) (user : User.t M)
    (test_mode : bool) (provider_reference : string) (phone_number : option string)
    (deposit_to_ichancy : bool) :
  is_nan amount = false ->
  is_nan (madd (User.local_balance user) amount) = false ->
  find (UserRepository.has_id user_id) (users w) = Some user ->
  User.state user <> BLOCKED ->
  find (TransactionRepository.has_key
          (WalletService.effective_key "dep_" draws idempotency_key)) (transactions w) = None ->
  find (TransactionRepository.has_id (transaction_uuid draws)) (transactions w) = None ->
  find (PaymentRepository.has_id (payment_uuid draws)) (payments w) = None ->
  find (WalletService.pays_for (transaction_uuid draws)) (payments w) = None ->
  clk_verify 0%nat <= clk 2%nat + timedelta_minutes 30 ->
  (if deposit_to_ichancy then WalletService.nonempty (User.ichancy_username user) else None)
  = None ->
  exists (w' : World M) (txn' : Transaction.t M) (user' : User.t M),
    WalletService.complete_deposit ichancy_service clk_complete (transaction_uuid draws)
      deposit_to_ichancy
      (after (WalletService.verify_payment test_mode clk_verify (payment_uuid draws)
                provider_reference phone_number)
         (after (WalletService.initiate_deposit clk draws user_id amount provider
                   idempotency_key) w))
    = (Ret (DepositResult.mk true (Some (transaction_uuid draws))
              "Deposit completed successfully"
              (Some (madd (User.local_balance user) amount)) JNull None), w')
    /\ find (UserRepository.has_id user_id) (users w') = Some user'
    /\ User.local_balance user' = madd (User.local_balance user) amount
    /\ User.total_deposited user' = madd (User.total_deposited user) amount
    /\ find (TransactionRepository.has_id (transaction_uuid draws)) (transactions w')
       = Some txn'
    /\ Transaction.state txn' = COMPLETED
    /\ Transaction.balance_before txn' = Some (User.local_balance user)
    /\ Transaction.balance_after txn' = Some (madd (User.local_balance user) amount)
    /\ ichancy_calls w' = ichancy_calls w.
Proof.
  intros _ _ Hu Hb Hkey Hid Hpid Hpays Hlate Hn.
  destruct (@initiate_deposit_run clk draws w user_id amount provider idempotency_key user
              Hu Hb Hkey Hid Hpid) as (txn & payment & Ht & Hp & Hrun).
  unfold after at 2. rewrite Hrun. cbn [snd].
  set (w1 := mkWorld (users w) (transactions w ++ [txn]) (payments w ++ [payment])
                     (ichancy_calls w)
                     (audit_log w ++ [TRANSACTION_START (transaction_uuid draws) "deposit"
                                        user_id amount (PaymentProvider_value provider)])).
  assert (Hfound : find (PaymentRepository.has_id (payment_uuid draws)) (payments w1)
                   = Some payment).
  { subst w1. cbn [payments]. apply find_app_new; [exact Hpid|].
    rewrite Hp. apply String.eqb_refl. }
  destruct (@verify_payment_marks_verified M test_mode clk_verify w1 (payment_uuid draws)
              provider_reference phone_number payment Hfound)
    as (now & Hverify).
  { rewrite Hp. exact Hlate. }
  { rewrite Hp. cbn. lia. }
  unfold after. rewrite Hverify. cbn [snd].
  match goal with
  | |- context [WalletService.complete_deposit _ _ _ _ ?w2] => set (w2' := w2)
  end.
  destruct (@complete_deposit_local_run ichancy_service clk_complete (transaction_uuid draws)
              deposit_to_ichancy w2' txn
              (WalletService.verified_row now provider_reference phone_number
                 (PaymentRepository.attempt_row payment))
              user)
    as (w' & txn' & Hdone & Huser & Htxn & Hstate & Hbefore & Hafter & _ & Hcalls).
  - subst w2' w1. cbn [transactions]. apply find_app_new; [exact Hid|].
    rewrite Ht. apply String.eqb_refl.
  - rewrite Ht. reflexivity.
  - subst w2' w1. cbn [payments]. unfold update_where.
    rewrite !find_map_same.
    + rewrite (find_app_new _ _ _ Hpays).
      * cbn [option_map]. rewrite Hp.
        unfold PaymentRepository.has_id. cbn [Payment.id]. rewrite !String.eqb_refl.
        reflexivity.
      * rewrite Hp. unfold WalletService.pays_for. cbn [Payment.transaction_id].
        apply String.eqb_refl.
    + intros r. destruct (PaymentRepository.has_id (payment_uuid draws) r); reflexivity.
    + intros r. destruct (PaymentRepository.has_id (Payment.id payment) r); reflexivity.
  - reflexivity.
  - subst w2' w1. cbn [users]. rewrite Ht. exact Hu.
  - exact Hn.
  - rewrite Ht in Hdone, Huser, Hbefore, Hafter.
    cbn [Transaction.amount Transaction.user_id Transaction.balance_before] in *.
    exists w', txn'. eexists. split; [exact Hdone|]. split; [exact Huser|].
    subst w2' w1. cbn [ichancy_calls] in Hcalls.
    repeat split; assumption.
Qed.

End WalletFacts.


(* ================================================================== *)
(** * Further properties: the breaker under any calls *)

Lemma breaker_call_settings (b : CircuitBreaker.t) (c : BreakerCall) :
  breaker_settings (breaker_call b c) = breaker_settings b.
Proof.
  destruct c as [now| |now]; cbn [breaker_call].
  - unfold CircuitBreaker.can_execute, CircuitBreaker.state.
    destruct (CircuitBreaker._state b); [reflexivity| |reflexivity].
    destruct (CircuitBreaker._last_failure_time b) as [last|]; [|reflexivity].
    destruct (now - last >=? CircuitBreaker.recovery_timeout b); reflexivity.
  - unfold CircuitBreaker.record_success.
    destruct (CircuitBreaker._state b); try reflexivity.
    destruct (CircuitBreaker._half_open_calls b + 1 >=? CircuitBreaker.half_open_max_calls b);
      reflexivity.
  - reflexivity.
Qed.

Lemma breaker_call_consistent (b : CircuitBreaker.t) (c : BreakerCall) :
  breaker_consistent b -> breaker_consistent (breaker_call b c).
Proof.
  destruct b as [name T R Hmax s count last calls].
  unfold breaker_consistent. cbn. intros (Hlast & Hcount & Hhalf).
  destruct c as [now| |now]; cbn.
  - unfold CircuitBreaker.can_execute, CircuitBreaker.state. cbn.
    destruct s; cbn; [auto| |auto].
    destruct last as [last|]; cbn; [|auto].
    destruct (now - last >=? R); cbn; [|auto].
    repeat split; try discriminate; eauto.
  - unfold CircuitBreaker.record_success. cbn.
    destruct s; cbn; [|auto|].
    + repeat split; try discriminate; try contradiction; lia.
    + destruct (Z.geb_spec (calls + 1) Hmax) as [Hge|Hlt]; cbn.
      * repeat split; try discriminate; try contradiction; lia.
      * split; [auto|]. split; [discriminate|].
        intros _. right. destruct (Hhalf eq_refl); lia.
  - unfold CircuitBreaker.record_failure. cbn.
    split; [eauto|]. split.
    + intros HT. destruct s; cbn; try discriminate.
      destruct (Z.geb_spec (count + 1) T) as [Hge|Hlt]; [discriminate|].
      intros _. specialize (Hcount HT eq_refl). lia.
    + destruct s; cbn; try discriminate.
      destruct (count + 1 >=? T); discriminate.
Qed.

Lemma breaker_calls_consistent (calls : list BreakerCall) :
  forall b, breaker_consistent b ->
            breaker_settings (breaker_calls calls b) = breaker_settings b
            /\ breaker_consistent (breaker_calls calls b).
Proof.
  induction calls as [|c calls IH]; intros b Hcons; [split; [reflexivity | exact Hcons]|].
  change (breaker_calls (c :: calls) b) with (breaker_calls calls (breaker_call b c)).
  destruct (IH (breaker_call b c) (breaker_call_consistent c Hcons)) as (Hset & Hcons').
  split; [rewrite Hset; apply breaker_call_settings | exact Hcons'].
Qed.

(** X21: a breaker is never stuck and never miscounts, whatever is done
    with it.  After any sequence of calls ([can_execute], [record_success],
    [record_failure], at any clock readings) on a new breaker, its name and
    settings are those it was made with; when it is not CLOSED, the time of a
    failure is on record and [can_execute] answers yes at every reading at
    least [recovery_timeout] after it; while it is CLOSED, with a threshold
    of one or more, its failure count is below the threshold; and while it
    is HALF_OPEN its trial counter is zero or below [half_open_max_calls]. *)
Theorem breaker_never_stuck (calls : list BreakerCall) (name : string)
    (failure_threshold recovery_timeout half_open_max_calls : Z) :
  let b := breaker_calls calls
             (CircuitBreaker.init name failure_threshold recovery_timeout
                                  half_open_max_calls) in
  breaker_settings b = (name, failure_threshold, recovery_timeout, half_open_max_calls)
  /\ breaker_consistent b
  /\ (CircuitBreaker._state b <> CLOSED ->
      exists last,
        CircuitBreaker._last_failure_time b = Some last
        /\ forall now, recovery_timeout <= now - last ->
                       snd (CircuitBreaker.can_execute now b) = true).
Proof.
  intros b.
  assert (Hinv : breaker_settings b
                 = (name, failure_threshold, recovery_timeout, half_open_max_calls)
                 /\ breaker_consistent b).
  { subst b. apply breaker_calls_consistent.
    unfold breaker_consistent. cbn.
    repeat split; try contradiction; try discriminate; lia. }
  destruct Hinv as (Hset & Hcons). split; [exact Hset|]. split; [exact Hcons|].
  intros Hopen. destruct Hcons as (Hlast & _). destruct (Hlast Hopen) as (last & Hl).
  exists last. split; [exact Hl|]. intros now Hpassed.
  assert (HR : CircuitBreaker.recovery_timeout b = recovery_timeout).
  { unfold breaker_settings in Hset. inversion Hset. reflexivity. }
  unfold CircuitBreaker.can_execute, CircuitBreaker.state.
  destruct (CircuitBreaker._state b); [contradiction | | reflexivity].
  rewrite Hl, HR.
  destruct (Z.geb_spec (now - last) recovery_timeout); [reflexivity | lia].
Qed.


(* ================================================================== *)
(** * Further properties: retries and the breaker together *)

Section RetryAndBreaker.
Context {M R A : Type} {scalar : Scalar R}.

Implicit Types (env : nat -> Attempt M A) (args : RetryArgs M R).

(** An iteration on a closed breaker whose call fails with a retried
    exception, before the last attempt. *)
Lemma retry_iteration_on_closed env args (i : nat) (b : CircuitBreaker.t) (d : R)
    (e : exn M) :
  CircuitBreaker._state b = CLOSED ->
  func_result (env i) = Raise e ->
  exceptions args e = true ->
  Z.of_nat i < max_retries args ->
  retry_iteration env args i (Some b) d
  = NEXT (Some (CircuitBreaker.record_failure (at_record_failure (env i)) b))
         (smul d (backoff args)) e
         (CALL_FUNC i :: (if on_retry args then [ON_RETRY (S i) e] else []) ++ [SLEEP d]).
Proof.
  intros Hs Hf He Hi.
  unfold retry_iteration, breaker_check, CircuitBreaker.can_execute, CircuitBreaker.state.
  rewrite Hs, Hf, He. cbn [option_map].
  destruct (Z.ltb_spec (Z.of_nat i) (max_retries args)); [reflexivity | lia].
Qed.

(** An iteration on a breaker that is open, within its timeout. *)
Lemma retry_iteration_rejected env args (i : nat) (b : CircuitBreaker.t) (d : R) (last : Z) :
  CircuitBreaker._state b = OPEN ->
  CircuitBreaker._last_failure_time b = Some last ->
  at_can_execute (env i) - last < CircuitBreaker.recovery_timeout b ->
  exists b',
    retry_iteration env args i (Some b) d
    = STOP (Raise (NetworkException (circuit_open_message b))) (Some b') [].
Proof.
  intros Hs Hl Hwithin.
  unfold retry_iteration, breaker_check, CircuitBreaker.can_execute.
  unfold CircuitBreaker.state at 1. rewrite Hs, Hl.
  destruct (Z.geb_spec (at_can_execute (env i) - last) (CircuitBreaker.recovery_timeout b));
    [lia|].
  eexists. reflexivity.
Qed.

Lemma retry_loop_trips env args (k : nat) :
  forall (i m : nat) (b : CircuitBreaker.t) (d : R) (last : option (exn M)),
    CircuitBreaker._state b = CLOSED ->
    CircuitBreaker._failure_count b + Z.of_nat (S k) = CircuitBreaker.failure_threshold b ->
    (forall j, (j <= k)%nat -> fails_retryably env args (i + j)%nat) ->
    Z.of_nat (i + k) < max_retries args ->
    at_can_execute (env (i + S k)%nat) - at_record_failure (env (i + k)%nat)
    < CircuitBreaker.recovery_timeout b ->
    exists b' effects,
      retry_loop env args (S (S k) + m) i (Some b) d last
      = (Raise (NetworkException (circuit_open_message b)), Some b', effects)
      /\ invocations effects = S k
      /\ List.length (sleeps effects) = S k.
Proof.
  induction k as [|k IH]; intros i m b d last Hs Hcount Hfail Hmax Hwithin.
  - destruct (Hfail 0%nat (Nat.le_refl _)) as (e & Hf & He).
    rewrite Nat.add_0_r in *.
    change (S (S 0) + m)%nat with (S (S m)). cbn [retry_loop].
    rewrite (@retry_iteration_on_closed env args i b d e Hs Hf He Hmax).
    destruct (@retry_iteration_rejected env args (i + 1)%nat
                (CircuitBreaker.record_failure (at_record_failure (env i)) b)
                (smul d (backoff args)) (at_record_failure (env i)))
      as (b' & Hstop).
    + unfold CircuitBreaker.record_failure. cbn. rewrite Hs.
      destruct (Z.geb_spec (CircuitBreaker._failure_count b + 1)
                           (CircuitBreaker.failure_threshold b)); [reflexivity | lia].
    + reflexivity.
    + exact Hwithin.
    + replace (S i) with (i + 1)%nat by lia. rewrite Hstop.
      exists b'. eexists. split; [reflexivity|].
      rewrite app_nil_r. cbn [invocations]. rewrite invocations_app.
      cbn [sleeps]. rewrite sleeps_app.
      destruct (on_retry args); cbn; auto.
  - destruct (Hfail 0%nat (Nat.le_0_l _)) as (e & Hf & He).
    rewrite Nat.add_0_r in Hf.
    change (S (S (S k)) + m)%nat with (S (S (S k) + m)). cbn [retry_loop].
    rewrite (@retry_iteration_on_closed env args i b d e Hs Hf He) by lia.
    destruct (IH (S i) m (CircuitBreaker.record_failure (at_record_failure (env i)) b)
                (smul d (backoff args)) (Some e))
      as (b' & effects & Hrun & Hinv & Hsl).
    + unfold CircuitBreaker.record_failure. cbn. rewrite Hs.
      destruct (Z.geb_spec (CircuitBreaker._failure_count b + 1)
                           (CircuitBreaker.failure_threshold b)); [lia | reflexivity].
    + unfold CircuitBreaker.record_failure. cbn. lia.
    + intros j Hj. replace (S i + j)%nat with (i + S j)%nat by lia. apply Hfail. lia.
    + replace (S i + k)%nat with (i + S k)%nat by lia. exact Hmax.
    + replace (S i + S k)%nat with (i + S (S k))%nat by lia.
      replace (S i + k)%nat with (i + S k)%nat by lia. exact Hwithin.
    + rewrite Hrun. exists b'. eexists. split; [reflexivity|].
      rewrite invocations_app, sleeps_app, length_app, Hinv, Hsl.
      destruct (on_retry args); cbn; split; lia.
Qed.

(** X22: the breaker cuts a run of retries short.  When a run starts on
    a CLOSED breaker that is [n] failures away from its threshold, with [n]
    at most [max_retries], every attempt fails with a retried exception, and
    the attempt after the [n]-th comes within [recovery_timeout] of that
    failure, [retry_async] ends in the circuit-open NetworkException, not in
    the last exception of the call; the wrapped call was awaited [n] times
    only, and [n] delays were slept. *)
Theorem breaker_cuts_retries_short env args (b : CircuitBreaker.t) (k : nat) :
  circuit_breaker args = Some b ->
  CircuitBreaker._state b = CLOSED ->
  CircuitBreaker._failure_count b + Z.of_nat (S k) = CircuitBreaker.failure_threshold b ->
  Z.of_nat k < max_retries args ->
  (forall j, (j <= k)%nat -> fails_retryably env args j) ->
  at_can_execute (env (S k)) - at_record_failure (env k) < CircuitBreaker.recovery_timeout b ->
  exists b' effects,
    retry_async env args
    = (Raise (NetworkException (circuit_open_message b)), Some b', effects)
    /\ invocations effects = S k
    /\ List.length (sleeps effects) = S k.
Proof.
  intros Hcb Hs Hcount Hmax Hfail Hwithin.
  unfold retry_async. rewrite Hcb.
  replace (Z.to_nat (max_retries args + 1))
    with (S (S k) + (Z.to_nat (max_retries args + 1) - S (S k)))%nat by lia.
  apply retry_loop_trips; auto.
Qed.

(** What a run can raise: an exception of the wrapped call, the circuit-open
    NetworkException, or nothing at all when it was given a last exception to
    start with. *)
Lemma retry_loop_raises_only env args (P : exn M -> Prop) :
  (forall i e, func_result (env i) = Raise e -> P e) ->
  (forall message, P (NetworkException message)) ->
  forall (iterations attempt : nat) (cb : option CircuitBreaker.t) (d : R)
         (last : option (exn M)) (e : exn M),
    match last with
    | Some e0 => P e0
    | None => iterations <> 0%nat
    end ->
    fst (fst (retry_loop env args iterations attempt cb d last)) = Raise e -> P e.
Proof.
  intros Hfunc Hopen. induction iterations as [|n IH]; intros attempt cb d last e Hlast.
  - cbn [retry_loop fst]. destruct last as [e0|]; [|contradiction].
    cbn. intros Heq. inversion Heq; subst. exact Hlast.
  - cbn [retry_loop].
    pose proof (retry_iteration_shape env args attempt cb d) as Hshape.
    destruct (retry_iteration env args attempt cb d) as [o cb' effects | cb' d' e' effects]
      eqn:Hit.
    + cbn [fst]. intros Ho. subst o.
      unfold retry_iteration in Hit.
      destruct (breaker_check (at_can_execute (env attempt)) cb) as [[b|] [|]];
        destruct (func_result (env attempt)) as [result|e0] eqn:Hf;
        try (inversion Hit; subst; apply Hopen);
        try discriminate;
        try (destruct (exceptions args e0);
             [destruct (Z.of_nat attempt <? max_retries args); discriminate|];
             inversion Hit; subst; eapply Hfunc; exact Hf).
    + destruct Hshape as (_ & Hf & _).
      specialize (IH (S attempt) cb' d' (Some e') e (Hfunc _ _ Hf)).
      destruct (retry_loop env args n (S attempt) cb' d' (Some e')) as [[o cb''] later].
      exact IH.
Qed.

End RetryAndBreaker.


(* ================================================================== *)
(** * Further properties: the registry of breakers and the Ichancy client *)

Lemma registry_get_set (name : string) (b : CircuitBreaker.t) (registry : Registry) :
  registry_get name (registry_set name b registry) = Some b.
Proof.
  induction registry as [|[k b'] rest IH]; cbn.
  - rewrite String.eqb_refl. reflexivity.
  - destruct (k =? name)%string eqn:E; cbn; rewrite E; [reflexivity | exact IH].
Qed.

Lemma registry_get_set_other (name other : string) (b : CircuitBreaker.t)
    (registry : Registry) :
  other <> name ->
  registry_get other (registry_set name b registry) = registry_get other registry.
Proof.
  intros Hne. induction registry as [|[k b'] rest IH]; cbn.
  - destruct (String.eqb_spec name other); [congruence | reflexivity].
  - destruct (String.eqb_spec k name) as [->|Hk]; cbn.
    + destruct (String.eqb_spec name other); [congruence | reflexivity].
    + rewrite IH. reflexivity.
Qed.

(** X23: [get_circuit_breaker] gets or creates, once.  The breaker it
    returns is the one stored under the name afterwards; a breaker already
    stored under the name is returned as it stands, the keyword arguments
    unused and the registry unchanged; otherwise a new breaker is made from
    the keyword arguments and the defaults (threshold 5, timeout 30 seconds,
    3 trial calls).  Breakers under other names are untouched, and a second
    call with the same name, whatever its keyword arguments, returns the
    same breaker and changes nothing. *)
Theorem get_circuit_breaker_once (name : string) (kwargs later_kwargs : BreakerKwargs)
    (registry : Registry) :
  registry_get name (snd (get_circuit_breaker name kwargs registry))
  = Some (fst (get_circuit_breaker name kwargs registry))
  /\ (forall known, registry_get name registry = Some known ->
                    get_circuit_breaker name kwargs registry = (known, registry))
  /\ (registry_get name registry = None ->
      fst (get_circuit_breaker name kwargs registry)
      = CircuitBreaker.init name (or_default (kw_failure_threshold kwargs) 5)
                            (or_default (kw_recovery_timeout kwargs) (seconds 30))
                            (or_default (kw_half_open_max_calls kwargs) 3))
  /\ (forall other, other <> name ->
                    registry_get other (snd (get_circuit_breaker name kwargs registry))
                    = registry_get other registry)
  /\ get_circuit_breaker name later_kwargs (snd (get_circuit_breaker name kwargs registry))
     = get_circuit_breaker name kwargs registry.
Proof.
  unfold get_circuit_breaker.
  destruct (registry_get name registry) as [known|] eqn:Hg; cbn [fst snd].
  - split; [exact Hg|]. split; [intros k Hk; inversion Hk; reflexivity|].
    split; [discriminate|]. split; [reflexivity|]. rewrite Hg. reflexivity.
  - split; [apply registry_get_set|]. split; [discriminate|]. split; [reflexivity|].
    split; [intros other Hne; apply registry_get_set_other; exact Hne|].
    rewrite registry_get_set. reflexivity.
Qed.

Section IchancyClient.
Context {M R : Type} {scalar : Scalar R}.

(** Every exception of [_request] is a NetworkException or one of its
    subclasses. *)
Lemma request_raises_network_exceptions (int_str : Z -> string) (t : Transport) (e : exn M) :
  _request int_str t = Raise e -> is_network_exception e = true.
Proof.
  destruct t as [status text parsed| | |]; cbn.
  - destruct (status >=? 400); [discriminate|].
    destruct parsed as [[| | | | |fields]|]; try discriminate.
    destruct (has_error_flag fields); discriminate.
  - intros Heq. inversion Heq. reflexivity.
  - intros Heq. inversion Heq. reflexivity.
  - intros Heq. inversion Heq. reflexivity.
Qed.

Lemma ichancy_method_raises_network_exceptions (n : Z) (config : Config R)
    (int_str : Z -> string) (trips : nat -> Trip) (registry : Registry) (e : exn M) :
  0 <= n ->
  fst (fst (@ichancy_method M R _ n config int_str trips registry)) = Raise e ->
  is_network_exception e = true.
Proof.
  intros Hn. unfold ichancy_method, with_retry.
  match goal with
  | |- context [retry_async ?env ?args] =>
      set (env0 := env); set (args0 := args);
      assert (Hrun : forall e0, fst (fst (retry_async env0 args0)) = Raise e0 ->
                                is_network_exception e0 = true)
  end.
  { intros e0. unfold retry_async.
    apply (@retry_loop_raises_only M R IchancyResponse.t scalar env0 args0
             (fun e1 => is_network_exception e1 = true)).
    - intros i e1. subst env0. cbn [func_result]. apply request_raises_network_exceptions.
    - reflexivity.
    - subst args0. cbn [max_retries or_default given_max_retries].
      replace (Z.to_nat (n + 1)) with (S (Z.to_nat n)) by lia. discriminate. }
  destruct (retry_async env0 args0) as [[o cb] effects]. cbn [fst] in *.
  apply Hrun.
Qed.

(** X24: the Ichancy client raises network errors only.  Each of the
    seven decorated methods of [IchancyService], whatever the HTTP round
    trips of its attempts end in, whatever the clock shows and whatever the
    registry of breakers holds, either returns a response or raises a
    NetworkException or one of its subclasses (the timeout and connection
    errors): the exception of the last attempt, or the circuit-open error. *)
Theorem ichancy_methods_raise_network_exceptions_only :
  Forall (fun method =>
            forall (config : Config R) (int_str : Z -> string) (trips : nat -> Trip)
                   (registry : Registry) (e : exn M),
              fst (fst (method config int_str trips registry)) = Raise e ->
              is_network_exception e = true)
         (@ichancy_methods M R _).
Proof.
  unfold ichancy_methods.
  repeat constructor; intros config int_str trips registry e;
    apply ichancy_method_raises_network_exceptions; lia.
Qed.

(** X25: an HTTP error status is a success for the breaker.  When the
    first round trip of a decorated method comes back with an HTTP response,
    of any status, and the "ichancy" breaker is CLOSED, the method returns
    what [_request] makes of the response after one attempt, with no retry
    and no sleep; with a status of 400 or more that response reports a
    failure with the text "HTTP <status>: <body>".  The breaker stored in the
    registry afterwards is CLOSED with its failure count back at zero. *)
Theorem http_response_resets_the_breaker (n : Z) (config : Config R)
    (int_str : Z -> string) (trips : nat -> Trip) (registry : Registry)
    (b : CircuitBreaker.t) (status_code : Z) (text : string) (parsed : option json) :
  0 <= n ->
  registry_get "ichancy" registry = Some b ->
  CircuitBreaker._state b = CLOSED ->
  trip_transport (trips 0%nat) = HTTP_RESPONSE status_code text parsed ->
  exists (response : IchancyResponse.t) (registry' : Registry) (b' : CircuitBreaker.t),
    @ichancy_method M R _ n config int_str trips registry
    = (Ret response, registry', [CALL_FUNC 0])
    /\ @_request M int_str (HTTP_RESPONSE status_code text parsed) = Ret response
    /\ (400 <= status_code ->
        IchancyResponse.success response = false
        /\ IchancyResponse.error response
           = JStr ("HTTP " ++ int_str status_code ++ ": " ++ text))
    /\ registry_get "ichancy" registry' = Some b'
    /\ CircuitBreaker._state b' = CLOSED
    /\ CircuitBreaker._failure_count b' = 0.
Proof.
  intros Hn Hg Hs Ht.
  assert (Hret : exists response,
             @_request M int_str (HTTP_RESPONSE status_code text parsed) = Ret response
             /\ (400 <= status_code ->
                 IchancyResponse.success response = false
                 /\ IchancyResponse.error response
                    = JStr ("HTTP " ++ int_str status_code ++ ": " ++ text))).
  { cbn. destruct (Z.geb_spec status_code 400) as [Hhigh|Hlow].
    - eexists. split; [reflexivity|]. intros _. split; reflexivity.
    - destruct parsed as [[| | | | |fields]|];
        try (eexists; split; [reflexivity | intros; lia]).
      destruct (has_error_flag fields); eexists; (split; [reflexivity | intros; lia]). }
  destruct Hret as (response & Hreq & Hhigh).
  exists response, (registry_set "ichancy" (CircuitBreaker.record_success b) registry),
         (CircuitBreaker.record_success b).
  split; [|split; [exact Hreq|split; [exact Hhigh|split; [apply registry_get_set|]]]].
  - unfold ichancy_method, with_retry. cbn [truthy_str circuit_breaker_name].
    cbn -[retry_async registry_set]. unfold get_circuit_breaker. rewrite Hg.
    unfold retry_async. cbn [max_retries or_default given_max_retries fst snd
                             circuit_breaker delay].
    replace (Z.to_nat (n + 1)) with (S (Z.to_nat n)) by lia.
    cbn [retry_loop]. unfold retry_iteration, breaker_check, CircuitBreaker.can_execute,
      CircuitBreaker.state.
    cbn [at_can_execute func_result]. rewrite Hs, Ht, Hreq. reflexivity.
  - unfold CircuitBreaker.record_success. rewrite Hs. split; reflexivity.
Qed.

End IchancyClient.


(* ================================================================== *)
(** * Further properties: the middlewares *)

Lemma requests_of_store (user_id : Z) (v : list Z) (entries : list (Z * list Z)) :
  RateLimitMiddleware.requests_of user_id (RateLimitMiddleware.store user_id v entries)
  = Some v.
Proof.
  induction entries as [|[k v'] rest IH]; cbn.
  - rewrite Z.eqb_refl. reflexivity.
  - destruct (k =? user_id) eqn:E; cbn; rewrite E; [reflexivity | exact IH].
Qed.

Lemma requests_of_store_other (user_id other : Z) (v : list Z)
    (entries : list (Z * list Z)) :
  other <> user_id ->
  RateLimitMiddleware.requests_of other (RateLimitMiddleware.store user_id v entries)
  = RateLimitMiddleware.requests_of other entries.
Proof.
  intros Hne. induction entries as [|[k v'] rest IH]; cbn.
  - destruct (Z.eqb_spec user_id other); [congruence | reflexivity].
  - destruct (Z.eqb_spec k user_id) as [->|Hk]; cbn.
    + destruct (Z.eqb_spec user_id other); [congruence | reflexivity].
    + rewrite IH. reflexivity.
Qed.

Lemma filter_filter_implied {X} (f g : X -> bool) (l : list X) :
  (forall x, In x l -> f x = true -> g x = true) -> filter f (filter g l) = filter f l.
Proof.
  induction l as [|x l IH]; intros Himp; cbn; [reflexivity|].
  assert (IH' : filter f (filter g l) = filter f l)
    by (apply IH; intros y Hy; apply Himp; right; exact Hy).
  destruct (g x) eqn:Eg; cbn.
  - rewrite IH'. reflexivity.
  - destruct (f x) eqn:Ef; [|exact IH'].
    rewrite (Himp x (or_introl eq_refl) Ef) in Eg. discriminate.
Qed.

(** One request of a user: it is let through exactly when fewer than
    [max_requests] of the readings on record are less than a window old, and
    only then is its own reading put on record. *)
Lemma rate_limit_call (user_id now : Z) (m : RateLimitMiddleware.t) :
  let recent := in_window (RateLimitMiddleware.window_seconds m) now
                          (stored_requests user_id m) in
  let ok := Z.of_nat (List.length recent) <? RateLimitMiddleware.max_requests m in
  fst (RateLimitMiddleware.call (Some user_id) now m) = ok
  /\ stored_requests user_id (snd (RateLimitMiddleware.call (Some user_id) now m))
     = (if ok then recent ++ [now] else recent)
  /\ RateLimitMiddleware.max_requests (snd (RateLimitMiddleware.call (Some user_id) now m))
     = RateLimitMiddleware.max_requests m
  /\ RateLimitMiddleware.window_seconds (snd (RateLimitMiddleware.call (Some user_id) now m))
     = RateLimitMiddleware.window_seconds m
  /\ forall other, other <> user_id ->
       stored_requests other (snd (RateLimitMiddleware.call (Some user_id) now m))
       = stored_requests other m.
Proof.
  intros recent ok. subst ok recent.
  unfold RateLimitMiddleware.call, stored_requests, in_window.
  set (recent := filter _ _).
  rewrite Z.geb_leb.
  destruct (Z.leb_spec (RateLimitMiddleware.max_requests m) (Z.of_nat (List.length recent)))
    as [Hfull|Hroom];
    destruct (Z.ltb_spec (Z.of_nat (List.length recent)) (RateLimitMiddleware.max_requests m));
    try lia; cbn [fst snd RateLimitMiddleware._requests RateLimitMiddleware.max_requests
                  RateLimitMiddleware.window_seconds];
    rewrite requests_of_store; repeat split; try reflexivity;
    intros other Hne; rewrite requests_of_store_other by exact Hne; reflexivity.
Qed.

Lemma rate_limit_calls_within_limit (user_id : Z) (times : list Z) :
  forall (m : RateLimitMiddleware.t) (earlier : list Z) (last : Z),
    0 < RateLimitMiddleware.window_seconds m ->
    stored_requests user_id m
    = in_window (RateLimitMiddleware.window_seconds m) last earlier ->
    (forall t, In t times -> last <= t) ->
    StronglySorted Z.le times ->
    within_limit (RateLimitMiddleware.max_requests m) (RateLimitMiddleware.window_seconds m)
                 earlier (fst (RateLimitMiddleware.calls user_id times m)).
Proof.
  induction times as [|now rest IH]; intros m earlier last Hw Hstored Hlast Hsorted;
    [exact I|].
  cbn [RateLimitMiddleware.calls].
  destruct (rate_limit_call user_id now m) as (Hok & Hnew & Hmax & Hwin & _).
  destruct (RateLimitMiddleware.call (Some user_id) now m) as [ok m1]. cbn [fst snd] in *.
  assert (Hrecent : in_window (RateLimitMiddleware.window_seconds m) now
                              (stored_requests user_id m)
                    = in_window (RateLimitMiddleware.window_seconds m) now earlier).
  { rewrite Hstored. unfold in_window. apply filter_filter_implied.
    intros ts _ Hin. apply Z.ltb_lt in Hin. apply Z.ltb_lt.
    specialize (Hlast now (or_introl eq_refl)). lia. }
  rewrite Hrecent in Hok, Hnew.
  assert (Hself : in_window (RateLimitMiddleware.window_seconds m) now (earlier ++ [now])
                  = in_window (RateLimitMiddleware.window_seconds m) now earlier ++ [now]).
  { unfold in_window. rewrite filter_app. cbn [filter].
    replace (now - now) with 0 by lia.
    destruct (Z.ltb_spec 0 (RateLimitMiddleware.window_seconds m)); [reflexivity | lia]. }
  apply StronglySorted_inv in Hsorted. destruct Hsorted as [Hrest Hall].
  rewrite Forall_forall in Hall.
  specialize (IH m1).
  rewrite Hmax, Hwin in IH.
  destruct (RateLimitMiddleware.calls user_id rest m1) as [passed m2] eqn:Hcalls.
  cbn [fst] in *. rewrite <- Hok in Hnew.
  destruct ok.
  - symmetry in Hok. apply Z.ltb_lt in Hok.
    cbn [within_limit]. split.
    + rewrite Hself, length_app. cbn [List.length]. lia.
    + apply (IH (earlier ++ [now]) now Hw); [rewrite Hnew, Hself; reflexivity | exact Hall
                                             | exact Hrest].
  - apply (IH earlier now Hw); [exact Hnew | exact Hall | exact Hrest].
Qed.

(** X26: the rate limiter holds its limit.  For a window of positive
    length and requests of one user that come at clock readings that do not
    go back, on a new limiter: each request let through, counted together
    with the requests let through before it that are less than a window old
    when it comes, makes at most [max_requests]. *)
Theorem rate_limit_holds (max_requests window_seconds user_id : Z) (times : list Z) :
  0 < window_seconds ->
  StronglySorted Z.le times ->
  within_limit max_requests window_seconds []
    (fst (RateLimitMiddleware.calls user_id times
            (RateLimitMiddleware.init max_requests window_seconds))).
Proof.
  intros Hw Hsorted. destruct times as [|now rest]; [exact I|].
  apply (@rate_limit_calls_within_limit user_id (now :: rest)
           (RateLimitMiddleware.init max_requests window_seconds) [] now Hw).
  - reflexivity.
  - intros t [<-|Hin]; [lia|].
    apply StronglySorted_inv in Hsorted. destruct Hsorted as [_ Hall].
    rewrite Forall_forall in Hall. auto.
  - exact Hsorted.
Qed.

(** X27: what the rate limiter records.  A request is let through
    exactly when fewer than [max_requests] of the user's recorded readings
    are less than a window old; a request let through is recorded after
    those, a rejected one is not recorded, and in both cases the readings a
    window old or older are dropped.  The limits stay as they are, what is
    recorded for other users is untouched, and an update with no user is let
    through with nothing recorded. *)
Theorem rate_limit_records_passed_requests_only (user_id now : Z)
    (m : RateLimitMiddleware.t) :
  (fst (RateLimitMiddleware.call (Some user_id) now m) = true
   <-> Z.of_nat (List.length (in_window (RateLimitMiddleware.window_seconds m) now
                                        (stored_requests user_id m)))
       < RateLimitMiddleware.max_requests m)
  /\ stored_requests user_id (snd (RateLimitMiddleware.call (Some user_id) now m))
     = in_window (RateLimitMiddleware.window_seconds m) now (stored_requests user_id m)
       ++ (if fst (RateLimitMiddleware.call (Some user_id) now m) then [now] else [])
  /\ (forall other, other <> user_id ->
        stored_requests other (snd (RateLimitMiddleware.call (Some user_id) now m))
        = stored_requests other m)
  /\ RateLimitMiddleware.max_requests (snd (RateLimitMiddleware.call (Some user_id) now m))
     = RateLimitMiddleware.max_requests m
  /\ RateLimitMiddleware.window_seconds (snd (RateLimitMiddleware.call (Some user_id) now m))
     = RateLimitMiddleware.window_seconds m
  /\ RateLimitMiddleware.call None now m = (true, m).
Proof.
  destruct (rate_limit_call user_id now m) as (Hok & Hnew & Hmax & Hwin & Hother).
  rewrite Hok, Hnew. split; [apply Z.ltb_lt|]. split.
  - destruct (_ <? _); [reflexivity | rewrite app_nil_r; reflexivity].
  - repeat split; auto.
Qed.


Section UserGate.
Context {M : Type} `{Money M} {A : Type}.

(** X28: the user middleware registers, then gates.  For an update
    from a Telegram user with no row, a row is stored first (ACTIVE, the
    three amounts zero, no Ichancy link) and the handler runs with that user
    in the world that holds the row.  For a user stored as BLOCKED the
    handler is not run, whatever it is: the call returns [None], after
    storing the new Telegram username if it changed, or ends in the
    IntegrityError of that update.  For a stored user that is not blocked
    and whose username is unchanged, the handler runs with the stored user
    in the world as it is. *)
Theorem user_middleware_registers_then_gates (clk : nat -> Z) (id : Z)
    (username : option string) (w : World M) :
  (find (UserRepository.has_id id) (users w) = None ->
   forall handler : option (User.t M) -> Py M A,
     UserMiddleware.call clk (Some (id, username)) handler w
     = (result <- handler (Some (User.mk id username None None false ACTIVE mzero mzero mzero
                                         (clk 0%nat) (clk 1%nat) None)) ;;
        ret (Some result))
         (set_users (users w ++ [User.mk id username None None false ACTIVE mzero mzero mzero
                                         (clk 0%nat) (clk 1%nat) None]) w))
  /\ (forall user,
        find (UserRepository.has_id id) (users w) = Some user ->
        User.state user = BLOCKED ->
        exists (o : outcome M (option A)) (w' : World M),
          (o = Ret None \/ exists message, o = Raise (IntegrityError message))
          /\ (User.telegram_username user = username -> o = Ret None /\ w' = w)
          /\ forall handler : option (User.t M) -> Py M A,
               UserMiddleware.call clk (Some (id, username)) handler w = (o, w'))
  /\ (forall user,
        find (UserRepository.has_id id) (users w) = Some user ->
        User.state user <> BLOCKED ->
        User.telegram_username user = username ->
        forall handler : option (User.t M) -> Py M A,
          UserMiddleware.call clk (Some (id, username)) handler w
          = (result <- handler (Some user) ;; ret (Some result)) w).
Proof.
  split; [|split].
  - intros Hu handler. unfold UserMiddleware.call, UserRepository.get_by_id.
    unfold bind at 1. unfold gets at 1. rewrite Hu.
    unfold bind at 1. unfold UserRepository.create at 1.
    cbn [User.id User.ichancy_username].
    apply existsb_find_none in Hu. rewrite Hu. reflexivity.
  - intros user Hu Hb.
    destruct (optional_str_differs (User.telegram_username user) username) eqn:Hdiff.
    + destruct (existsb (UserRepository.has_id (User.id user)) (users w)
                && UserRepository.username_taken
                     (UserRepository.touch (clk 2%nat)
                        (User.mk (User.id user) username (User.ichancy_username user)
                           (User.ichancy_password user) (User.ichancy_registered user)
                           (User.state user) (User.local_balance user)
                           (User.total_deposited user) (User.total_withdrawn user)
                           (User.created_at user) (User.updated_at user)
                           (User.blocked_reason user)))
                     (users w)) eqn:Htaken.
      * eexists. exists w. split; [right; eexists; reflexivity|]. split.
        -- intros Hsame. rewrite Hsame in Hdiff.
           destruct username as [s|]; cbn in Hdiff; [|discriminate].
           rewrite String.eqb_refl in Hdiff. discriminate.
        -- intros handler. unfold UserMiddleware.call, UserRepository.get_by_id.
           unfold bind at 1. unfold gets at 1. rewrite Hu, Hdiff.
           unfold bind at 1. unfold UserRepository.update at 1.
           cbn [User.id UserRepository.touch] in *. rewrite Htaken. reflexivity.
      * eexists. eexists. split; [left; reflexivity|]. split.
        -- intros Hsame. rewrite Hsame in Hdiff.
           destruct username as [s|]; cbn in Hdiff; [|discriminate].
           rewrite String.eqb_refl in Hdiff. discriminate.
        -- intros handler. unfold UserMiddleware.call, UserRepository.get_by_id.
           unfold bind at 1. unfold gets at 1. rewrite Hu, Hdiff.
           unfold bind at 1. unfold UserRepository.update at 1.
           cbn [User.id UserRepository.touch] in *. rewrite Htaken.
           cbn [User.state]. rewrite Hb. reflexivity.
    + exists (Ret None), w. split; [left; reflexivity|]. split; [auto|].
      intros handler. unfold UserMiddleware.call, UserRepository.get_by_id.
      unfold bind at 1. unfold gets at 1. rewrite Hu, Hdiff.
      unfold bind at 1. unfold ret at 1. rewrite Hb. reflexivity.
  - intros user Hu Hb Hsame handler.
    assert (Hdiff : optional_str_differs (User.telegram_username user) username = false).
    { rewrite Hsame. destruct username as [s|]; cbn; [|reflexivity].
      rewrite String.eqb_refl. reflexivity. }
    unfold UserMiddleware.call, UserRepository.get_by_id.
    unfold bind at 1. unfold gets at 1. rewrite Hu, Hdiff.
    unfold bind at 1. unfold ret at 1.
    destruct (User.state user); try reflexivity. contradiction.
Qed.

End UserGate.


(* ================================================================== *)
(** * Further properties: payment rows and balance queries *)

Section PaymentRows.
Context {M : Type} `{Money M} `{PyStr M}.

Lemma set_payments_same (w : World M) : set_payments (payments w) w = w.
Proof. destruct w. reflexivity. Qed.

(** X29: [PaymentRepository.update_state] checks nothing.  It returns
    [True] for every payment id and every target state.  With no payment of
    that id the world is unchanged (and [increment_verification_attempts]
    returns 0 and changes nothing).  For a stored payment the state read back
    is the one given, whatever the state was; [verified_at] is stamped for
    VERIFIED only; amount, user, transaction, reference and attempt count
    are as before.  Users and transactions are untouched. *)
Theorem payment_update_state_unchecked (w : World M) (now : Z) (payment_id : string)
    (new_state : PaymentState) :
  fst (PaymentRepository.update_state now payment_id new_state w) = Ret true
  /\ (find (PaymentRepository.has_id payment_id) (payments w) = None ->
      PaymentRepository.update_state now payment_id new_state w = (Ret true, w)
      /\ PaymentRepository.increment_verification_attempts payment_id w = (Ret 0, w))
  /\ (forall payment,
        find (PaymentRepository.has_id payment_id) (payments w) = Some payment ->
        exists stored,
          fst (PaymentRepository.get_by_id payment_id
                 (after (PaymentRepository.update_state now payment_id new_state) w))
          = Ret (Some stored)
          /\ Payment.state stored = new_state
          /\ Payment.verified_at stored
             = (if PaymentState_eqb new_state PAY_VERIFIED then Some now
                else Payment.verified_at payment)
          /\ Payment.amount stored = Payment.amount payment
          /\ Payment.user_id stored = Payment.user_id payment
          /\ Payment.transaction_id stored = Payment.transaction_id payment
          /\ Payment.provider_reference stored = Payment.provider_reference payment
          /\ Payment.verification_attempts stored = Payment.verification_attempts payment)
  /\ users (after (PaymentRepository.update_state now payment_id new_state) w) = users w
  /\ transactions (after (PaymentRepository.update_state now payment_id new_state) w)
     = transactions w.
Proof.
  split; [reflexivity|]. split; [|split; [|split; reflexivity]].
  - intros Hn. split.
    + unfold PaymentRepository.update_state, bind, modify, ret.
      rewrite (update_where_untouched _ _ _ Hn), set_payments_same. reflexivity.
    + unfold PaymentRepository.increment_verification_attempts, bind, modify, gets, ret.
      rewrite (update_where_untouched _ _ _ Hn), set_payments_same, Hn. reflexivity.
  - intros payment Hf. exists (PaymentRepository.state_row now new_state payment). split.
    + unfold after, PaymentRepository.update_state, PaymentRepository.get_by_id,
        bind, modify, gets, ret.
      cbn [fst snd payments set_payments].
      rewrite payment_lookup_after_update by reflexivity. rewrite Hf. reflexivity.
    + cbn. destruct new_state; repeat split; reflexivity.
Qed.

(** X30: the two balance queries change no table and catch nothing.
    For a user id that is a 64-bit integer,
    [get_balance] and [sync_ichancy_balance] leave users, transactions,
    payments and the audit log as they were.  For an unknown user
    [get_balance] raises UserNotFoundException while [sync_ichancy_balance]
    returns [None]; for a user with no Ichancy link both answer from the
    stored row without a remote call; for a linked user both make exactly one
    remote balance query, and an exception of that query is raised to the
    caller by both. *)
Theorem balance_queries_read_only (ichancy_service : IchancyService.t M) (user_id : Z)
    (w : World M) :
  sqlite_integer user_id ->
  (forall w', w' = after (WalletService.get_balance ichancy_service user_id) w
              \/ w' = after (WalletService.sync_ichancy_balance ichancy_service user_id) w ->
              users w' = users w /\ transactions w' = transactions w
              /\ payments w' = payments w /\ audit_log w' = audit_log w)
  /\ (find (UserRepository.has_id user_id) (users w) = None ->
      WalletService.get_balance ichancy_service user_id w
      = (Raise (UserNotFoundException user_id), w)
      /\ WalletService.sync_ichancy_balance ichancy_service user_id w = (Ret JNull, w))
  /\ (forall user,
        find (UserRepository.has_id user_id) (users w) = Some user ->
        WalletService.nonempty (User.ichancy_username user) = None ->
        WalletService.get_balance ichancy_service user_id w
        = (Ret (BalanceSummary.mk (User.local_balance user) JNull
                  (User.total_deposited user) (User.total_withdrawn user)), w)
        /\ WalletService.sync_ichancy_balance ichancy_service user_id w = (Ret JNull, w))
  /\ (forall user ichancy_username,
        find (UserRepository.has_id user_id) (users w) = Some user ->
        WalletService.nonempty (User.ichancy_username user) = Some ichancy_username ->
        ichancy_calls (after (WalletService.get_balance ichancy_service user_id) w)
        = ichancy_calls w ++ [CALL_GET_PLAYER_BALANCE ichancy_username]
        /\ ichancy_calls (after (WalletService.sync_ichancy_balance ichancy_service user_id) w)
           = ichancy_calls w ++ [CALL_GET_PLAYER_BALANCE ichancy_username]
        /\ forall e,
             IchancyService.get_player_balance ichancy_service ichancy_username = Raise e ->
             fst (WalletService.get_balance ichancy_service user_id w) = Raise e
             /\ fst (WalletService.sync_ichancy_balance ichancy_service user_id w) = Raise e).
Proof.
  intros _.
  unfold WalletService.get_balance, WalletService.sync_ichancy_balance,
    UserRepository.get_by_id, after, WalletService.balance_of, bind, gets, ret, raise,
    await_ichancy.
  destruct (find (UserRepository.has_id user_id) (users w)) as [user|] eqn:Hu.
  - destruct (WalletService.nonempty (User.ichancy_username user)) as [name|] eqn:Hn.
    + assert (Hlinked : forall user0 name0,
                Some user = Some user0 ->
                WalletService.nonempty (User.ichancy_username user0) = Some name0 ->
                name0 = name).
      { intros user0 name0 Hu0 Hn0. inversion Hu0; subst user0. congruence. }
      destruct (IchancyService.get_player_balance ichancy_service name) as [r|e0] eqn:Hcall.
      * destruct (IchancyResponse.success r && truthy (IchancyResponse.data r));
          [destruct (IchancyResponse.data r)|];
          cbn [fst snd users transactions payments audit_log ichancy_calls];
          (split; [intros w' [-> | ->]; cbn; auto|]);
          (split; [intros; discriminate|]);
          (split; [intros user0 Hu0 Hn0; inversion Hu0; subst user0; congruence|]);
          intros user0 name0 Hu0 Hn0; rewrite (Hlinked user0 name0 Hu0 Hn0), Hcall;
          repeat split; try reflexivity; discriminate.
      * cbn [fst snd users transactions payments audit_log ichancy_calls].
        split; [intros w' [-> | ->]; cbn; auto|].
        split; [intros; discriminate|].
        split; [intros user0 Hu0 Hn0; inversion Hu0; subst user0; congruence|].
        intros user0 name0 Hu0 Hn0. rewrite (Hlinked user0 name0 Hu0 Hn0), Hcall.
        repeat split; try reflexivity; match goal with Heq : Raise _ = Raise _ |- _ =>
                                         inversion Heq; reflexivity end.
    + cbn [fst snd].
      split; [intros w' [-> | ->]; auto|]. split; [intros; discriminate|].
      split; [intros user0 Hu0 _; inversion Hu0; subst; split; reflexivity|].
      intros user0 name0 Hu0 Hn0. inversion Hu0; subst user0. congruence.
  - cbn [fst snd].
    split; [intros w' [-> | ->]; auto|]. split; [split; reflexivity|].
    split; intros; discriminate.
Qed.

End PaymentRows.


(* ================================================================== *)
(** * The further properties on concrete runs *)

(** X14 on a new account: a deposit of 5,000 is recorded as PENDING, its
    payment expires thirty minutes after clock reading 1002, and the account
    is as it was. *)
Lemma initiate_deposit_records_intention_witness :
  exists (txn : Transaction.t Z) (payment : Payment.t Z) (w' : World Z),
    WalletService.initiate_deposit ex_clock (ex_draws "t1" "p1") 1 5000 SYRIATEL_CASH None
                                   ex_world_new_account
    = (Ret (txn, payment), w')
    /\ Transaction.state txn = PENDING
    /\ Transaction.balance_before txn = Some 0
    /\ Payment.expires_at payment = Some (1002 + 1800000000)
    /\ users w' = users ex_world_new_account.
Proof.
  destruct (@initiate_deposit_records_intention Z Money_Z ex_clock (ex_draws "t1" "p1")
              ex_world_new_account 1 5000 SYRIATEL_CASH None (ex_user ACTIVE 0 None)
              eq_refl eq_refl ltac:(discriminate) eq_refl eq_refl eq_refl)
    as (txn & payment & w' & Hrun & _ & _ & Hstate & _ & _ & _ & Hbefore & _ & _ & _ & _
        & Hexpires & _ & _ & Husers & _).
  exists txn, payment, w'. repeat split; assumption.
Defined.

(** X17 on scenario 2 with a remote wallet that credits and reports a
    balance of 5,000. *)
Lemma complete_deposit_linked_success_witness :
  exists (w' : World Z) (txn' : Transaction.t Z) (user' : User.t Z),
    WalletService.complete_deposit (ex_remote_paying ex_success) ex_clock "t1" true
                                   ex_world_linked_pending
    = (Ret (DepositResult.mk true (Some "t1") "Deposit completed successfully"
              (Some 5000) (JNum (5000 # 1)) None), w')
    /\ find (TransactionRepository.has_id "t1") (transactions w') = Some txn'
    /\ Transaction.state txn' = COMPLETED
    /\ find (UserRepository.has_id 1) (users w') = Some user'
    /\ User.local_balance user' = 5000.
Proof.
  destruct (@complete_deposit_linked_success Z _ _ (ex_remote_paying ex_success) ex_clock
              "t1" ex_world_linked_pending
              (ex_transaction "t1" DEPOSIT PENDING 5000 "k1" 0)
              (ex_payment "p1" "t1" PAY_VERIFIED 5000) (ex_user ACTIVE 0 (Some "layla77"))
              "layla77"
              (IchancyResponse.mk true (JObj [("balance", JNum (5000 # 1))]) JNull
                 (JObj [("balance", JNum (5000 # 1))]))
              (IchancyResponse.mk true (JObj [("balance", JNum (5000 # 1))]) JNull
                 (JObj [("balance", JNum (5000 # 1))]))
              [("balance", JNum (5000 # 1))]
              eq_refl eq_refl eq_refl eq_refl eq_refl eq_refl eq_refl eq_refl eq_refl eq_refl)
    as (w' & txn' & user' & Hrun & Htxn & Hstate & _ & Huser & Hbalance & _).
  exists w', txn', user'. repeat split; assumption.
Defined.

(** X18 on scenario 2 with a remote wallet that credits and then rejects the
    balance query because its breaker has opened. *)
Lemma complete_deposit_balance_query_raises_witness :
  exists (w' : World Z) (txn' : Transaction.t Z),
    WalletService.complete_deposit
      (ex_remote_paying
         (Raise (NetworkException "Service ichancy unavailable (circuit breaker open)")))
      ex_clock "t1" true ex_world_linked_pending
    = (Ret (DepositResult.mk false (Some "t1") "" None JNull
              (Some "Service ichancy unavailable (circuit breaker open)")), w')
    /\ find (TransactionRepository.has_id "t1") (transactions w') = Some txn'
    /\ Transaction.state txn' = FAILED
    /\ users w' = users ex_world_linked_pending
    /\ ichancy_calls w' = [CALL_DEPOSIT "layla77" 5000; CALL_GET_PLAYER_BALANCE "layla77"].
Proof.
  destruct (@complete_deposit_balance_query_raises Z _ _
              (ex_remote_paying
                 (Raise (NetworkException
                           "Service ichancy unavailable (circuit breaker open)")))
              ex_clock "t1" ex_world_linked_pending
              (ex_transaction "t1" DEPOSIT PENDING 5000 "k1" 0)
              (ex_payment "p1" "t1" PAY_VERIFIED 5000) (ex_user ACTIVE 0 (Some "layla77"))
              "layla77"
              (IchancyResponse.mk true (JObj [("balance", JNum (5000 # 1))]) JNull
                 (JObj [("balance", JNum (5000 # 1))]))
              (NetworkException "Service ichancy unavailable (circuit breaker open)")
              eq_refl eq_refl eq_refl eq_refl eq_refl eq_refl eq_refl eq_refl eq_refl)
    as (w' & txn' & Hrun & Htxn & Hstate & _ & _ & Husers & _ & Hcalls).
  exists w', txn'. repeat split; assumption.
Defined.

(** X19 on scenario 4: balance 50,000, a withdrawal of 10,000 that the
    remote wallet accepts. *)
Lemma initiate_withdrawal_success_witness :
  exists (w' : World Z) (txn' : Transaction.t Z) (user' : User.t Z) (payment : Payment.t Z),
    WalletService.initiate_withdrawal (ex_remote_paying ex_success) ex_clock
      (ex_draws "t1" "p1") 1 10000 SYRIATEL_CASH "0999" true None ex_world_funded
    = (Ret (WithdrawalResult.mk true (Some "t1") "Withdrawal queued for processing"
              (Some 40000) None), w')
    /\ find (UserRepository.has_id 1) (users w') = Some user'
    /\ User.local_balance user' = 40000
    /\ User.total_withdrawn user' = 10000
    /\ find (TransactionRepository.has_id "t1") (transactions w') = Some txn'
    /\ Transaction.state txn' = COMPLETED
    /\ Transaction.processing_started_at txn' = None
    /\ payments w' = [payment]
    /\ Payment.state payment = PAY_PENDING.
Proof.
  destruct (@initiate_withdrawal_success Z Money_Z _ (ex_remote_paying ex_success) ex_clock
              (ex_draws "t1" "p1") ex_world_funded 1 10000 SYRIATEL_CASH "0999" true None
              (ex_user ACTIVE 50000 (Some "layla77"))
              eq_refl eq_refl eq_refl ltac:(discriminate) eq_refl eq_refl eq_refl eq_refl
              (ex_intro _ (IchancyResponse.mk true (JObj [("balance", JNum (5000 # 1))])
                             JNull (JObj [("balance", JNum (5000 # 1))]))
                        (conj eq_refl eq_refl)))
    as (w' & txn' & user' & payment & Hrun & Huser & Hbalance & Hwithdrawn & Htxn & Hstate
        & _ & _ & _ & _ & Hstarted & Hpays & Hpending & _).
  exists w', txn', user', payment. repeat split; assumption.
Defined.

(** X20 on a new account: a deposit of 5,000 initiated, verified with an
    arbitrary reference and completed leaves a balance of 5,000. *)
Lemma deposit_end_to_end_witness :
  exists (w' : World Z) (txn' : Transaction.t Z) (user' : User.t Z),
    WalletService.complete_deposit (ex_remote ex_logical_failure) ex_clock "t1" true
      (after (WalletService.verify_payment false ex_clock "p1" "any transfer code" None)
         (after (WalletService.initiate_deposit ex_clock (ex_draws "t1" "p1") 1 5000
                   SYRIATEL_CASH None) ex_world_new_account))
    = (Ret (DepositResult.mk true (Some "t1") "Deposit completed successfully"
              (Some 5000) JNull None), w')
    /\ find (UserRepository.has_id 1) (users w') = Some user'
    /\ User.local_balance user' = 5000
    /\ User.total_deposited user' = 5000
    /\ find (TransactionRepository.has_id "t1") (transactions w') = Some txn'
    /\ Transaction.state txn' = COMPLETED.
Proof.
  destruct (@deposit_end_to_end Z Money_Z _ (ex_remote ex_logical_failure) ex_clock ex_clock
              ex_clock (ex_draws "t1" "p1") ex_world_new_account 1 5000 SYRIATEL_CASH None
              (ex_user ACTIVE 0 None) false "any transfer code" None true
              eq_refl eq_refl eq_refl ltac:(discriminate) eq_refl eq_refl eq_refl eq_refl
              ltac:(discriminate) eq_refl)
    as (w' & txn' & user' & Hrun & Huser & Hbalance & Hdeposited & Htxn & Hstate & _).
  exists w', txn', user'. repeat split; assumption.
Defined.

(** X22 on the Ichancy breaker two failures away from its threshold of
    five, with [max_retries=3] and a call that times out every time: the
    run ends in the circuit-open error after two attempts. *)
Lemma breaker_cuts_retries_short_witness :
  exists (b' : CircuitBreaker.t) (effects : list (Effect Z Z)),
    retry_async ex_attempts_timeout (ex_retry_args (Some ex_breaker_strained))
    = (Raise (NetworkException "Service ichancy unavailable (circuit breaker open)"),
       Some b', effects)
    /\ invocations effects = 2%nat
    /\ List.length (sleeps effects) = 2%nat.
Proof.
  apply (@breaker_cuts_retries_short Z Z Z _ ex_attempts_timeout
           (ex_retry_args (Some ex_breaker_strained)) ex_breaker_strained 1%nat).
  - reflexivity.
  - reflexivity.
  - reflexivity.
  - reflexivity.
  - intros j _. exists (APITimeoutException "ichancy"). split; reflexivity.
  - reflexivity.
Defined.

(** X25 on the breaker of the module, new: an HTTP 500 is returned as a
    failed response after one attempt. *)
Lemma http_response_resets_the_breaker_witness :
  exists (response : IchancyResponse.t) (registry' : Registry) (b' : CircuitBreaker.t),
    @IchancyMethods.deposit Z Z _ ex_config (fun _ => "500") ex_trips_http_500
                            ichancy_registry
    = (Ret response, registry', [CALL_FUNC 0])
    /\ IchancyResponse.success response = false
    /\ IchancyResponse.error response = JStr "HTTP 500: Internal Server Error"
    /\ registry_get "ichancy" registry' = Some b'
    /\ CircuitBreaker._failure_count b' = 0.
Proof.
  destruct (@http_response_resets_the_breaker Z Z _ 3 ex_config (fun _ => "500")
              ex_trips_http_500 ichancy_registry
              (CircuitBreaker.init "ichancy" 5 (seconds 60) 3) 500 "Internal Server Error"
              None ltac:(discriminate) eq_refl eq_refl eq_refl)
    as (response & registry' & b' & Hrun & _ & Hhigh & Hget & _ & Hcount).
  destruct (Hhigh ltac:(discriminate)) as (Hfailed & Herror).
  exists response, registry', b'. repeat split; assumption.
Defined.

(** X26 on a limiter of two requests per sixty: of five requests at
    readings 0, 1, 2, 61 and 62, those at 0, 1, 61 and 62 are let through. *)
Lemma rate_limit_holds_witness :
  fst (RateLimitMiddleware.calls 7 [0; 1; 2; 61; 62] (RateLimitMiddleware.init 2 60))
  = [0; 1; 61; 62]
  /\ within_limit 2 60 []
       (fst (RateLimitMiddleware.calls 7 [0; 1; 2; 61; 62] (RateLimitMiddleware.init 2 60))).
Proof.
  split; [reflexivity|].
  apply (@rate_limit_holds 2 60 7 [0; 1; 2; 61; 62]).
  - reflexivity.
  - repeat first [ apply SSorted_cons | apply SSorted_nil | apply Forall_cons
                 | apply Forall_nil | discriminate ].
Defined.




(** X12 on a payment that was verified and is past its expiry: a further
    [verify_payment] stores it as EXPIRED. *)
Lemma verify_payment_refusals_witness :
  fst (WalletService.verify_payment true ex_clock "p9" "0x01" None ex_world_late_payment)
  = Ret VERIFICATION_EXPIRED
  /\ find (PaymentRepository.has_id "p9")
          (payments (after (WalletService.verify_payment true ex_clock "p9" "0x01" None)
                           ex_world_late_payment))
     = Some (PaymentRepository.state_row (ex_clock 1) PAY_EXPIRED ex_payment_late).
Proof.
  destruct (@verify_payment_refusals Z true ex_clock ex_world_late_payment "p9" "0x01" None)
    as (_ & Hexpired & _).
  destruct (Hexpired ex_payment_late 500 eq_refl eq_refl eq_refl) as (Hrun & Hstored).
  split; [rewrite Hrun; reflexivity | exact Hstored].
Defined.

(** X13 on a pending payment: the first call marks it, the second reports
    that it was processed. *)
Lemma process_payout_once_witness :
  exists w' : World Z,
    process_payout 7 "p1" ex_world_duplicate = (Ret (true, "Payment marked as completed"), w')
    /\ process_payout 8 "p1" w' = (Ret (false, "Payment already processed"), w').
Proof.
  destruct (@process_payout_once Z ex_world_duplicate 7 8 "p1") as (_ & _ & Hpending).
  destruct (Hpending (ex_payment "p1" "t1" PAY_PENDING 5000) eq_refl eq_refl)
    as (w' & Hfirst & _ & _ & _ & _ & _ & Hsecond).
  exists w'. split; assumption.
Defined.

(** X15 on a blocked account. *)
Lemma workflows_refuse_unknown_and_blocked_witness :
  WalletService.initiate_deposit ex_clock (ex_draws "t1" "p1") 1 5000 SYRIATEL_CASH None
    (ex_world (ex_user BLOCKED 20000 (Some "layla77")) [] [])
  = (Raise (UserBlockedException 1 None),
     ex_world (ex_user BLOCKED 20000 (Some "layla77")) [] [])
  /\ WalletService.initiate_deposit ex_clock (ex_draws "t1" "p1") 9 5000 SYRIATEL_CASH None
       ex_world_new_account
     = (Raise (UserNotFoundException 9), ex_world_new_account).
Proof.
  assert (Hone : sqlite_integer 1) by (unfold sqlite_integer; lia).
  assert (Hnine : sqlite_integer 9) by (unfold sqlite_integer; lia).
  split.
  - destruct (@workflows_refuse_unknown_and_blocked Z _ _ (ex_remote ex_logical_failure)
                ex_clock (ex_draws "t1" "p1")
                (ex_world (ex_user BLOCKED 20000 (Some "layla77")) [] [])
                1 5000 SYRIATEL_CASH "0999" true None Hone) as (_ & Hblocked).
    destruct (Hblocked (ex_user BLOCKED 20000 (Some "layla77")) eq_refl eq_refl)
      as (Hdeposit & _).
    exact Hdeposit.
  - destruct (@workflows_refuse_unknown_and_blocked Z _ _ (ex_remote ex_logical_failure)
                ex_clock (ex_draws "t1" "p1") ex_world_new_account
                9 5000 SYRIATEL_CASH "0999" true None Hnine) as (Hunknown & _).
    destruct (Hunknown eq_refl) as (Hdeposit & _). exact Hdeposit.
Defined.

(** X16 on a deposit that is already PROCESSING. *)
Lemma complete_deposit_refusals_witness :
  WalletService.complete_deposit (ex_remote ex_logical_failure) ex_clock "t1" true
                                 ex_world_processing
  = (Ret (DepositResult.mk false (Some "t1") "" None JNull
            (Some "Transaction in invalid state: processing")), ex_world_processing).
Proof.
  destruct (@complete_deposit_refusals Z _ _ (ex_remote ex_logical_failure) ex_clock "t1"
              true ex_world_processing) as (_ & Hstate & _).
  apply (Hstate (ex_transaction "t1" DEPOSIT PROCESSING 5000 "k1" 0) eq_refl).
  discriminate.
Defined.

(** X28 on a blocked user whose username is unchanged. *)
Lemma user_middleware_registers_then_gates_witness :
  exists (o : outcome Z (option unit)) (w' : World Z),
    o = Ret None
    /\ w' = ex_world (ex_user BLOCKED 0 None) [] []
    /\ forall handler : option (User.t Z) -> Py Z unit,
         UserMiddleware.call ex_clock (Some (1, Some "layla")) handler
                             (ex_world (ex_user BLOCKED 0 None) [] [])
         = (o, w').
Proof.
  destruct (@user_middleware_registers_then_gates Z _ unit ex_clock 1 (Some "layla")
              (ex_world (ex_user BLOCKED 0 None) [] [])) as (_ & Hblocked & _).
  destruct (Hblocked (ex_user BLOCKED 0 None) eq_refl eq_refl) as (o & w' & _ & Hsame & Hrun).
  destruct (Hsame eq_refl) as (Ho & Hw).
  exists o, w'. repeat split; assumption.
Defined.

(** X29 on scenario 2: the verified payment is set back to PENDING, and an
    update for a payment that does not exist returns [True]. *)
Lemma payment_update_state_unchecked_witness :
  PaymentRepository.update_state 9 "p7" PAY_FAILED ex_world_linked_pending
  = (Ret true, ex_world_linked_pending)
  /\ exists stored : Payment.t Z,
       fst (PaymentRepository.get_by_id "p1"
              (after (PaymentRepository.update_state 9 "p1" PAY_PENDING)
                     ex_world_linked_pending)) = Ret (Some stored)
       /\ Payment.state stored = PAY_PENDING.
Proof.
  split.
  - destruct (@payment_update_state_unchecked Z ex_world_linked_pending 9 "p7" PAY_FAILED)
      as (_ & Hnone & _).
    destruct (Hnone eq_refl) as (Hrun & _). exact Hrun.
  - destruct (@payment_update_state_unchecked Z ex_world_linked_pending 9 "p1" PAY_PENDING)
      as (_ & _ & Hstored & _).
    destruct (Hstored (ex_payment "p1" "t1" PAY_VERIFIED 5000) eq_refl)
      as (stored & Hget & Hstate & _).
    exists stored. split; assumption.
Defined.

(** X30 on a new account, and on a user that does not exist. *)
Lemma balance_queries_read_only_witness :
  WalletService.get_balance (ex_remote ex_logical_failure) 1 ex_world_new_account
  = (Ret (BalanceSummary.mk 0 JNull 0 0), ex_world_new_account)
  /\ WalletService.get_balance (ex_remote ex_logical_failure) 9 ex_world_new_account
     = (Raise (UserNotFoundException 9), ex_world_new_account)
  /\ WalletService.sync_ichancy_balance (ex_remote ex_logical_failure) 9 ex_world_new_account
     = (Ret JNull, ex_world_new_account).
Proof.
  assert (Hone : sqlite_integer 1) by (unfold sqlite_integer; lia).
  assert (Hnine : sqlite_integer 9) by (unfold sqlite_integer; lia).
  split; [|split].
  - destruct (@balance_queries_read_only Z (ex_remote ex_logical_failure) 1
                ex_world_new_account Hone) as (_ & _ & Hunlinked & _).
    destruct (Hunlinked (ex_user ACTIVE 0 None) eq_refl eq_refl) as (Hget & _). exact Hget.
  - destruct (@balance_queries_read_only Z (ex_remote ex_logical_failure) 9
                ex_world_new_account Hnine) as (_ & Hunknown & _).
    destruct (Hunknown eq_refl) as (Hget & _). exact Hget.
  - destruct (@balance_queries_read_only Z (ex_remote ex_logical_failure) 9
                ex_world_new_account Hnine) as (_ & Hunknown & _).
    destruct (Hunknown eq_refl) as (_ & Hsync). exact Hsync.
Defined.
